(** * Verification of the documentation renderer of screencapturekit-rs

    The development embeds [scripts/download_apple_docs.py] in Rocq: the
    inline-content reducer ([extract_text_from_content]), the declaration
    formatter ([format_declaration]), the per-document renderer
    ([json_to_markdown], [format_child_doc]) and the aggregator
    ([generate_api_complete]).

    - Documents are the values [json.load] produces: [None], booleans,
      integers, strings, lists and dictionaries.  Floating-point numbers are
      not part of the embedding.
    - A Python [str] is a Rocq [string]; a character is a code point below
      256.
    - A Python exception is a [Raise] outcome carrying the exception class.
    - The network is the only effect the rendering depends on: [fetch_json]
      is an event of the program tree [prog], answered when the tree is
      run, by a value or by an exception that [fetch_json] lets through.
      [print] and [time.sleep] do not influence any value and are left
      out.
    - Memory is not bounded: a string may be as long as its index type
      allows. *)

From Stdlib Require Import String Ascii List ZArith Bool Lia DecimalString.
From Stdlib Require Import Sorting.Sorted Sorting.Permutation OrderedTypeEx.
Import ListNotations.
Local Open Scope list_scope.
Local Open Scope string_scope.

(** List concatenation, kept apart from string concatenation [++]. *)
Local Infix "+++" := (@app _) (right associativity, at level 60).

(** ** Strings: the [str] methods the script calls *)

Module Str.

Definition nl : string := String (ascii_of_nat 10) "".

Definition slash : ascii := "/"%char.

(** [sep.join(parts)] *)
Fixpoint join (sep : string) (parts : list string) : string :=
  match parts with
  | [] => ""
  | [p] => p
  | p :: rest => p ++ sep ++ join sep rest
  end.

(** [s.split(c)] for a one-character separator: never empty. *)
Fixpoint split (c : ascii) (s : string) : list string :=
  match s with
  | EmptyString => [""]
  | String a r =>
      if Ascii.eqb a c then "" :: split c r
      else match split c r with
           | h :: t => String a h :: t
           | [] => [String a ""]
           end
  end.

(** [c in s] for a one-character needle. *)
Fixpoint contains (c : ascii) (s : string) : bool :=
  match s with
  | EmptyString => false
  | String a r => Ascii.eqb a c || contains c r
  end.

(** [s.startswith(p)] *)
Definition startswith (p s : string) : bool := String.prefix p s.

(** [s.replace(old, new)] for a non-empty [old]: every non-overlapping
    occurrence, left to right.  [skip] counts the characters of a matched
    occurrence still to be dropped. *)
Fixpoint replace_from (old new : string) (skip : nat) (s : string) : string :=
  match s with
  | EmptyString => ""
  | String a r =>
      match skip with
      | S k => replace_from old new k r
      | O =>
          if String.prefix old s
          then new ++ replace_from old new (String.length old - 1) r
          else String a (replace_from old new 0 r)
      end
  end.

Definition replace (old new s : string) : string := replace_from old new 0 s.

(** [s.lower()] on code points below 256: the letters A-Z and the
    capital letters of the Latin-1 supplement (C0-DE without D7). *)
Definition lower_char (a : ascii) : ascii :=
  let n := nat_of_ascii a in
  if ((65 <=? n) && (n <=? 90))%nat then ascii_of_nat (n + 32)
  else if ((192 <=? n) && (n <=? 222) && negb (n =? 215))%nat
       then ascii_of_nat (n + 32)
       else a.

Fixpoint lower (s : string) : string :=
  match s with
  | EmptyString => ""
  | String a r => String (lower_char a) (lower r)
  end.

(** ['#' * n] *)
Fixpoint repeat (s : string) (n : nat) : string :=
  match n with
  | O => ""
  | S k => s ++ repeat s k
  end.

(** [str(n)] for an integer. *)
Definition of_Z (z : Z) : string := NilZero.string_of_int (Z.to_int z).

Fixpoint chars (s : string) : list string :=
  match s with
  | EmptyString => []
  | String a r => String a "" :: chars r
  end.

(** The last element of a non-empty list of strings ([l[-1]]). *)
Definition last (l : list string) : string := List.last l "".

(** [s.split("/")[-1]] *)
Definition last_segment (s : string) : string := last (split slash s).

End Str.

(** ** Values and exceptions *)

Unset Elimination Schemes.
Inductive value : Type :=
| JNull
| JBool (b : bool)
| JInt (z : Z)
| JStr (s : string)
| JArr (items : list value)
| JObj (fields : list (string * value)).
Set Elimination Schemes.

(** The exception classes the script can raise on a value.
    [RecursionError] is what a traversal raises when its recursion budget
    runs out; [extract_fuel_budget] shows that the reducer never does. *)
Inductive exn : Type :=
| AttributeError
| TypeError
| IndexError
| KeyError
| RecursionError
| OverflowError
| UnicodeDecodeError
| TimeoutError
| OSError.

Inductive outcome (A : Type) : Type :=
| Ok (a : A)
| Raise (e : exn).
Arguments Ok {A} a.
Arguments Raise {A} e.

Definition obind {A B : Type} (m : outcome A) (f : A -> outcome B) : outcome B :=
  match m with
  | Ok a => f a
  | Raise e => Raise e
  end.

Declare Scope outcome_scope.
Delimit Scope outcome_scope with O.
Bind Scope outcome_scope with outcome.
Notation "x <- e ;; k" := (obind e (fun x => k))
  (at level 100, e at next level, right associativity) : outcome_scope.

(** A [for] loop whose body appends to a list: the appended items, in order. *)
Fixpoint ofor {A B : Type} (l : list A) (body : A -> outcome (list B)) : outcome (list B) :=
  match l with
  | [] => Ok []
  | a :: rest => (xs <- body a ;; ys <- ofor rest body ;; Ok (xs +++ ys))%O
  end.

(** ** The Python operations the script applies to values *)

Module Py.

(** [bool(v)]: the truth value an [if] tests. *)
Definition truthy (v : value) : bool :=
  match v with
  | JNull => false
  | JBool b => b
  | JInt z => negb (z =? 0)%Z
  | JStr s => negb (String.eqb s "")
  | JArr items => match items with [] => false | _ => true end
  | JObj fields => match fields with [] => false | _ => true end
  end.

(** [v == "lit"] *)
Definition eq_str (v : value) (lit : string) : bool :=
  match v with
  | JStr s => String.eqb s lit
  | _ => false
  end.

(** Key lookup in a dictionary (each key occurs once). *)
Fixpoint lookup (fields : list (string * value)) (k : string) : option value :=
  match fields with
  | [] => None
  | (k', v) :: rest => if String.eqb k' k then Some v else lookup rest k
  end.

(** [d.get(k, default)]: only a [dict] has the method. *)
Definition get (d : value) (k : string) (default : value) : outcome value :=
  match d with
  | JObj fields =>
      match lookup fields k with
      | Some v => Ok v
      | None => Ok default
      end
  | _ => Raise AttributeError
  end.

(** [k in d] as the script uses it, on a value known to be a [dict]. *)
Definition has_key (fields : list (string * value)) (k : string) : bool :=
  match lookup fields k with
  | Some _ => true
  | None => false
  end.

(** The items a [for] loop over [v] visits: the elements of a list, the
    characters of a string, the keys of a dictionary. *)
Definition iter (v : value) : outcome (list value) :=
  match v with
  | JArr items => Ok items
  | JStr s => Ok (map JStr (Str.chars s))
  | JObj fields => Ok (map (fun kv => JStr (fst kv)) fields)
  | _ => Raise TypeError
  end.

Definition hex_digit (n : nat) : ascii :=
  if (n <? 10)%nat then ascii_of_nat (48 + n) else ascii_of_nat (87 + n).

Definition hex2 (n : nat) : string :=
  String (hex_digit (n / 16)) (String (hex_digit (n mod 16)) "").

(** A character is printed as itself by [repr] unless it is a control
    character, a no-break space or a soft hyphen. *)
Definition printable (n : nat) : bool :=
  ((32 <=? n) && (n <? 127) || (161 <=? n) && negb (n =? 173))%nat.

Definition repr_char (quote : ascii) (a : ascii) : string :=
  let n := nat_of_ascii a in
  if Ascii.eqb a quote || Ascii.eqb a "\"%char then String "\"%char (String a "")
  else if (n =? 9)%nat then "\t"
  else if (n =? 10)%nat then "\n"
  else if (n =? 13)%nat then "\r"
  else if printable n then String a ""
  else "\x" ++ hex2 n.

Fixpoint repr_chars (quote : ascii) (s : string) : string :=
  match s with
  | EmptyString => ""
  | String a r => repr_char quote a ++ repr_chars quote r
  end.

Definition squote : ascii := "'"%char.
Definition dquote : ascii := ascii_of_nat 34.

(** [repr(s)] for a string. *)
Definition repr_str (s : string) : string :=
  let quote :=
    if Str.contains squote s && negb (Str.contains dquote s)
    then dquote else squote in
  String quote (repr_chars quote s ++ String quote "").

(** [repr(v)] *)
Fixpoint repr (v : value) : string :=
  match v with
  | JNull => "None"
  | JBool b => if b then "True" else "False"
  | JInt z => Str.of_Z z
  | JStr s => repr_str s
  | JArr items => "[" ++ Str.join ", " (map repr items) ++ "]"
  | JObj fields =>
      "{" ++ Str.join ", " (map (fun kv => repr_str (fst kv) ++ ": " ++ repr (snd kv)) fields)
          ++ "}"
  end.

(** [f"{v}"]: a string is inserted as it is, anything else through
    [str(v)], which is [repr(v)] for the other values. *)
Definition format (v : value) : string :=
  match v with
  | JStr s => s
  | _ => repr v
  end.

Fixpoint strings (items : list value) : option (list string) :=
  match items with
  | [] => Some []
  | JStr s :: rest =>
      match strings rest with
      | Some l => Some (s :: l)
      | None => None
      end
  | _ :: _ => None
  end.

(** [sep.join(items)]: every item must be a string. *)
Definition join (sep : string) (items : list value) : outcome string :=
  match strings items with
  | Some l => Ok (Str.join sep l)
  | None => Raise TypeError
  end.

(** [v[0]] *)
Definition first (v : value) : outcome value :=
  match v with
  | JArr (x :: _) => Ok x
  | JArr [] => Raise IndexError
  | JStr (String a _) => Ok (JStr (String a ""))
  | JStr EmptyString => Raise IndexError
  | JObj _ => Raise KeyError
  | _ => Raise TypeError
  end.

(** The integers that fit the index type of a sequence,
    [-2**63 .. 2**63 - 1]. *)
Definition index_sized (z : Z) : bool := ((- 2 ^ 63 <=? z) && (z <? 2 ^ 63))%Z.

(** ['#' * v]: the count must be an integer ([bool] is one); a count that
    does not fit the index type raises [OverflowError], a count of zero or
    less gives the empty string. *)
Definition times (s : string) (v : value) : outcome string :=
  match v with
  | JInt z =>
      if index_sized z then Ok (Str.repeat s (Z.to_nat z)) else Raise OverflowError
  | JBool b => Ok (Str.repeat s (if b then 1 else 0))
  | _ => Raise TypeError
  end.

(** Lists and dictionaries cannot be dictionary keys. *)
Definition hashable (v : value) : bool :=
  match v with
  | JArr _ | JObj _ => false
  | _ => true
  end.

Definition as_int (v : value) : option Z :=
  match v with
  | JInt z => Some z
  | JBool b => Some (if b then 1 else 0)%Z
  | _ => None
  end.

(** Equality of dictionary keys: [True == 1] and [False == 0]. *)
Definition key_eqb (a b : value) : bool :=
  match a, b with
  | JNull, JNull => true
  | JStr s, JStr t => String.eqb s t
  | _, _ =>
      match as_int a, as_int b with
      | Some x, Some y => (x =? y)%Z
      | _, _ => false
      end
  end.

(** [v.split("/")[-1]]: only a [str] has [split]. *)
Definition last_segment (v : value) : outcome string :=
  match v with
  | JStr s => Ok (Str.last_segment s)
  | _ => Raise AttributeError
  end.

(** [v.startswith(p)] *)
Definition startswith (v : value) (p : string) : outcome bool :=
  match v with
  | JStr s => Ok (Str.startswith p s)
  | _ => Raise AttributeError
  end.

(** ["/" in v] *)
Definition has_slash (v : value) : outcome bool :=
  match v with
  | JStr s => Ok (Str.contains Str.slash s)
  | JArr items => Ok (existsb (fun x => eq_str x "/") items)
  | JObj fields => Ok (has_key fields "/")
  | _ => Raise TypeError
  end.

End Py.

(** ** Programs that fetch documents

    A program is the tree of its requests.  A request is answered by the
    value [fetch_json(url)] returns (the parsed document, or [None] for the
    three errors it catches: [HTTPError], [URLError] and
    [JSONDecodeError]), or by an exception it does not catch (a decoding
    error, a time-out while reading), which is then raised at the point of
    the call. *)

Inductive prog (A : Type) : Type :=
| Ret (a : A)
| Throw (e : exn)
| Fetch (url : string) (k : outcome value -> prog A).
Arguments Ret {A} a.
Arguments Throw {A} e.
Arguments Fetch {A} url k.

Fixpoint pbind {A B : Type} (m : prog A) (f : A -> prog B) : prog B :=
  match m with
  | Ret a => f a
  | Throw e => Throw e
  | Fetch url k => Fetch url (fun r => pbind (k r) f)
  end.

Declare Scope prog_scope.
Delimit Scope prog_scope with P.
Bind Scope prog_scope with prog.
Notation "x <- e ;; k" := (pbind e (fun x => k))
  (at level 100, e at next level, right associativity) : prog_scope.

(** A computation without requests, inside a program. *)
Definition lift {A : Type} (m : outcome A) : prog A :=
  match m with
  | Ok a => Ret a
  | Raise e => Throw e
  end.

Fixpoint pfor {A B : Type} (l : list A) (body : A -> prog (list B)) : prog (list B) :=
  match l with
  | [] => Ret []
  | a :: rest => (xs <- body a ;; ys <- pfor rest body ;; Ret (xs +++ ys))%P
  end.

(** [try: m except Exception: handler] *)
Fixpoint catch {A : Type} (m : prog A) (handler : exn -> prog A) : prog A :=
  match m with
  | Ret a => Ret a
  | Throw e => handler e
  | Fetch url k => Fetch url (fun r => catch (k r) handler)
  end.

(** Running a program against a network on which every call of
    [fetch_json] returns: the outcome and the requests made, in order. *)
Fixpoint run {A : Type} (net : string -> value) (m : prog A) : outcome A * list string :=
  match m with
  | Ret a => (Ok a, [])
  | Throw e => (Raise e, [])
  | Fetch url k => let r := run net (k (Ok (net url))) in (fst r, url :: snd r)
  end.

(** Running a program against the open network, on which a call of
    [fetch_json] returns a value or lets an exception through. *)
Fixpoint run_web {A : Type} (web : string -> outcome value) (m : prog A)
  : outcome A * list string :=
  match m with
  | Ret a => (Ok a, [])
  | Throw e => (Raise e, [])
  | Fetch url k => let r := run_web web (k (web url)) in (fst r, url :: snd r)
  end.

Definition result_web {A : Type} (web : string -> outcome value) (m : prog A) : outcome A :=
  fst (run_web web m).


Definition result {A : Type} (net : string -> value) (m : prog A) : outcome A :=
  fst (run net m).

Definition requests {A : Type} (net : string -> value) (m : prog A) : list string :=
  snd (run net m).

(** ** The script *)

Definition DOCS_JSON_BASE : string :=
  "https://developer.apple.com/tutorials/data/documentation".

(** Nesting depth of a value: the recursion budget a traversal needs. *)
Fixpoint depth (v : value) : nat :=
  match v with
  | JArr items => fold_right (fun x d => Nat.max (S (depth x)) d) 0%nat items
  | JObj fields => fold_right (fun kv d => Nat.max (S (depth (snd kv))) d) 0%nat fields
  | _ => 0%nat
  end.

(** The body of the loop of [extract_text_from_content]: what one item
    appends to [result].  [recur] is the recursive call. *)
Definition extract_item (recur : value -> outcome string) (item : value)
  : outcome (list value) :=
  match item with
  | JStr _ => Ok [item]
  | JObj fields =>
      (item_type <- Py.get item "type" (JStr "") ;;
       if Py.eq_str item_type "text" then
         text <- Py.get item "text" (JStr "") ;;
         Ok [text]
       else if Py.eq_str item_type "codeVoice" then
         code <- Py.get item "code" (JStr "") ;;
         Ok [JStr ("`" ++ Py.format code ++ "`")]
       else if Py.eq_str item_type "reference" then
         identifier <- Py.get item "identifier" (JStr "") ;;
         has <- Py.has_slash identifier ;;
         name <- (if has : bool
                  then (seg <- Py.last_segment identifier ;; Ok (JStr seg))
                  else Ok identifier) ;;
         Ok [JStr ("`" ++ Py.format name ++ "`")]
       else if Py.eq_str item_type "emphasis" then
         children <- Py.get item "inlineContent" (JArr []) ;;
         inner <- recur children ;;
         Ok [JStr ("*" ++ inner ++ "*")]
       else if Py.eq_str item_type "strong" then
         children <- Py.get item "inlineContent" (JArr []) ;;
         inner <- recur children ;;
         Ok [JStr ("**" ++ inner ++ "**")]
       else if Py.eq_str item_type "link" then
         children <- Py.get item "inlineContent" (JArr []) ;;
         inner <- recur children ;;
         url <- Py.get item "destination" (JStr "") ;;
         Ok [JStr ("[" ++ inner ++ "](" ++ Py.format url ++ ")")]
       else if Py.has_key fields "inlineContent" then
         children <- Py.get item "inlineContent" JNull ;;
         inner <- recur children ;;
         Ok [JStr inner]
       else if Py.has_key fields "content" then
         children <- Py.get item "content" JNull ;;
         inner <- recur children ;;
         Ok [JStr inner]
       else Ok [])%O
  | _ => Ok []
  end.

(** [extract_text_from_content] with an explicit recursion budget. *)
Fixpoint extract_fuel (fuel : nat) (content : value) : outcome string :=
  match fuel with
  | O => Raise RecursionError
  | S n =>
      (items <- Py.iter content ;;
       result <- ofor items (extract_item (extract_fuel n)) ;;
       Py.join "" result)%O
  end.

Definition extract_text_from_content (content : value) : outcome string :=
  extract_fuel (S (depth content)) content.

Definition format_declaration (decl : value) : outcome string :=
  (tokens <- Py.get decl "tokens" (JArr []) ;;
   items <- Py.iter tokens ;;
   texts <- ofor items (fun t => text <- Py.get t "text" (JStr "") ;; Ok [text]) ;;
   Py.join "" texts)%O.

Definition doc_prefix : string := "doc://com.apple.screencapturekit/documentation/".

(** [identifier_to_path]: [None] when the identifier is foreign. *)
Definition identifier_to_path (identifier : string) : option string :=
  if negb (Str.startswith doc_prefix identifier) then None
  else Some (Str.lower (Str.replace doc_prefix "" identifier)).

(** [fetch_json]: the answer of the network, a value returned or an
    exception let through. *)
Definition fetch_json (url : string) : prog value := Fetch url lift.

Definition fetch_child_doc (identifier : string) : prog value :=
  match identifier_to_path identifier with
  | None => Ret JNull
  | Some path =>
      if negb (Py.truthy (JStr path)) then Ret JNull
      else fetch_json (DOCS_JSON_BASE ++ "/" ++ path ++ ".json")
  end.

(** A loop that updates local variables: the state after the last item. *)
Fixpoint ofold {S A : Type} (l : list A) (st : S) (step : S -> A -> outcome S) : outcome S :=
  match l with
  | [] => Ok st
  | a :: rest => (st' <- step st a ;; ofold rest st' step)%O
  end.

(** The inner loop of [format_child_doc] over a content section: the text of
    the first paragraph whose text is not empty, at which the loop breaks. *)
Fixpoint first_nonempty_paragraph (items : list value) : outcome (option string) :=
  match items with
  | [] => Ok None
  | content_item :: rest =>
      (type <- Py.get content_item "type" JNull ;;
       if Py.eq_str type "paragraph" then
         inline <- Py.get content_item "inlineContent" (JArr []) ;;
         desc <- extract_text_from_content inline ;;
         if Py.truthy (JStr desc) then Ok (Some desc)
         else first_nonempty_paragraph rest
       else first_nonempty_paragraph rest)%O
  end.

(** One iteration of the loop of [format_child_doc] over the primary
    sections; the state is [(declaration, description)]. *)
Definition child_section (st : string * string) (section : value)
  : outcome (string * string) :=
  (kind <- Py.get section "kind" (JStr "") ;;
   if Py.eq_str kind "declarations" then
     declarations <- Py.get section "declarations" (JArr []) ;;
     items <- Py.iter declarations ;;
     match items with
     | decl :: _ => declaration <- format_declaration decl ;; Ok (declaration, snd st)
     | [] => Ok st
     end
   else if Py.eq_str kind "content" then
     content <- Py.get section "content" (JArr []) ;;
     items <- Py.iter content ;;
     found <- first_nonempty_paragraph items ;;
     match found with
     | Some desc => Ok (fst st, desc)
     | None => Ok st
     end
   else Ok st)%O.

Definition format_child_doc (data : value) : outcome string :=
  if negb (Py.truthy data) then Ok ""
  else
    (metadata <- Py.get data "metadata" (JObj []) ;;
     title <- Py.get metadata "title" (JStr "") ;;
     primary <- Py.get data "primaryContentSections" (JArr []) ;;
     sections <- Py.iter primary ;;
     st <- ofold sections ("", "") child_section ;;
     let declaration := fst st in
     let description := snd st in
     Ok (Str.join Str.nl
           ((if Py.truthy (JStr declaration)
             then ["```swift"; declaration; "```"] else [])
            +++ (if Py.truthy (JStr description) then [description] else []))))%O.

(** *** [json_to_markdown] *)

(** The platform loop: the entry of one platform, if it has a name and a
    version. *)
Definition platform_entry (p : value) : outcome (list string) :=
  (name <- Py.get p "name" (JStr "") ;;
   intro <- Py.get p "introducedAt" (JStr "") ;;
   if Py.truthy name && Py.truthy intro
   then Ok [Py.format name ++ " " ++ Py.format intro ++ "+"]
   else Ok [])%O.

Definition availability_lines (platforms : value) : outcome (list string) :=
  if Py.truthy platforms then
    (items <- Py.iter platforms ;;
     avail <- ofor items platform_entry ;;
     match avail with
     | [] => Ok []
     | _ => Ok ["**Availability:** " ++ Str.join ", " avail; ""]
     end)%O
  else Ok [].

(** One declaration of a [declarations] section. *)
Definition declaration_lines (decl : value) : outcome (list string) :=
  (code <- format_declaration decl ;;
   languages <- Py.get decl "languages" (JArr [JStr "swift"]) ;;
   lang <- Py.first languages ;;
   Ok ["```" ++ Py.format lang; code; "```"; ""])%O.

(** A loop that takes the text of the first paragraph and breaks. *)
Fixpoint first_paragraph (items : list value) : outcome string :=
  match items with
  | [] => Ok ""
  | c :: rest =>
      (type <- Py.get c "type" JNull ;;
       if Py.eq_str type "paragraph" then
         inline <- Py.get c "inlineContent" (JArr []) ;;
         extract_text_from_content inline
       else first_paragraph rest)%O
  end.

(** The paragraphs of one item of an unordered list. *)
Definition list_item_lines (list_item : value) : outcome (list string) :=
  (item_content <- Py.get list_item "content" (JArr []) ;;
   blocks <- Py.iter item_content ;;
   ofor blocks (fun ic =>
     type <- Py.get ic "type" JNull ;;
     if Py.eq_str type "paragraph" then
       inline <- Py.get ic "inlineContent" (JArr []) ;;
       text <- extract_text_from_content inline ;;
       Ok ["- " ++ text]
     else Ok []))%O.

(** One block of a [content] section. *)
Definition content_item_lines (content_item : value) : outcome (list string) :=
  (content_type <- Py.get content_item "type" (JStr "") ;;
   if Py.eq_str content_type "heading" then
     level <- Py.get content_item "level" (JInt 2) ;;
     inline <- Py.get content_item "inlineContent" (JArr []) ;;
     text <- extract_text_from_content inline ;;
     hashes <- Py.times "#" level ;;
     Ok [hashes ++ " " ++ text; ""]
   else if Py.eq_str content_type "paragraph" then
     inline <- Py.get content_item "inlineContent" (JArr []) ;;
     text <- extract_text_from_content inline ;;
     Ok [text; ""]
   else if Py.eq_str content_type "codeListing" then
     lang <- Py.get content_item "syntax" (JStr "swift") ;;
     code_lines <- Py.get content_item "code" (JArr []) ;;
     items <- Py.iter code_lines ;;
     code <- Py.join Str.nl items ;;
     Ok ["```" ++ Py.format lang; code; "```"; ""]
   else if Py.eq_str content_type "unorderedList" then
     list_items <- Py.get content_item "items" (JArr []) ;;
     items <- Py.iter list_items ;;
     bullets <- ofor items list_item_lines ;;
     Ok (bullets +++ [""])
   else Ok [])%O.

(** One parameter of a [parameters] section. *)
Definition parameter_lines (param : value) : outcome (list string) :=
  (name <- Py.get param "name" (JStr "") ;;
   content <- Py.get param "content" (JArr []) ;;
   items <- Py.iter content ;;
   desc <- first_paragraph items ;;
   Ok ["- **" ++ Py.format name ++ "**: " ++ desc])%O.

(** One primary section. *)
Definition section_lines (section : value) : outcome (list string) :=
  (kind <- Py.get section "kind" (JStr "") ;;
   if Py.eq_str kind "declarations" then
     declarations <- Py.get section "declarations" (JArr []) ;;
     items <- Py.iter declarations ;;
     blocks <- ofor items declaration_lines ;;
     Ok (["## Declaration"; ""] +++ blocks)
   else if Py.eq_str kind "content" then
     content <- Py.get section "content" (JArr []) ;;
     items <- Py.iter content ;;
     ofor items content_item_lines
   else if Py.eq_str kind "parameters" then
     parameters <- Py.get section "parameters" (JArr []) ;;
     items <- Py.iter parameters ;;
     bullets <- ofor items parameter_lines ;;
     Ok (["## Parameters"; ""] +++ bullets +++ [""])
   else Ok [])%O.

Definition own_namespace : string := "doc://com.apple.screencapturekit".

(** [refs.get(identifier, {})], the key being any value: a list or a
    dictionary cannot be hashed, and the keys of [refs] are strings. *)
Definition get_key (d : value) (k : value) (default : value) : outcome value :=
  match d with
  | JObj fields =>
      if Py.hashable k then
        match k with
        | JStr s => Py.get d s default
        | _ => Ok default
        end
      else Raise TypeError
  | _ => Raise AttributeError
  end.

(** The title and abstract the document's [references] give for an
    identifier: [(ref_title, ref_abstract)]. *)
Definition reference_summary (data identifier : value) : outcome (value * value) :=
  (refs <- Py.get data "references" (JObj []) ;;
   ref <- get_key refs identifier (JObj []) ;;
   fallback <- (match ref with
                | JObj _ => Py.last_segment identifier
                | _ => Raise AttributeError
                end) ;;
   ref_title <- Py.get ref "title" (JStr fallback) ;;
   ref_abstract <- Py.get ref "abstract" (JArr []) ;;
   Ok (ref_title, ref_abstract))%O.

(** The summary of one member of a topic: its subheading and abstract. *)
Definition member_summary_lines (data identifier : value) : outcome (list string) :=
  (summary <- reference_summary data identifier ;;
   let ref_title := fst summary in
   let ref_abstract := snd summary in
   abstract_text <- (if Py.truthy ref_abstract
                     then extract_text_from_content ref_abstract
                     else Ok "") ;;
   Ok (["#### " ++ Py.format ref_title; ""]
       +++ (if Py.truthy (JStr abstract_text) then [abstract_text; ""] else [])))%O.

(** The expansion of one member: the child document is fetched and
    formatted. *)
Definition member_child_lines (identifier : string) : prog (list string) :=
  (child_data <- fetch_child_doc identifier ;;
   if Py.truthy child_data then
     child_content <- lift (format_child_doc child_data) ;;
     if Py.truthy (JStr child_content) then Ret [child_content; ""] else Ret []
   else Ret [])%P.

(** One iteration of the loop over the identifiers of a topic. *)
Definition member_lines (data : value) (include_children : bool) (identifier : value)
  : prog (list string) :=
  (summary <- lift (member_summary_lines data identifier) ;;
   expand <- (if include_children
              then lift (Py.startswith identifier own_namespace)
              else Ret false) ;;
   child <- (if expand : bool
             then match identifier with
                  | JStr s => member_child_lines s
                  | _ => Throw AttributeError
                  end
             else Ret []) ;;
   Ret (summary +++ child))%P.

(** One iteration of the loop over the topic sections. *)
Definition topic_lines (data : value) (include_children : bool) (topic : value)
  : prog (list string) :=
  (topic_title <- lift (Py.get topic "title" (JStr "")) ;;
   identifiers <- lift (Py.get topic "identifiers" (JArr [])) ;;
   items <- lift (Py.iter identifiers) ;;
   members <- pfor items (member_lines data include_children) ;;
   Ret (["### " ++ Py.format topic_title; ""] +++ members +++ [""]))%P.

(** One bullet of the See Also section. *)
Definition see_also_entry (data identifier : value) : outcome (list string) :=
  (summary <- reference_summary data identifier ;;
   Ok ["- " ++ Py.format (fst summary)])%O.

Definition see_also_section_lines (data section : value) : outcome (list string) :=
  (identifiers <- Py.get section "identifiers" (JArr []) ;;
   items <- Py.iter identifiers ;;
   ofor items (see_also_entry data))%O.

Definition json_to_markdown (data : value) (path : string) (include_children : bool)
  : prog string :=
  (metadata <- lift (Py.get data "metadata" (JObj [])) ;;
   title <- lift (Py.get metadata "title" (JStr (Str.last_segment path))) ;;
   role <- lift (Py.get metadata "role" (JStr "")) ;;
   platforms <- lift (Py.get metadata "platforms" (JArr [])) ;;
   let header := ["# " ++ Py.format title; ""] in
   let badge := if Py.truthy role then ["**Type:** " ++ Py.format role; ""] else [] in
   availability <- lift (availability_lines platforms) ;;
   primary <- lift (Py.get data "primaryContentSections" (JArr [])) ;;
   sections <- lift (Py.iter primary) ;;
   body <- lift (ofor sections section_lines) ;;
   topics <- lift (Py.get data "topicSections" (JArr [])) ;;
   topic_part <- (if Py.truthy topics then
                    items <- lift (Py.iter topics) ;;
                    groups <- pfor items (topic_lines data include_children) ;;
                    Ret (["## Topics"; ""] +++ groups)
                  else Ret []) ;;
   see_also <- lift (Py.get data "seeAlsoSections" (JArr [])) ;;
   see_part <- (if Py.truthy see_also then
                  items <- lift (Py.iter see_also) ;;
                  bullets <- lift (ofor items (see_also_section_lines data)) ;;
                  Ret (["## See Also"; ""] +++ bullets +++ [""])
                else Ret []) ;;
   Ret (Str.join Str.nl
          (header +++ badge +++ availability +++ body +++ topic_part +++ see_part)))%P.

(** *** [generate_api_complete] *)

(** A recorded member: the dictionary [{"name", "declaration", "kind",
    "topic"}]. *)
Record member : Type := Member {
  member_name : value;
  member_declaration : string;
  member_kind : value;
  member_topic : value
}.

(** An entry of [api_by_class]: [{"declaration", "members"}]; the
    declaration is [None] or a string. *)
Record class_info : Type := ClassInfo {
  info_declaration : option string;
  info_members : list member
}.

(** A dictionary whose keys are computed values, in insertion order. *)
Definition dict (V : Type) : Type := list (value * V).

Fixpoint dict_find {V : Type} (d : dict V) (k : value) : option V :=
  match d with
  | [] => None
  | (k', v) :: rest => if Py.key_eqb k' k then Some v else dict_find rest k
  end.

(** [d[k] = v] on a hashable key: an existing key keeps its place. *)
Fixpoint dict_put {V : Type} (d : dict V) (k : value) (v : V) : dict V :=
  match d with
  | [] => [(k, v)]
  | (k', v') :: rest =>
      if Py.key_eqb k' k then (k', v) :: rest else (k', v') :: dict_put rest k v
  end.

Definition dict_set {V : Type} (d : dict V) (k : value) (v : V) : outcome (dict V) :=
  if Py.hashable k then Ok (dict_put d k v) else Raise TypeError.

Definition dict_keys {V : Type} (d : dict V) : list value := map fst d.

(** Stable insertion sort, the order [sorted] produces. *)
Fixpoint insert {A : Type} (leb : A -> A -> bool) (x : A) (l : list A) : list A :=
  match l with
  | [] => [x]
  | y :: rest => if leb x y then x :: l else y :: insert leb x rest
  end.

Fixpoint sort {A : Type} (leb : A -> A -> bool) (l : list A) : list A :=
  match l with
  | [] => []
  | x :: rest => insert leb x (sort leb rest)
  end.

Definition all_ints (l : list value) : bool :=
  forallb (fun v => match Py.as_int v with Some _ => true | None => false end) l.

Definition int_leb (a b : value) : bool :=
  match Py.as_int a, Py.as_int b with
  | Some x, Some y => (x <=? y)%Z
  | _, _ => true
  end.

(** [sorted(keys)]: strings are ordered by code points, integers by value;
    values of different kinds cannot be compared. *)
Definition sorted (keys : list value) : outcome (list value) :=
  match Py.strings keys with
  | Some names => Ok (map JStr (sort String.leb names))
  | None =>
      if all_ints keys then Ok (sort int_leb keys)
      else match keys with
           | [] | [_] => Ok keys
           | _ => Raise TypeError
           end
  end.

(** The class-level declaration: the loop over the primary sections
    assigns [class_decl] at each declarations section that has a
    declaration. *)
Definition class_decl_section (class_decl : option string) (section : value)
  : outcome (option string) :=
  (kind <- Py.get section "kind" JNull ;;
   if Py.eq_str kind "declarations" then
     declarations <- Py.get section "declarations" (JArr []) ;;
     items <- Py.iter declarations ;;
     match items with
     | decl :: _ => code <- format_declaration decl ;; Ok (Some code)
     | [] => Ok class_decl
     end
   else Ok class_decl)%O.

(** What one primary section of a child document appends to [members]. *)
Definition member_section (child_title child_role topic_title : value) (section : value)
  : outcome (list member) :=
  (kind <- Py.get section "kind" JNull ;;
   if Py.eq_str kind "declarations" then
     declarations <- Py.get section "declarations" (JArr []) ;;
     items <- Py.iter declarations ;;
     match items with
     | decl :: _ =>
         code <- format_declaration decl ;;
         if Py.truthy (JStr code)
         then Ok [Member child_title code child_role topic_title]
         else Ok []
     | [] => Ok []
     end
   else Ok [])%O.

(** The members a fetched child document contributes. *)
Definition child_members (topic_title child_data : value) : outcome (list member) :=
  (child_meta <- Py.get child_data "metadata" (JObj []) ;;
   child_title <- Py.get child_meta "title" (JStr "") ;;
   role <- Py.get child_meta "role" (JStr "") ;;
   child_role <- Py.get child_meta "symbolKind" role ;;
   child_primary <- Py.get child_data "primaryContentSections" (JArr []) ;;
   sections <- Py.iter child_primary ;;
   ofor sections (member_section child_title child_role topic_title))%O.

(** One iteration of the loop over the identifiers of a topic. *)
Definition identifier_members (topic_title identifier : value) : prog (list member) :=
  (own <- lift (Py.startswith identifier own_namespace) ;;
   if negb own then Ret []
   else
     match identifier with
     | JStr s =>
         child_data <- fetch_child_doc s ;;
         if negb (Py.truthy child_data) then Ret []
         else lift (child_members topic_title child_data)
     | _ => Throw AttributeError
     end)%P.

Definition topic_members (topic : value) : prog (list member) :=
  (topic_title <- lift (Py.get topic "title" (JStr "")) ;;
   identifiers <- lift (Py.get topic "identifiers" (JArr [])) ;;
   items <- lift (Py.iter identifiers) ;;
   pfor items (identifier_members topic_title))%P.

Definition accepted_role (role : value) : bool :=
  Py.eq_str role "symbol" || Py.eq_str role "collectionGroup".

(** [class_decl or members] *)
Definition has_content (class_decl : option string) (members : list member) : bool :=
  match class_decl with
  | Some code => Py.truthy (JStr code)
  | None => false
  end
  || match members with [] => false | _ => true end.

(** The body of the [try] block for one file: the entry it assigns, if
    any. *)
Definition file_entry (stem : string) (data : value) : prog (option (value * class_info)) :=
  (metadata <- lift (Py.get data "metadata" (JObj [])) ;;
   title <- lift (Py.get metadata "title" (JStr stem)) ;;
   role <- lift (Py.get metadata "role" (JStr "")) ;;
   if negb (accepted_role role) then Ret None
   else
     primary <- lift (Py.get data "primaryContentSections" (JArr [])) ;;
     sections <- lift (Py.iter primary) ;;
     class_decl <- lift (ofold sections None class_decl_section) ;;
     topics <- lift (Py.get data "topicSections" (JArr [])) ;;
     items <- lift (Py.iter topics) ;;
     members <- pfor items topic_members ;;
     if has_content class_decl members
     then Ret (Some (title, ClassInfo class_decl members))
     else Ret None)%P.

(** One file: an exception leaves [api_by_class] as it was. *)
Definition process_file (api : dict class_info) (file : string * value)
  : prog (dict class_info) :=
  catch
    (entry <- file_entry (fst file) (snd file) ;;
     match entry with
     | Some (title, info) => lift (dict_set api title info)
     | None => Ret api
     end)%P
    (fun _ => Ret api).

Fixpoint aggregate (api : dict class_info) (corpus : list (string * value))
  : prog (dict class_info) :=
  match corpus with
  | [] => Ret api
  | file :: rest => (api' <- process_file api file ;; aggregate api' rest)%P
  end.

(** [class_name.lower().replace(" ", "-")] *)
Definition anchor (class_name : string) : string :=
  Str.replace " " "-" (Str.lower class_name).

(** One entry of the table of contents. *)
Definition toc_entry (class_name : value) : outcome (list string) :=
  match class_name with
  | JStr s => Ok ["- [" ++ s ++ "](#" ++ anchor s ++ ")"]
  | _ => Raise AttributeError
  end.

(** [members_by_topic]: the members grouped under their topic, the topics
    in the order they are first met. *)
Fixpoint by_topic (groups : dict (list member)) (members : list member)
  : outcome (dict (list member)) :=
  match members with
  | [] => Ok groups
  | m :: rest =>
      let topic := member_topic m in
      let old := match dict_find groups topic with
                 | Some l => l
                 | None => []
                 end in
      (groups' <- dict_set groups topic (old +++ [m]) ;;
       by_topic groups' rest)%O
  end.

(** The subsection of one topic. *)
Definition topic_block (group : value * list member) : list string :=
  let topic := fst group in
  (if Py.truthy topic then ["### " ++ Py.format topic; ""] else [])
  +++ ["```swift"] +++ map member_declaration (snd group) +++ ["```"; ""].

(** The section of one class. *)
Definition class_section (api : dict class_info) (class_name : value)
  : outcome (list string) :=
  match dict_find api class_name with
  | None => Raise KeyError
  | Some info =>
      (groups <- by_topic [] (info_members info) ;;
       Ok (["## " ++ Py.format class_name; ""]
           +++ match info_declaration info with
               | Some code =>
                   if Py.truthy (JStr code) then ["```swift"; code; "```"; ""] else []
               | None => []
               end
           +++ concat (map topic_block groups)
           +++ ["---"; ""]))%O
  end.

Definition preamble : list string :=
  ["# ScreenCaptureKit API Reference"; "";
   "Complete API signatures for all ScreenCaptureKit types."; "";
   "---"; ""].

(** The text written to [API-COMPLETE.md]. *)
Definition render_api (api : dict class_info) : outcome string :=
  (names <- sorted (dict_keys api) ;;
   toc <- ofor names toc_entry ;;
   names' <- sorted (dict_keys api) ;;
   sections <- ofor names' (class_section api) ;;
   Ok (Str.join Str.nl
         (preamble +++ ["## Table of Contents"; ""] +++ toc +++ [""; "---"; ""]
          +++ sections)))%O.

(** [generate_api_complete] over the parsed files of the JSON directory,
    in the order the loop visits them. *)
Definition generate_api_complete (corpus : list (string * value)) : prog string :=
  (api <- aggregate [] corpus ;;
   lift (render_api api))%P.

(** ** The rest of the script *)

(** *** More [str] and [re] operations *)

Module Text.

(** [needle in s] for strings. *)
Fixpoint has_substring (needle s : string) : bool :=
  String.prefix needle s
  || match s with
     | EmptyString => false
     | String _ r => has_substring needle r
     end.

(** The characters [\s] matches: the white space of [str.isspace]. *)
Definition is_space (a : ascii) : bool :=
  let n := nat_of_ascii a in
  ((9 <=? n) && (n <=? 13) || (28 <=? n) && (n <=? 32) || (n =? 133) || (n =? 160))%nat.

(** The characters of the class [[.!?]]. *)
Definition is_stop (a : ascii) : bool :=
  Ascii.eqb a "."%char || Ascii.eqb a "!"%char || Ascii.eqb a "?"%char.

(** Adds a character in front of the first piece. *)
Definition cons_first (a : ascii) (pieces : list string) : list string :=
  match pieces with
  | h :: t => String a h :: t
  | [] => [String a ""]
  end.

(** [re.split(r'(?<=[.!?])\s+', s)]: the string is cut at every run of
    white space that follows a full stop, an exclamation mark or a question
    mark; the run is dropped.  [after_stop] tells that the previous
    character is one of the three, [skipping] that a run is being dropped.
    The result is never empty. *)
Fixpoint split_from (after_stop skipping : bool) (s : string) : list string :=
  match s with
  | EmptyString => [""]
  | String a r =>
      if is_space a && skipping then split_from false true r
      else if is_space a && after_stop then "" :: split_from false true r
      else cons_first a (split_from (is_stop a) false r)
  end.

Definition split_sentences (s : string) : list string := split_from false false s.

End Text.

(** *** [extract_declarations_from_json] *)

(** An entry of the list it returns: [{"name", "declaration", "kind"}]. *)
Record declaration_entry : Type := DeclarationEntry {
  entry_name : value;
  entry_declaration : string;
  entry_kind : value
}.

(** The inner loop: what one declaration appends. *)
Definition declaration_entries (metadata parent_title decl : value)
  : outcome (list declaration_entry) :=
  (code <- format_declaration decl ;;
   if Py.truthy (JStr code) then
     kind <- Py.get metadata "role" (JStr "symbol") ;;
     Ok [DeclarationEntry parent_title code kind]
   else Ok [])%O.

(** The outer loop: what one primary section appends. *)
Definition section_entries (metadata parent_title section : value)
  : outcome (list declaration_entry) :=
  (kind <- Py.get section "kind" JNull ;;
   if Py.eq_str kind "declarations" then
     declarations <- Py.get section "declarations" (JArr []) ;;
     items <- Py.iter declarations ;;
     ofor items (declaration_entries metadata parent_title)
   else Ok [])%O.

Definition extract_declarations_from_json (data : value)
  : outcome (list declaration_entry) :=
  (metadata <- Py.get data "metadata" (JObj []) ;;
   parent_title <- Py.get metadata "title" (JStr "") ;;
   primary <- Py.get data "primaryContentSections" (JArr []) ;;
   sections <- Py.iter primary ;;
   ofor sections (section_entries metadata parent_title))%O.

(** *** The file system

    Creating the output directory ([mkdir]), writing a JSON file ([open]
    and [json.dump]) and writing a text file ([open] and [write]) return or
    raise. *)
Record disk : Type := Disk {
  make_dir : outcome unit;
  write_file : string -> value -> outcome unit;
  write_text : string -> string -> outcome unit
}.

(** *** [convert_to_markdown]

    The files of the JSON directory are given parsed, as [(stem, data)], in
    the order the loop visits them; the result is the files written, as
    [(name, content)], and the count the function returns. *)

Definition should_expand (include_children : bool) (stem : string) : bool :=
  include_children
  && negb (Text.has_substring "_" (Str.replace "screencapturekit_" "" stem)).

(** A loop that updates local variables and makes requests. *)
Fixpoint pfold {S A : Type} (l : list A) (st : S) (step : S -> A -> prog S) : prog S :=
  match l with
  | [] => Ret st
  | a :: rest => (st' <- step st a ;; pfold rest st' step)%P
  end.

(** One file: the body of the [try] block; an exception, of the rendering
    or of the writing, leaves the state as it was. *)
Definition convert_file (fs : disk) (include_children : bool)
    (st : list (string * string) * nat) (file : string * value)
  : prog (list (string * string) * nat) :=
  catch
    (md_content <- json_to_markdown (snd file) (fst file)
                     (should_expand include_children (fst file)) ;;
     written <- lift (write_text fs (fst file ++ ".md") md_content) ;;
     Ret (fst st +++ [(fst file ++ ".md", md_content)], S (snd st)))%P
    (fun _ => Ret st).

(** The directory is created before the loop, outside the [try] block. *)
Definition convert_to_markdown (fs : disk) (include_children : bool)
    (files : list (string * value)) : prog (list (string * string) * nat) :=
  (made <- lift (make_dir fs) ;;
   pfold files ([], 0%nat) (convert_file fs include_children))%P.

(** *** [download_docs] *)

Definition DOC_PATHS : list string :=
  ["screencapturekit";
   "screencapturekit/scshareablecontent";
   "screencapturekit/scshareablecontentinfo";
   "screencapturekit/scshareablecontentstyle";
   "screencapturekit/scdisplay";
   "screencapturekit/scrunningapplication";
   "screencapturekit/scwindow";
   "screencapturekit/scstream";
   "screencapturekit/scstreamconfiguration";
   "screencapturekit/sccontentfilter";
   "screencapturekit/scstreamdelegate";
   "screencapturekit/scstreamoutput";
   "screencapturekit/scstreamoutputtype";
   "screencapturekit/scstreamframeinfo";
   "screencapturekit/scframestatus";
   "screencapturekit/scscreenshotmanager";
   "screencapturekit/scscreenshotconfiguration";
   "screencapturekit/scscreenshotoutput";
   "screencapturekit/sccontentsharingpicker";
   "screencapturekit/sccontentsharingpickerconfiguration-swift.struct";
   "screencapturekit/sccontentsharingpickermode";
   "screencapturekit/sccontentsharingpickerobserver";
   "screencapturekit/screcordingoutput";
   "screencapturekit/screcordingoutputconfiguration";
   "screencapturekit/screcordingoutputdelegate";
   "screencapturekit/scstreamerror";
   "screencapturekit/scstreamerrordomain";
   "screencapturekit/capturing-screen-content-in-macos"].

(** The stem of the file a documentation path is saved under:
    [doc_path.replace("/", "_")]; the file name adds [.json]. *)
Definition json_stem (doc_path : string) : string := Str.replace "/" "_" doc_path.

(** One path: the state is the files written, as [(name, data)], and the
    count. *)
Definition download_doc (fs : disk) (st : list (string * value) * nat)
    (doc_path : string) : prog (list (string * value) * nat) :=
  (data <- fetch_json (DOCS_JSON_BASE ++ "/" ++ doc_path ++ ".json") ;;
   if Py.truthy data
   then written <- lift (write_file fs (json_stem doc_path ++ ".json") data) ;;
        Ret (fst st +++ [(json_stem doc_path ++ ".json", data)], S (snd st))
   else Ret st)%P.

(** [download_docs] over a list of paths; the script runs it on
    [DOC_PATHS]. *)
Definition download_docs_from (fs : disk) (paths : list string)
  : prog (list (string * value) * nat) :=
  (made <- lift (make_dir fs) ;;
   pfold paths ([], 0%nat) (download_doc fs))%P.

Definition download_docs (fs : disk) : prog (list (string * value) * nat) :=
  download_docs_from fs DOC_PATHS.

(** *** [format_transcript_as_markdown] *)

Definition paragraph_keywords : list string :=
  ["let me show"; "let's"; "next"; "now"; "first"; "finally"; "to recap"].

(** The sentence closes the paragraph it is in. *)
Definition closes_paragraph (paragraph : list string) (sentence : string) : bool :=
  (4 <=? List.length paragraph)%nat
  || existsb (fun kw => Text.has_substring kw (Str.lower sentence)) paragraph_keywords.

(** The loop over the sentences: the lines appended, [paragraph] being the
    sentences collected so far. *)
Fixpoint paragraph_lines (sentences : list string) (paragraph : list string)
  : list string :=
  match sentences with
  | [] =>
      match paragraph with
      | [] => []
      | _ => [Str.join " " paragraph; ""]
      end
  | sentence :: rest =>
      let paragraph' := paragraph +++ [sentence] in
      if closes_paragraph paragraph' sentence
      then [Str.join " " paragraph'; ""] +++ paragraph_lines rest []
      else paragraph_lines rest paragraph'
  end.

(** [format_transcript_as_markdown]; [tv] is the television character that
    opens the video line, a code point above 255. *)
Definition format_transcript_as_markdown (tv : string)
    (transcript title year session_id : string) : string :=
  Str.join Str.nl
    (["# " ++ title; "";
      "**WWDC" ++ year ++ "** | Session " ++ session_id; "";
      tv ++ " [Watch Video](https://developer.apple.com/videos/play/wwdc"
         ++ year ++ "/" ++ session_id ++ "/)"; "";
      "---"; "";
      "## Transcript"; ""]
     +++ paragraph_lines (Text.split_sentences transcript) []).

(** ** The documents of the data model

    A document of the data model is a value whose fields, where present,
    have the types the model gives them; every field may be absent, every
    sequence may be empty and every tag is an arbitrary string. *)

Unset Elimination Schemes.
Inductive Inline : Type :=
| Raw (s : string)
| Node (type text code identifier destination : option string)
       (inlineContent content : option (list Inline)).
Set Elimination Schemes.

Record Token : Type := { token_text : option string }.

Record Declaration : Type := {
  decl_tokens : option (list Token);
  decl_languages : option (list string)
}.

(** A block inside a list item or a parameter. *)
Record Block : Type := {
  block_type : option string;
  block_inline : option (list Inline)
}.

Record ListItem : Type := { item_content : option (list Block) }.

Record ContentBlock : Type := {
  cb_type : option string;
  cb_level : option Z;
  cb_inline : option (list Inline);
  cb_syntax : option string;
  cb_code : option (list string);
  cb_items : option (list ListItem)
}.

Record Param : Type := {
  param_name : option string;
  param_content : option (list Block)
}.

Record Section : Type := {
  sec_kind : option string;
  sec_declarations : option (list Declaration);
  sec_content : option (list ContentBlock);
  sec_parameters : option (list Param)
}.

Record TopicGroup : Type := {
  topic_title : option string;
  topic_identifiers : option (list string)
}.

Record ReferenceSummary : Type := {
  ref_title : option string;
  ref_abstract : option (list Inline)
}.

Record Platform : Type := {
  plat_name : option string;
  plat_introducedAt : option string
}.

Record Metadata : Type := {
  meta_title : option string;
  meta_role : option string;
  meta_symbolKind : option string;
  meta_platforms : option (list Platform)
}.

Record DocumentNode : Type := {
  doc_metadata : option Metadata;
  doc_primary : option (list Section);
  doc_topics : option (list TopicGroup);
  doc_seeAlso : option (list TopicGroup);
  doc_references : option (list (string * ReferenceSummary))
}.

(** *** The value of a document: absent fields are absent keys *)

Definition field (k : string) (v : option value) : list (string * value) :=
  match v with
  | Some x => [(k, x)]
  | None => []
  end.

Definition jstr (o : option string) : option value := option_map JStr o.

Definition jlist {A : Type} (enc : A -> value) (o : option (list A)) : option value :=
  option_map (fun l => JArr (map enc l)) o.

Fixpoint enc_inline (i : Inline) : value :=
  match i with
  | Raw s => JStr s
  | Node type text code identifier destination inlineContent content =>
      JObj (field "type" (jstr type) +++ field "text" (jstr text)
            +++ field "code" (jstr code) +++ field "identifier" (jstr identifier)
            +++ field "destination" (jstr destination)
            +++ field "inlineContent" (jlist enc_inline inlineContent)
            +++ field "content" (jlist enc_inline content))
  end.

Definition enc_inlines (l : list Inline) : value := JArr (map enc_inline l).

Definition enc_token (t : Token) : value :=
  JObj (field "text" (jstr (token_text t))).

Definition enc_declaration (d : Declaration) : value :=
  JObj (field "tokens" (jlist enc_token (decl_tokens d))
        +++ field "languages" (jlist JStr (decl_languages d))).

Definition enc_block (b : Block) : value :=
  JObj (field "type" (jstr (block_type b))
        +++ field "inlineContent" (jlist enc_inline (block_inline b))).

Definition enc_list_item (i : ListItem) : value :=
  JObj (field "content" (jlist enc_block (item_content i))).

Definition enc_content_block (c : ContentBlock) : value :=
  JObj (field "type" (jstr (cb_type c))
        +++ field "level" (option_map JInt (cb_level c))
        +++ field "inlineContent" (jlist enc_inline (cb_inline c))
        +++ field "syntax" (jstr (cb_syntax c))
        +++ field "code" (jlist JStr (cb_code c))
        +++ field "items" (jlist enc_list_item (cb_items c))).

Definition enc_param (p : Param) : value :=
  JObj (field "name" (jstr (param_name p))
        +++ field "content" (jlist enc_block (param_content p))).

Definition enc_section (s : Section) : value :=
  JObj (field "kind" (jstr (sec_kind s))
        +++ field "declarations" (jlist enc_declaration (sec_declarations s))
        +++ field "content" (jlist enc_content_block (sec_content s))
        +++ field "parameters" (jlist enc_param (sec_parameters s))).

Definition enc_topic (t : TopicGroup) : value :=
  JObj (field "title" (jstr (topic_title t))
        +++ field "identifiers" (jlist JStr (topic_identifiers t))).

Definition enc_reference (r : ReferenceSummary) : value :=
  JObj (field "title" (jstr (ref_title r))
        +++ field "abstract" (jlist enc_inline (ref_abstract r))).

Definition enc_platform (p : Platform) : value :=
  JObj (field "name" (jstr (plat_name p))
        +++ field "introducedAt" (jstr (plat_introducedAt p))).

Definition enc_metadata (m : Metadata) : value :=
  JObj (field "title" (jstr (meta_title m))
        +++ field "role" (jstr (meta_role m))
        +++ field "symbolKind" (jstr (meta_symbolKind m))
        +++ field "platforms" (jlist enc_platform (meta_platforms m))).

Definition enc_references (refs : list (string * ReferenceSummary)) : value :=
  JObj (map (fun kr => (fst kr, enc_reference (snd kr))) refs).

Definition enc_doc (d : DocumentNode) : value :=
  JObj (field "metadata" (option_map enc_metadata (doc_metadata d))
        +++ field "primaryContentSections" (jlist enc_section (doc_primary d))
        +++ field "topicSections" (jlist enc_topic (doc_topics d))
        +++ field "seeAlsoSections" (jlist enc_topic (doc_seeAlso d))
        +++ field "references" (option_map enc_references (doc_references d))).

(** The retrieval collaborator: a document or not-found ([None]). *)
Definition enc_net (net : string -> option DocumentNode) (url : string) : value :=
  match net url with
  | Some d => enc_doc d
  | None => JNull
  end.

Definition or_default (o : option value) (default : value) : value :=
  match o with
  | Some v => v
  | None => default
  end.

(** *** The reduction of inline content, as the design states it *)

Definition opt_string (o : option string) : string :=
  match o with
  | Some s => s
  | None => ""
  end.

Definition opt_list {A : Type} (o : option (list A)) : list A :=
  match o with
  | Some l => l
  | None => []
  end.

Fixpoint reduce_node (i : Inline) : string :=
  match i with
  | Raw s => s
  | Node type text code identifier destination inlineContent content =>
      let children := match inlineContent with
                      | Some l => Str.join "" (map reduce_node l)
                      | None => ""
                      end in
      let tag := opt_string type in
      if String.eqb tag "text" then opt_string text
      else if String.eqb tag "codeVoice" then "`" ++ opt_string code ++ "`"
      else if String.eqb tag "reference"
           then "`" ++ Str.last_segment (opt_string identifier) ++ "`"
      else if String.eqb tag "emphasis" then "*" ++ children ++ "*"
      else if String.eqb tag "strong" then "**" ++ children ++ "**"
      else if String.eqb tag "link"
           then "[" ++ children ++ "](" ++ opt_string destination ++ ")"
      else match inlineContent, content with
           | Some _, _ => children
           | None, Some l => Str.join "" (map reduce_node l)
           | None, None => ""
           end
  end.

Definition reduce (s : list Inline) : string := Str.join "" (map reduce_node s).

(** The text of a declaration: its tokens' texts, concatenated. *)
Definition declaration_text (d : Declaration) : string :=
  Str.join "" (map (fun t => opt_string (token_text t)) (opt_list (decl_tokens d))).

(** A program that makes no request is a computation without effects. *)
Definition silent {A : Type} (m : prog A) : Prop := exists o, m = lift o.

(** The computation returns: no exception is raised. *)
Definition returns {A : Type} (o : outcome A) : Prop := exists a, o = Ok a.

(** A declaration whose [languages] list is present but empty. *)
Definition empty_languages (d : Declaration) : bool :=
  match decl_languages d with
  | Some [] => true
  | _ => false
  end.

(** The language tag of a declaration: its first listed language, [swift]
    when the list is absent. *)
Definition declaration_language (d : Declaration) : string :=
  match decl_languages d with
  | Some (lang :: _) => lang
  | _ => "swift"
  end.

(** A [declarations] section with a declaration whose [languages] list is
    present but empty. *)
Definition section_has_empty_languages (s : Section) : bool :=
  String.eqb (opt_string (sec_kind s)) "declarations"
  && existsb empty_languages (opt_list (sec_declarations s)).

Definition doc_has_empty_languages (d : DocumentNode) : bool :=
  existsb section_has_empty_languages (opt_list (doc_primary d)).

(** A heading whose level does not fit the index type: ['#' * level]
    raises [OverflowError]. *)
Definition heading_overflows (c : ContentBlock) : bool :=
  String.eqb (opt_string (cb_type c)) "heading"
  && match cb_level c with
     | Some z => negb (Py.index_sized z)
     | None => false
     end.

(** A [content] section with such a heading. *)
Definition section_has_overflowing_heading (s : Section) : bool :=
  String.eqb (opt_string (sec_kind s)) "content"
  && existsb heading_overflows (opt_list (sec_content s)).

Definition doc_has_overflowing_heading (d : DocumentNode) : bool :=
  existsb section_has_overflowing_heading (opt_list (doc_primary d)).

(** The exception a primary section makes the renderer raise, if any. *)
Definition section_failure (s : Section) : option exn :=
  if section_has_empty_languages s then Some IndexError
  else if section_has_overflowing_heading s then Some OverflowError
  else None.

(** The exception the primary sections make the renderer raise, if any:
    the one of the first section that fails. *)
Fixpoint sections_failure (l : list Section) : option exn :=
  match l with
  | [] => None
  | s :: rest =>
      match section_failure s with
      | Some e => Some e
      | None => sections_failure rest
      end
  end.

Definition doc_failure (d : DocumentNode) : option exn :=
  sections_failure (opt_list (doc_primary d)).


(** *** What the renderers produce, in terms of the data model *)

Definition is_kind (kind : string) (s : Section) : bool :=
  String.eqb (opt_string (sec_kind s)) kind.

(** The text of the first declaration of a declarations section. *)
Definition section_declaration (s : Section) : option string :=
  if is_kind "declarations" s then
    match opt_list (sec_declarations s) with
    | d :: _ => Some (declaration_text d)
    | [] => None
    end
  else None.

(** The reduced text of the first paragraph whose reduced text is not
    empty. *)
Fixpoint first_nonempty_text (l : list ContentBlock) : option string :=
  match l with
  | [] => None
  | c :: rest =>
      if String.eqb (opt_string (cb_type c)) "paragraph" then
        let text := reduce (opt_list (cb_inline c)) in
        if String.eqb text "" then first_nonempty_text rest else Some text
      else first_nonempty_text rest
  end.

Definition section_description (s : Section) : option string :=
  if is_kind "content" s then first_nonempty_text (opt_list (sec_content s)) else None.

(** The value a loop leaves in a variable it assigns at every section
    that yields one: the value of the last such section. *)
Fixpoint last_yield {A : Type} (f : Section -> option A) (l : list Section) (init : A) : A :=
  match l with
  | [] => init
  | s :: rest =>
      last_yield f rest (match f s with Some x => x | None => init end)
  end.

Definition child_declaration (d : DocumentNode) : string :=
  last_yield section_declaration (opt_list (doc_primary d)) "".

Definition child_description (d : DocumentNode) : string :=
  last_yield section_description (opt_list (doc_primary d)) "".

Definition nonempty (s : string) : bool := negb (String.eqb s "").

Definition child_doc_text (d : DocumentNode) : string :=
  Str.join Str.nl
    ((if nonempty (child_declaration d)
      then ["```swift"; child_declaration d; "```"] else [])
     +++ (if nonempty (child_description d) then [child_description d] else [])).

(** The entry of [references] for an identifier. *)
Fixpoint find_reference (refs : list (string * ReferenceSummary)) (identifier : string)
  : option ReferenceSummary :=
  match refs with
  | [] => None
  | (k, r) :: rest => if String.eqb k identifier then Some r else find_reference rest identifier
  end.

Definition doc_reference (d : DocumentNode) (identifier : string) : option ReferenceSummary :=
  find_reference (opt_list (doc_references d)) identifier.

(** The display title of a member: the title of its reference summary,
    the last segment of the identifier when there is none. *)
Definition summary_title (d : DocumentNode) (identifier : string) : string :=
  match doc_reference d identifier with
  | Some r =>
      match ref_title r with
      | Some t => t
      | None => Str.last_segment identifier
      end
  | None => Str.last_segment identifier
  end.

Definition summary_abstract (d : DocumentNode) (identifier : string) : string :=
  match doc_reference d identifier with
  | Some r => reduce (opt_list (ref_abstract r))
  | None => ""
  end.

(** A member rendered summary-only: its subheading and its abstract. *)
Definition summary_lines (d : DocumentNode) (identifier : string) : list string :=
  ["#### " ++ summary_title d identifier; ""]
  +++ (if nonempty (summary_abstract d identifier)
       then [summary_abstract d identifier; ""] else []).

(** The address [fetch_child_doc] requests for an identifier, if any. *)
Definition child_url (identifier : string) : option string :=
  match identifier_to_path identifier with
  | Some path =>
      if nonempty path then Some (DOCS_JSON_BASE ++ "/" ++ path ++ ".json") else None
  | None => None
  end.

(** The lines the expansion of a member adds: the rendering of the child
    document the network returns, when it is not empty. *)
Definition expansion_lines (net : string -> option DocumentNode) (identifier : string)
  : list string :=
  if Str.startswith own_namespace identifier then
    match child_url identifier with
    | Some url =>
        match net url with
        | Some child =>
            if nonempty (child_doc_text child) then [child_doc_text child; ""] else []
        | None => []
        end
    | None => []
    end
  else [].

(** The heading of a rendered document. *)
Definition doc_heading (d : DocumentNode) (path : string) : string :=
  match doc_metadata d with
  | Some m =>
      match meta_title m with
      | Some title => title
      | None => Str.last_segment path
      end
  | None => Str.last_segment path
  end.

(** The lines of one member and of one topic of a rendered document. *)
Definition member_block (d : DocumentNode) (include_children : bool)
    (net : string -> option DocumentNode) (identifier : string) : list string :=
  summary_lines d identifier
  +++ (if include_children then expansion_lines net identifier else []).

Definition topic_group_lines (d : DocumentNode) (include_children : bool)
    (net : string -> option DocumentNode) (t : TopicGroup) : list string :=
  ["### " ++ opt_string (topic_title t); ""]
  +++ concat (map (member_block d include_children net) (opt_list (topic_identifiers t)))
  +++ [""].

(** The Topics part of a rendered document. *)
Definition topics_lines (d : DocumentNode) (include_children : bool)
    (net : string -> option DocumentNode) : list string :=
  match opt_list (doc_topics d) with
  | [] => []
  | topics =>
      ["## Topics"; ""] +++ concat (map (topic_group_lines d include_children net) topics)
  end.

(** The See Also part of a rendered document. *)
Definition see_also_lines (d : DocumentNode) : list string :=
  match opt_list (doc_seeAlso d) with
  | [] => []
  | groups =>
      ["## See Also"; ""]
      +++ concat (map (fun t => map (fun identifier => "- " ++ summary_title d identifier)
                                    (opt_list (topic_identifiers t))) groups)
      +++ [""]
  end.

(** *** What the aggregator records, in terms of the data model *)

Definition doc_title (d : DocumentNode) : option string :=
  match doc_metadata d with
  | Some m => meta_title m
  | None => None
  end.

Definition doc_role (d : DocumentNode) : string :=
  match doc_metadata d with
  | Some m => opt_string (meta_role m)
  | None => ""
  end.

(** The kind recorded for a member: its symbol kind, else its role. *)
Definition doc_kind (d : DocumentNode) : string :=
  match doc_metadata d with
  | Some m =>
      match meta_symbolKind m with
      | Some k => k
      | None => opt_string (meta_role m)
      end
  | None => ""
  end.

(** The member a primary section of a child document contributes. *)
Definition section_member (title kind topic : string) (s : Section) : list member :=
  match section_declaration s with
  | Some code =>
      if nonempty code then [Member (JStr title) code (JStr kind) (JStr topic)] else []
  | None => []
  end.

Definition members_of_child (topic : string) (child : DocumentNode) : list member :=
  concat (map (section_member (opt_string (doc_title child)) (doc_kind child) topic)
              (opt_list (doc_primary child))).

Definition identifier_member_list (net : string -> option DocumentNode) (topic : string)
    (identifier : string) : list member :=
  if Str.startswith own_namespace identifier then
    match child_url identifier with
    | Some url =>
        match net url with
        | Some child => members_of_child topic child
        | None => []
        end
    | None => []
    end
  else [].

Definition topic_member_list (net : string -> option DocumentNode) (t : TopicGroup)
  : list member :=
  concat (map (identifier_member_list net (opt_string (topic_title t)))
              (opt_list (topic_identifiers t))).

(** The members recorded for a document. *)
Definition recorded_members (net : string -> option DocumentNode) (d : DocumentNode)
  : list member :=
  concat (map (topic_member_list net) (opt_list (doc_topics d))).

(** The declaration the aggregator keeps as class-level declaration: the
    first declaration of the last declarations-kind primary section that
    has one. *)
Definition class_declaration (d : DocumentNode) : option string :=
  last_yield (fun s => option_map Some (section_declaration s)) (opt_list (doc_primary d)) None.

Definition entry_title (stem : string) (d : DocumentNode) : string :=
  match doc_title d with
  | Some title => title
  | None => stem
  end.

(** The role is in the accepted set. *)
Definition role_accepted (d : DocumentNode) : bool :=
  String.eqb (doc_role d) "symbol" || String.eqb (doc_role d) "collectionGroup".

(** The entry a file of the corpus contributes, if any. *)
Definition doc_entry (net : string -> option DocumentNode) (stem : string) (d : DocumentNode)
  : option (value * class_info) :=
  if role_accepted d && has_content (class_declaration d) (recorded_members net d)
  then Some (JStr (entry_title stem d),
             ClassInfo (class_declaration d) (recorded_members net d))
  else None.

Definition enc_file (file : string * DocumentNode) : string * value :=
  (fst file, enc_doc (snd file)).

(** [api_by_class] after the loop over the corpus. *)
Fixpoint aggregated (net : string -> option DocumentNode) (api : dict class_info)
    (corpus : list (string * DocumentNode)) : dict class_info :=
  match corpus with
  | [] => api
  | (stem, d) :: rest =>
      aggregated net
        (match doc_entry net stem d with
         | Some (title, info) => dict_put api title info
         | None => api
         end) rest
  end.

(** *** The consolidated reference, in terms of the aggregated entries *)

(** The names of the entries: the keys that are strings. *)
Fixpoint key_names {V : Type} (d : dict V) : list string :=
  match d with
  | [] => []
  | (JStr s, _) :: rest => s :: key_names rest
  | _ :: rest => key_names rest
  end.

(** [members_by_topic] when every topic can be a key. *)
Fixpoint grouped (groups : dict (list member)) (members : list member)
  : dict (list member) :=
  match members with
  | [] => groups
  | m :: rest =>
      grouped (dict_put groups (member_topic m)
                 (match dict_find groups (member_topic m) with
                  | Some l => l
                  | None => []
                  end +++ [m])) rest
  end.

(** The section of a class in the consolidated reference. *)
Definition class_lines (api : dict class_info) (name : string) : list string :=
  match dict_find api (JStr name) with
  | Some info =>
      ["## " ++ name; ""]
      +++ match info_declaration info with
          | Some code => if nonempty code then ["```swift"; code; "```"; ""] else []
          | None => []
          end
      +++ concat (map topic_block (grouped [] (info_members info)))
      +++ ["---"; ""]
  | None => []
  end.

(** The entry of a class in the table of contents. *)
Definition toc_line (name : string) : string :=
  "- [" ++ name ++ "](#" ++ anchor name ++ ")".

(** The order of the table of contents and of the sections. *)
Definition toc_names (net : string -> option DocumentNode)
    (corpus : list (string * DocumentNode)) : list string :=
  sort String.leb (key_names (aggregated net [] corpus)).

(** The text of the consolidated reference. *)
Definition api_text (api : dict class_info) (names : list string) : string :=
  Str.join Str.nl
    (preamble +++ ["## Table of Contents"; ""] +++ map toc_line names
     +++ [""; "---"; ""] +++ concat (map (class_lines api) names)).

(** Every entry has a string for a name and every member a string for
    its topic. *)
Definition string_topic (m : member) : Prop := exists s, member_topic m = JStr s.

Definition well_keyed (api : dict class_info) : Prop :=
  Forall (fun kv => (exists s, fst kv = JStr s)
                    /\ Forall string_topic (info_members (snd kv))) api.

(** A document contributes an entry to [api_by_class]. *)
Definition contributes (net : string -> option DocumentNode) (stem : string)
    (d : DocumentNode) : bool :=
  role_accepted d && has_content (class_declaration d) (recorded_members net d).

Definition str_le (a b : string) : Prop := String.leb a b = true.

(** The member carries a declaration string that is not empty. *)
Definition has_declaration (m : member) : Prop := nonempty (member_declaration m) = true.

(** The recursion budget of the reducer ran out. *)
Definition exhausted {A : Type} (o : outcome A) : bool :=
  match o with
  | Raise RecursionError => true
  | _ => false
  end.

(** What an item appends to [result]: strings whose concatenation is the
    reduction of the item. *)
Definition appends (o : outcome (list value)) (text : string) : Prop :=
  exists pieces, o = Ok (map JStr pieces) /\ Str.join "" pieces = text.

(** *** Induction on inline content *)

Fixpoint Inline_ind (P : Inline -> Prop)
    (HRaw : forall s, P (Raw s))
    (HNode : forall type text code identifier destination inlineContent content,
        Forall P (opt_list inlineContent) -> Forall P (opt_list content) ->
        P (Node type text code identifier destination inlineContent content))
    (i : Inline) {struct i} : P i :=
  match i with
  | Raw s => HRaw s
  | Node type text code identifier destination inlineContent content =>
      let all := fix all (l : list Inline) : Forall P l :=
                   match l with
                   | [] => Forall_nil P
                   | x :: rest => Forall_cons x (Inline_ind P HRaw HNode x) (all rest)
                   end in
      HNode type text code identifier destination inlineContent content
        (match inlineContent as o return Forall P (opt_list o) with
         | Some l => all l
         | None => Forall_nil P
         end)
        (match content as o return Forall P (opt_list o) with
         | Some l => all l
         | None => Forall_nil P
         end)
  end.


(** *** The statements of the design that the script does not follow

    These definitions follow the words of the design, not the script; they
    are compared with the script below. *)

(** "Case-insensitive lexical order". *)
Definition ci_leb (a b : string) : bool := String.leb (Str.lower a) (Str.lower b).

Definition claimed_toc_names (net : string -> option DocumentNode)
    (corpus : list (string * DocumentNode)) : list string :=
  sort ci_leb (key_names (aggregated net [] corpus)).

(** "The document's first declaration": the first declaration of its
    declarations-kind primary sections, in document order. *)
Definition first_declaration (d : DocumentNode) : option Declaration :=
  hd_error (concat (map (fun s => if is_kind "declarations" s
                                  then opt_list (sec_declarations s) else [])
                        (opt_list (doc_primary d)))).

(** "The first paragraph found in the first content-kind primary
    section". *)
Definition first_paragraph_of_first_content (d : DocumentNode) : option ContentBlock :=
  match find (is_kind "content") (opt_list (doc_primary d)) with
  | Some s =>
      find (fun c => String.eqb (opt_string (cb_type c)) "paragraph")
           (opt_list (sec_content s))
  | None => None
  end.

(** The child rendering as the design words it. *)
Definition claimed_child_doc (d : DocumentNode) : string :=
  Str.join Str.nl
    (match first_declaration d with
     | Some decl => ["```swift"; declaration_text decl; "```"]
     | None => []
     end
     +++ match first_paragraph_of_first_content d with
         | Some c => [reduce (opt_list (cb_inline c))]
         | None => []
         end).

(** *** Documents used as examples *)

Definition text_node (s : string) : Inline :=
  Node (Some "text") (Some s) None None None None None.

Definition paragraph (s : string) : ContentBlock :=
  {| cb_type := Some "paragraph"; cb_level := None; cb_inline := Some [text_node s];
     cb_syntax := None; cb_code := None; cb_items := None |}.

Definition declaration (code : string) (languages : option (list string)) : Declaration :=
  {| decl_tokens := Some [{| token_text := Some code |}]; decl_languages := languages |}.

Definition declarations_section (l : list Declaration) : Section :=
  {| sec_kind := Some "declarations"; sec_declarations := Some l;
     sec_content := None; sec_parameters := None |}.

Definition content_section (l : list ContentBlock) : Section :=
  {| sec_kind := Some "content"; sec_declarations := None;
     sec_content := Some l; sec_parameters := None |}.

Definition document (title role : option string) (sections : list Section)
    (topics : list TopicGroup) : DocumentNode :=
  {| doc_metadata := Some {| meta_title := title; meta_role := role;
                             meta_symbolKind := None; meta_platforms := None |};
     doc_primary := Some sections;
     doc_topics := Some topics;
     doc_seeAlso := None;
     doc_references := None |}.

(** A class document with a declaration and no topics. *)
Definition class_doc (title : string) : DocumentNode :=
  document (Some title) (Some "symbol")
    [declarations_section [declaration ("class " ++ title) (Some ["swift"])]] [].

(** A network on which every request fails. *)
Definition no_network (url : string) : option DocumentNode := None.

(** The corpus of the design's example, in the order [Zeta, alpha, Beta]. *)
Definition corpus_zab : list (string * DocumentNode) :=
  [("screencapturekit_zeta", class_doc "Zeta");
   ("screencapturekit_alpha", class_doc "alpha");
   ("screencapturekit_beta", class_doc "Beta")].

(** A declaration node with a present but empty [languages] list. *)
Definition empty_languages_doc : DocumentNode :=
  document (Some "SCStream") (Some "symbol")
    [declarations_section [declaration "class SCStream" (Some [])]] [].

(** A child document with two declarations sections and two content
    sections, the second of which starts with an empty paragraph. *)
Definition two_sections_child : DocumentNode :=
  document (Some "width") (Some "symbol")
    [declarations_section [declaration "var a: Int" None];
     content_section [paragraph "first"];
     declarations_section [declaration "var b: Int" None];
     content_section [paragraph ""; paragraph "second"]] [].

(** A child document whose first declaration has an empty text and whose
    second declarations section has a declaration. *)
Definition empty_first_declaration_child : DocumentNode :=
  document (Some "width") (Some "symbol")
    [declarations_section [declaration "" None];
     declarations_section [declaration "var width: Int" None]] [].

Definition member_identifier : string :=
  "doc://com.apple.screencapturekit/documentation/ScreenCaptureKit/SCStreamConfiguration/width".

Definition member_url : string :=
  "https://developer.apple.com/tutorials/data/documentation/screencapturekit/scstreamconfiguration/width.json".

(** A network that serves one child document at [member_url]. *)
Definition one_child_network (child : DocumentNode) (url : string) : option DocumentNode :=
  if String.eqb url member_url then Some child else None.




(** A document with a heading whose level does not fit the index type. *)
Definition overflowing_heading_doc : DocumentNode :=
  document (Some "SCStream") (Some "symbol")
    [content_section
       [{| cb_type := Some "heading"; cb_level := Some (2 ^ 63)%Z;
           cb_inline := Some [text_node "Overview"]; cb_syntax := None;
           cb_code := None; cb_items := None |}]] [].

(** *** Notions used to state further properties *)

Definition recognised_tag (tag : value) : bool :=
  Py.eq_str tag "text" || Py.eq_str tag "codeVoice" || Py.eq_str tag "reference"
  || Py.eq_str tag "emphasis" || Py.eq_str tag "strong" || Py.eq_str tag "link".

(** An item the reducer passes over: neither a string nor a dictionary, or
    a dictionary without a recognised tag and without nested content. *)
Definition passed_over (item : value) : bool :=
  match item with
  | JStr _ => false
  | JObj fields =>
      negb (recognised_tag (or_default (Py.lookup fields "type") (JStr "")))
      && negb (Py.has_key fields "inlineContent")
      && negb (Py.has_key fields "content")
  | _ => true
  end.

Definition is_string (v : value) : bool :=
  match v with
  | JStr _ => true
  | _ => false
  end.

Definition is_dict (v : value) : bool :=
  match v with
  | JObj _ => true
  | _ => false
  end.

(** A character-wise map of a string. *)
Fixpoint map_chars (f : ascii -> ascii) (s : string) : string :=
  match s with
  | EmptyString => ""
  | String a r => String (f a) (map_chars f r)
  end.

(** The request the expansion of a member makes, if any. *)
Definition expansion_requests (identifier : string) : list string :=
  if Str.startswith own_namespace identifier then
    match child_url identifier with
    | Some url => [url]
    | None => []
    end
  else [].

(** The requests for the members of a document, topic by topic. *)
Definition doc_expansion_requests (d : DocumentNode) : list string :=
  concat (map (fun t => concat (map expansion_requests (opt_list (topic_identifiers t))))
              (opt_list (doc_topics d))).

(** The member is recorded under the topic. *)
Definition has_topic (topic : string) (m : member) : bool :=
  Py.key_eqb (member_topic m) (JStr topic).

Definition topic_name (m : member) : string :=
  match member_topic m with
  | JStr s => s
  | _ => ""
  end.

(** The strings of a list that are not in [seen], each kept at its first
    occurrence. *)
Fixpoint first_occurrences (seen : list string) (l : list string) : list string :=
  match l with
  | [] => []
  | x :: rest =>
      if existsb (String.eqb x) seen then first_occurrences seen rest
      else x :: first_occurrences (seen +++ [x]) rest
  end.

(** The groups of a member list joined to earlier groups. *)
Definition joined (old : option (list member)) (new : list member)
  : option (list member) :=
  match old, new with
  | None, [] => None
  | _, _ => Some (match old with Some l => l | None => [] end +++ new)
  end.

(** All the declarations of the declarations-kind primary sections, in
    document order. *)
Definition all_declarations (d : DocumentNode) : list Declaration :=
  concat (map (fun s => if is_kind "declarations" s
                        then opt_list (sec_declarations s) else [])
              (opt_list (doc_primary d))).

(** The kind [extract_declarations_from_json] records: the role, [symbol]
    when there is none. *)
Definition declared_kind (d : DocumentNode) : string :=
  match doc_metadata d with
  | Some m =>
      match meta_role m with
      | Some role => role
      | None => "symbol"
      end
  | None => "symbol"
  end.

Definition entry_of (d : DocumentNode) (decl : Declaration) : list declaration_entry :=
  if nonempty (declaration_text decl)
  then [DeclarationEntry (JStr (opt_string (doc_title d))) (declaration_text decl)
          (JStr (declared_kind d))]
  else [].

Definition declaration_entries_of (d : DocumentNode) : list declaration_entry :=
  concat (map (entry_of d) (all_declarations d)).

(** The files [convert_to_markdown] writes, in order: one for every file
    whose rendering returns and whose writing succeeds. *)
Definition converted (web : string -> outcome value) (fs : disk)
    (include_children : bool) (files : list (string * value)) : list (string * string) :=
  concat (map (fun file =>
                 match result_web web (json_to_markdown (snd file) (fst file)
                                         (should_expand include_children (fst file))) with
                 | Ok md_content =>
                     match write_text fs (fst file ++ ".md") md_content with
                     | Ok _ => [(fst file ++ ".md", md_content)]
                     | Raise _ => []
                     end
                 | Raise _ => []
                 end) files).

(** A file system on which nothing fails. *)
Definition sound_disk : disk := Disk (Ok tt) (fun _ _ => Ok tt) (fun _ _ => Ok tt).

(** The address [download_docs] asks for a documentation path. *)
Definition doc_url (doc_path : string) : string :=
  DOCS_JSON_BASE ++ "/" ++ doc_path ++ ".json".

(** The files [download_docs] writes, in order: one for every path whose
    answer is truthy. *)
Definition saved (net : string -> value) (paths : list string) : list (string * value) :=
  concat (map (fun doc_path =>
                 if Py.truthy (net (doc_url doc_path))
                 then [(json_stem doc_path ++ ".json", net (doc_url doc_path))]
                 else []) paths).

(** The path is fetched and, when the answer is truthy, saved without an
    exception; [net] gives the answers. *)
Definition goes_well (web : string -> outcome value) (fs : disk) (net : string -> value)
    (doc_path : string) : Prop :=
  web (doc_url doc_path) = Ok (net (doc_url doc_path))
  /\ (Py.truthy (net (doc_url doc_path)) = true ->
      write_file fs (json_stem doc_path ++ ".json") (net (doc_url doc_path)) = Ok tt).

(** A name with neither a slash nor an underscore. *)
Definition plain_name (s : string) : bool :=
  negb (Str.contains "/" s) && negb (Str.contains "_" s).

(** *** Transcripts *)

(** One of the topic-change keywords occurs in the lower-cased sentence. *)
Definition has_keyword (sentence : string) : bool :=
  existsb (fun kw => Text.has_substring kw (Str.lower sentence)) paragraph_keywords.

(** The grouping of the sentences into paragraphs that the loop of
    [format_transcript_as_markdown] makes, [paragraph] being the sentences
    collected so far. *)
Fixpoint paragraphs (sentences : list string) (paragraph : list string)
  : list (list string) :=
  match sentences with
  | [] =>
      match paragraph with
      | [] => []
      | _ => [paragraph]
      end
  | sentence :: rest =>
      if ((4 <=? List.length (paragraph +++ [sentence]))%nat || has_keyword sentence)
      then (paragraph +++ [sentence]) :: paragraphs rest []
      else paragraphs rest (paragraph +++ [sentence])
  end.

(** The lines of a list of paragraphs: each on one line, its sentences
    separated by a space, and followed by an empty line. *)
Definition paragraphs_text (ps : list (list string)) : list string :=
  concat (map (fun p => [Str.join " " p; ""]) ps).

(** A paragraph has one to four sentences, and no keyword before its last
    sentence. *)
Definition well_cut (p : list string) : Prop :=
  (1 <= List.length p <= 4)%nat
  /\ Forall (fun s => has_keyword s = false) (removelast p).

(** A paragraph that was closed by the loop: it is full, or its last
    sentence holds a keyword. *)
Definition closed (p : list string) : Prop :=
  List.length p = 4%nat \/ has_keyword (List.last p "") = true.

(** The lines above the transcript. *)
Definition transcript_header (tv title year session_id : string) : list string :=
  ["# " ++ title; "";
   "**WWDC" ++ year ++ "** | Session " ++ session_id; "";
   tv ++ " [Watch Video](https://developer.apple.com/videos/play/wwdc"
      ++ year ++ "/" ++ session_id ++ "/)"; "";
   "---"; "";
   "## Transcript"; ""].

Definition starts_with_space (s : string) : bool :=
  match s with
  | String a _ => Text.is_space a
  | EmptyString => false
  end.

(** Every white-space character is a single space: what the whitespace
    normalisation of [extract_transcript_from_html] leaves. *)
Fixpoint single_spaced (s : string) : bool :=
  match s with
  | EmptyString => true
  | String a r =>
      (if Text.is_space a then Ascii.eqb a " " && negb (starts_with_space r) else true)
      && single_spaced r
  end.
(** ** Properties of the runtime *)

Arguments depth : simpl never.

Lemma ofor_ext {A B : Type} (l : list A) (f g : A -> outcome (list B)) :
  (forall x, In x l -> f x = g x) -> ofor l f = ofor l g.
Proof.
  induction l as [|a l IH]; intros H; simpl; [reflexivity|].
  rewrite (H a (or_introl eq_refl)), IH; [reflexivity|].
  intros x Hx. apply H. now right.
Qed.

Lemma depth_obj_cons k v rest :
  depth (JObj ((k, v) :: rest)) = Nat.max (S (depth v)) (depth (JObj rest)).
Proof. reflexivity. Qed.

Lemma depth_arr_cons x rest :
  depth (JArr (x :: rest)) = Nat.max (S (depth x)) (depth (JArr rest)).
Proof. reflexivity. Qed.

Lemma depth_lookup fields k v :
  Py.lookup fields k = Some v -> (S (depth v) <= depth (JObj fields))%nat.
Proof.
  induction fields as [|[k' v'] rest IH]; [discriminate|].
  rewrite depth_obj_cons. cbn [Py.lookup].
  destruct (String.eqb k' k).
  - intros [= ->]. lia.
  - intros H. specialize (IH H). lia.
Qed.

Lemma depth_get fields k default v :
  Py.get (JObj fields) k default = Ok v ->
  (depth v < depth (JObj fields))%nat \/ v = default.
Proof.
  unfold Py.get. destruct (Py.lookup fields k) eqn:E; intros [= <-].
  - apply depth_lookup in E. left. lia.
  - now right.
Qed.

Lemma depth_item items x :
  In x items -> (S (depth x) <= depth (JArr items))%nat.
Proof.
  induction items as [|y rest IH]; [intros []|].
  rewrite depth_arr_cons.
  intros [->|H]; [lia|]. specialize (IH H). lia.
Qed.

Lemma iter_depth c items x :
  Py.iter c = Ok items -> In x items -> (depth x < depth c)%nat \/ exists s, x = JStr s.
Proof.
  destruct c; simpl; try discriminate; intros [= <-] Hin.
  - right. apply in_map_iff in Hin as (? & <- & _). eauto.
  - left. apply depth_item in Hin. lia.
  - right. apply in_map_iff in Hin as (? & <- & _). eauto.
Qed.

(** [extract_item] calls [recur] only below the item. *)
Lemma extract_item_ext (f g : value -> outcome string) item :
  (forall v, (depth v < depth item)%nat \/ depth v = 0%nat -> f v = g v) ->
  extract_item f item = extract_item g item.
Proof.
  intros H. destruct item as [| | | |items|fields]; try reflexivity.
  assert (G : forall k d v, depth d = 0%nat -> Py.get (JObj fields) k d = Ok v -> f v = g v).
  { intros k d v Hd Hg. apply H. apply depth_get in Hg as [Hg| ->]; [now left|now right]. }
  unfold extract_item.
  destruct (Py.get (JObj fields) "type" (JStr "")) as [t|] eqn:Et; [|reflexivity].
  cbn [obind].
  repeat (match goal with
          | |- (if ?b then _ else _) = (if ?b then _ else _) => destruct b
          end; try reflexivity);
  match goal with
  | |- obind (Py.get ?d ?k ?dflt) _ = _ =>
      destruct (Py.get d k dflt) as [v|] eqn:Ev; [|reflexivity];
      cbn [obind]; rewrite (G k dflt v eq_refl Ev); reflexivity
  end.
Qed.

Lemma extract_fuel_stable n m c :
  (depth c < n)%nat -> (depth c < m)%nat -> extract_fuel n c = extract_fuel m c.
Proof.
  revert m c. induction n as [|n IH]; intros m c Hn Hm; [lia|].
  destruct m as [|m]; [lia|]. simpl.
  destruct (Py.iter c) as [items|] eqn:Ei; [|reflexivity]. cbn [obind].
  rewrite (ofor_ext items (extract_item (extract_fuel n)) (extract_item (extract_fuel m)));
    [reflexivity|].
  intros x Hx.
  destruct (iter_depth _ _ _ Ei Hx) as [Hd|[s ->]]; [|reflexivity].
  apply extract_item_ext. intros v Hv. apply IH; lia.
Qed.

(** The reducer satisfies the recursive equation of the source: the
    recursion budget [extract_text_from_content] starts with is never
    exhausted, so it plays no part in the result. *)
Lemma extract_unfold content :
  extract_text_from_content content =
  (items <- Py.iter content ;;
   result <- ofor items (extract_item extract_text_from_content) ;;
   Py.join "" result)%O.
Proof.
  unfold extract_text_from_content at 1. cbn [extract_fuel].
  destruct (Py.iter content) as [items|] eqn:Ei; [|reflexivity]. cbn [obind].
  rewrite (ofor_ext items (extract_item (extract_fuel (depth content)))
             (extract_item extract_text_from_content)); [reflexivity|].
  intros x Hx.
  destruct (iter_depth _ _ _ Ei Hx) as [Hd|[s ->]]; [|reflexivity].
  apply extract_item_ext. intros v Hv.
  unfold extract_text_from_content. apply extract_fuel_stable; lia.
Qed.

Arguments extract_text_from_content : simpl never.
Arguments Str.last_segment : simpl never.
Arguments Str.join : simpl never.

Lemma join_strings sep (l : list string) :
  Py.join sep (map JStr l) = Ok (Str.join sep l).
Proof.
  unfold Py.join.
  assert (H : Py.strings (map JStr l) = Some l).
  { induction l as [|x l IH]; simpl; [reflexivity|]. now rewrite IH. }
  now rewrite H.
Qed.

Lemma ofor_map {A B C : Type} (enc : A -> B) (body : B -> outcome (list C))
      (out : A -> list C) (l : list A) :
  Forall (fun a => body (enc a) = Ok (out a)) l ->
  ofor (map enc l) body = Ok (concat (map out l)).
Proof.
  induction 1 as [|a l Ha _ IH]; simpl; [reflexivity|].
  now rewrite Ha, IH.
Qed.

Lemma concat_singletons {A B : Type} (f : A -> B) (l : list A) :
  concat (map (fun a => [f a]) l) = map f l.
Proof. induction l; simpl; congruence. Qed.

Lemma append_nil_r (s : string) : s ++ "" = s.
Proof. induction s; simpl; congruence. Qed.

Lemma append_assoc (a b c : string) : (a ++ b) ++ c = a ++ (b ++ c).
Proof. induction a; simpl; congruence. Qed.

Lemma join_empty_cons (x : string) (l : list string) :
  Str.join "" (x :: l) = x ++ Str.join "" l.
Proof. destruct l; simpl; [now rewrite append_nil_r|reflexivity]. Qed.

Lemma join_empty_app (a b : list string) :
  Str.join "" (a +++ b) = Str.join "" a ++ Str.join "" b.
Proof.
  induction a as [|x a IH]; [reflexivity|].
  cbn [app]. now rewrite !join_empty_cons, IH, append_assoc.
Qed.

Lemma extract_inlines_of_items (l : list Inline) :
  Forall (fun i => appends (extract_item extract_text_from_content (enc_inline i))
                           (reduce_node i)) l ->
  extract_text_from_content (enc_inlines l) = Ok (reduce l).
Proof.
  intros H. rewrite extract_unfold. unfold enc_inlines. cbn [Py.iter obind].
  assert (G : appends (ofor (map enc_inline l) (extract_item extract_text_from_content))
                      (reduce l)).
  { induction H as [|i l (p & Hp & Hj) _ (ps & Hps & Hjs)].
    - exists []. split; reflexivity.
    - exists (p +++ ps). cbn [map ofor]. rewrite Hp, Hps. cbn [obind]. split.
      + now rewrite map_app.
      + unfold reduce in *. cbn [map]. now rewrite join_empty_app, join_empty_cons, Hj, Hjs. }
  destruct G as (ps & -> & <-). cbn [obind]. apply join_strings.
Qed.

Lemma appends_one (s : string) : appends (Ok [JStr s]) s.
Proof. exists [s]. split; reflexivity. Qed.

Lemma appends_none : appends (Ok []) "".
Proof. exists []. split; reflexivity. Qed.

(** *** Field access in the value of a document *)

Lemma get_obj fields k default :
  Py.get (JObj fields) k default = Ok (or_default (Py.lookup fields k) default).
Proof. unfold Py.get. now destruct (Py.lookup fields k). Qed.

Lemma lookup_field_eq k o rest :
  Py.lookup rest k = None -> Py.lookup (field k o +++ rest) k = o.
Proof. intros H. destruct o; simpl; [|assumption]. now rewrite String.eqb_refl. Qed.

Lemma lookup_field_neq k k' o rest :
  String.eqb k k' = false -> Py.lookup (field k o +++ rest) k' = Py.lookup rest k'.
Proof. intros H. destruct o; simpl; [|reflexivity]. now rewrite H. Qed.

Lemma lookup_last_eq k o :
  Py.lookup (field k o) k = o.
Proof. destruct o; simpl; [|reflexivity]. now rewrite String.eqb_refl. Qed.

Lemma lookup_last_neq k k' o :
  String.eqb k k' = false -> Py.lookup (field k o) k' = None.
Proof. intros H. destruct o; simpl; [|reflexivity]. now rewrite H. Qed.

Lemma has_key_lookup fields k :
  Py.has_key fields k = match Py.lookup fields k with Some _ => true | None => false end.
Proof. reflexivity. Qed.

(** Resolves the lookup of a literal key in the value of a record. *)
Ltac lookup_key :=
  repeat first
    [ rewrite lookup_last_eq
    | rewrite lookup_last_neq by reflexivity
    | rewrite lookup_field_neq by reflexivity
    | rewrite lookup_field_eq by (lookup_key; reflexivity) ].

Ltac lookup_fields := repeat (progress (repeat (rewrite get_obj; lookup_key); cbn [obind])).

Lemma or_default_jstr o d :
  or_default (jstr o) (JStr d) = JStr (match o with Some s => s | None => d end).
Proof. now destruct o. Qed.

Lemma or_default_opt_string o :
  or_default (jstr o) (JStr "") = JStr (opt_string o).
Proof. now destruct o. Qed.

Lemma or_default_jlist {A : Type} (enc : A -> value) o :
  or_default (jlist enc o) (JArr []) = JArr (map enc (opt_list o)).
Proof. now destruct o. Qed.

Lemma extract_empty : extract_text_from_content (JArr []) = Ok "".
Proof. reflexivity. Qed.

Lemma reduce_node_unfold type text code identifier destination inlineContent content :
  reduce_node (Node type text code identifier destination inlineContent content) =
  let children := reduce (opt_list inlineContent) in
  let tag := opt_string type in
  if String.eqb tag "text" then opt_string text
  else if String.eqb tag "codeVoice" then "`" ++ opt_string code ++ "`"
  else if String.eqb tag "reference"
       then "`" ++ Str.last_segment (opt_string identifier) ++ "`"
  else if String.eqb tag "emphasis" then "*" ++ children ++ "*"
  else if String.eqb tag "strong" then "**" ++ children ++ "**"
  else if String.eqb tag "link"
       then "[" ++ children ++ "](" ++ opt_string destination ++ ")"
  else match inlineContent, content with
       | Some _, _ => children
       | None, Some l => reduce l
       | None, None => ""
       end.
Proof. destruct inlineContent; reflexivity. Qed.

(** ["/" in s] and [s.split("/")[-1]]: without a slash the last segment
    is the string itself. *)
Lemma last_segment_no_slash s :
  Str.contains Str.slash s = false -> Str.last_segment s = s.
Proof.
  unfold Str.last_segment, Str.last.
  assert (H : Str.contains Str.slash s = false -> Str.split Str.slash s = [s]).
  { induction s as [|a r IH]; simpl; [reflexivity|].
    destruct (Ascii.eqb a Str.slash); simpl; [discriminate|].
    intros Hc. now rewrite (IH Hc). }
  intros Hc. now rewrite (H Hc).
Qed.

Lemma extract_item_inline (i : Inline) :
  appends (extract_item extract_text_from_content (enc_inline i)) (reduce_node i).
Proof.
  induction i as [s|type text code identifier destination inlineContent content IHi IHc]
    using Inline_ind; [apply appends_one|].
  apply extract_inlines_of_items in IHi, IHc.
  rewrite reduce_node_unfold. cbn zeta.
  cbn [enc_inline]. unfold extract_item. lookup_fields.
  rewrite !or_default_opt_string, !or_default_jlist.
  fold (enc_inlines (opt_list inlineContent)). rewrite IHi.
  cbn [obind Py.eq_str Py.format].
  destruct (String.eqb (opt_string type) "text"); [apply appends_one|].
  destruct (String.eqb (opt_string type) "codeVoice"); [apply appends_one|].
  destruct (String.eqb (opt_string type) "reference").
  { cbn [Py.has_slash obind].
    destruct (Str.contains Str.slash (opt_string identifier)) eqn:Hs;
      cbn [Py.last_segment obind Py.format]; [apply appends_one|].
    rewrite last_segment_no_slash by assumption. apply appends_one. }
  destruct (String.eqb (opt_string type) "emphasis"); [apply appends_one|].
  destruct (String.eqb (opt_string type) "strong"); [apply appends_one|].
  destruct (String.eqb (opt_string type) "link"); [apply appends_one|].
  rewrite !has_key_lookup. lookup_key.
  destruct inlineContent as [l|]; cbn [jlist option_map opt_list or_default].
  - unfold enc_inlines in IHi. cbn [opt_list] in IHi. rewrite IHi. apply appends_one.
  - destruct content as [l|]; cbn [jlist option_map opt_list or_default];
      [|apply appends_none].
    unfold enc_inlines in IHc. cbn [opt_list] in IHc. rewrite IHc. apply appends_one.
Qed.

(** The reducer computes the reduction of the design on every sequence of
    inline content. *)
Lemma extract_inlines (s : list Inline) :
  extract_text_from_content (enc_inlines s) = Ok (reduce s).
Proof.
  apply extract_inlines_of_items, Forall_forall. intros i _. apply extract_item_inline.
Qed.

(** *** The recursion budget is never exhausted *)

Lemma exhausted_bind {A B : Type} (m : outcome A) (f : A -> outcome B) :
  exhausted m = false -> (forall a, m = Ok a -> exhausted (f a) = false) ->
  exhausted (obind m f) = false.
Proof. destruct m as [a|e]; simpl; intros Hm Hf; [now apply Hf|exact Hm]. Qed.

Lemma exhausted_ofor {A B : Type} (l : list A) (body : A -> outcome (list B)) :
  (forall x, In x l -> exhausted (body x) = false) -> exhausted (ofor l body) = false.
Proof.
  induction l as [|a l IH]; intros H; simpl; [reflexivity|].
  apply exhausted_bind; [apply H; now left|]. intros xs _.
  apply exhausted_bind; [apply IH; intros x Hx; apply H; now right|]. reflexivity.
Qed.

Lemma exhausted_get d k default : exhausted (Py.get d k default) = false.
Proof. destruct d; try reflexivity. now rewrite get_obj. Qed.

Lemma exhausted_join sep items : exhausted (Py.join sep items) = false.
Proof. unfold Py.join. now destruct (Py.strings items). Qed.

Lemma exhausted_iter v : exhausted (Py.iter v) = false.
Proof. now destruct v. Qed.

Lemma exhausted_has_slash v : exhausted (Py.has_slash v) = false.
Proof. now destruct v. Qed.

Lemma exhausted_last_segment v : exhausted (Py.last_segment v) = false.
Proof. now destruct v. Qed.

Lemma extract_item_budget (f : value -> outcome string) item :
  (forall v, (depth v < depth item)%nat \/ depth v = 0%nat -> exhausted (f v) = false) ->
  exhausted (extract_item f item) = false.
Proof.
  intros H. destruct item as [| | | |items|fields]; try reflexivity.
  assert (G : forall k d v, depth d = 0%nat -> Py.get (JObj fields) k d = Ok v ->
                            exhausted (f v) = false).
  { intros k d v Hd Hg. apply H. apply depth_get in Hg as [Hg| ->]; [now left|now right]. }
  unfold extract_item.
  apply exhausted_bind; [apply exhausted_get|]. intros t _.
  repeat match goal with
         | |- exhausted (if ?b then _ else _) = false => destruct b
         | |- exhausted (obind (Py.get _ _ _) _) = false =>
             apply exhausted_bind; [apply exhausted_get|]; intros ? ?
         | |- exhausted (obind (Py.has_slash _) _) = false =>
             apply exhausted_bind; [apply exhausted_has_slash|]; intros ? ?
         | |- exhausted (obind (Py.last_segment _) _) = false =>
             apply exhausted_bind; [apply exhausted_last_segment|]; intros ? ?
         | Hg : Py.get (JObj fields) ?k ?d = Ok ?v |- exhausted (obind (f ?v) _) = false =>
             apply exhausted_bind; [exact (G k d v eq_refl Hg)|]; intros ? ?
         | |- exhausted (obind (if ?b then _ else _) _) = false => destruct b
         | |- exhausted (Ok _) = false => reflexivity
         | |- exhausted (obind (obind _ _) _) = false =>
             apply exhausted_bind; [|intros ? ?]
         | |- exhausted (obind (Ok _) _) = false => cbn [obind]
         end.
Qed.

Lemma extract_fuel_budget n c :
  (depth c < n)%nat -> exhausted (extract_fuel n c) = false.
Proof.
  revert c. induction n as [|n IH]; intros c Hn; [lia|]. cbn [extract_fuel].
  apply exhausted_bind; [apply exhausted_iter|]. intros items Ei.
  apply exhausted_bind; [|intros; apply exhausted_join].
  apply exhausted_ofor. intros x Hx.
  destruct (iter_depth _ _ _ Ei Hx) as [Hd|[s ->]]; [|reflexivity].
  apply extract_item_budget. intros v Hv. apply IH. lia.
Qed.

(** *** The last [/]-segment *)

Lemma split_nonempty c s : Str.split c s <> [].
Proof.
  destruct s as [|a r]; simpl; [discriminate|].
  destruct (Ascii.eqb a c); [discriminate|].
  destruct (Str.split c r); discriminate.
Qed.

Lemma last_cons_nonempty (x : string) (l : list string) :
  l <> [] -> List.last (x :: l) "" = List.last l "".
Proof. destruct l; [congruence|reflexivity]. Qed.

(** The last segment has no slash, and the string is either that segment
    or ends with a slash followed by it. *)
Lemma last_segment_spec s :
  Str.contains Str.slash (Str.last_segment s) = false /\
  ((Str.contains Str.slash s = false /\ Str.last_segment s = s) \/
   exists p, s = p ++ "/" ++ Str.last_segment s).
Proof.
  unfold Str.last_segment, Str.last.
  induction s as [|a r (IHc & IH)]; [simpl; auto|].
  cbn [Str.split Str.contains].
  destruct (Ascii.eqb a Str.slash) eqn:Ea.
  - apply Ascii.eqb_eq in Ea. subst a.
    rewrite last_cons_nonempty by apply split_nonempty. split; [exact IHc|].
    right. destruct IH as [(_ & ->)|(p & Hp)].
    + now exists "".
    + exists (String Str.slash p). cbn [append]. f_equal. exact Hp.
  - pose proof (split_nonempty Str.slash r) as Hne.
    destruct (Str.split Str.slash r) as [|h t] eqn:Es; [congruence|].
    destruct t as [|h' t'].
    + cbn [List.last] in *. destruct IH as [(Hc & ->)|(p & Hp)].
      * cbn [Str.contains orb]. rewrite Ea, Hc. auto.
      * exfalso. rewrite Hp in Es. clear - Es IHc Hp.
        assert (G : forall p q, Str.split Str.slash (p ++ "/" ++ q) <> [h]).
        { clear. intros p q. revert h. induction p as [|b p IH]; intros h; simpl.
          - intros [= _ Hq]. now apply (split_nonempty Str.slash q).
          - destruct (Ascii.eqb b Str.slash);
              [intros [= _ Hq]; now apply (split_nonempty Str.slash (p ++ String "/" q))|].
            destruct (Str.split Str.slash (p ++ String "/" q)) as [|x [|y l]] eqn:E.
            + exfalso. now apply (split_nonempty _ _ E).
            + intros _. now apply (IH x).
            + discriminate. }
        now apply (G p h).
    + rewrite (last_cons_nonempty h) in IHc, IH by discriminate.
      rewrite (last_cons_nonempty (String a h)) by discriminate.
      split; [exact IHc|]. right. destruct IH as [(Hc & Hl)|(p & Hp)].
      * exfalso. assert (G : forall s, Str.contains Str.slash s = false ->
                                       Str.split Str.slash s = [s]).
        { clear. induction s as [|b s IH]; simpl; [reflexivity|].
          destruct (Ascii.eqb b Str.slash); simpl; [discriminate|].
          intros Hc. now rewrite (IH Hc). }
        rewrite (G r Hc) in Es. discriminate.
      * exists (String a p). cbn [append]. f_equal. exact Hp.
Qed.

(** *** Programs without requests *)

Lemma silent_lift {A : Type} (o : outcome A) : silent (lift o).
Proof. now exists o. Qed.

Lemma silent_ret {A : Type} (a : A) : silent (Ret a).
Proof. now exists (Ok a). Qed.

Lemma silent_throw {A : Type} (e : exn) : silent (@Throw A e).
Proof. now exists (Raise e). Qed.

Lemma silent_bind {A B : Type} (m : prog A) (f : A -> prog B) :
  silent m -> (forall a, silent (f a)) -> silent (pbind m f).
Proof.
  intros ([a|e] & ->) Hf; cbn [lift pbind]; [apply Hf|apply silent_throw].
Qed.

Lemma silent_pfor {A B : Type} (l : list A) (body : A -> prog (list B)) :
  (forall a, silent (body a)) -> silent (pfor l body).
Proof.
  intros Hb. induction l as [|a l IH]; cbn [pfor]; [apply silent_ret|].
  apply silent_bind; [apply Hb|]. intros xs.
  apply silent_bind; [exact IH|]. intros ys. apply silent_ret.
Qed.

Lemma run_lift {A : Type} net (o : outcome A) : run net (lift o) = (o, []).
Proof. now destruct o. Qed.

Ltac silent_steps :=
  repeat first
    [ apply silent_lift
    | apply silent_ret
    | apply silent_throw
    | apply silent_bind; [|intros ?]
    | apply silent_pfor; intros ?
    | match goal with
      | |- silent (if ?b then _ else _) => destruct b
      end ].

Lemma member_lines_silent data identifier : silent (member_lines data false identifier).
Proof. unfold member_lines. silent_steps. Qed.

Lemma topic_lines_silent data topic : silent (topic_lines data false topic).
Proof.
  unfold topic_lines. silent_steps.
Qed.

Lemma json_to_markdown_silent data path : silent (json_to_markdown data path false).
Proof.
  unfold json_to_markdown. silent_steps.
Qed.

(** ** The script on the documents of the data model *)

Lemma returns_ok {A : Type} (a : A) : returns (Ok a).
Proof. now exists a. Qed.

Lemma returns_bind {A B : Type} (m : outcome A) (f : A -> outcome B) :
  returns m -> (forall a, m = Ok a -> returns (f a)) -> returns (obind m f).
Proof. intros (a & ->) Hf. cbn [obind]. now apply Hf. Qed.

Lemma returns_ofor {A B : Type} (l : list A) (body : A -> outcome (list B)) :
  Forall (fun a => returns (body a)) l -> returns (ofor l body).
Proof.
  induction 1 as [|a l (xs & Ha) _ (ys & IH)]; cbn [ofor]; [apply returns_ok|].
  rewrite Ha, IH. apply returns_ok.
Qed.

Lemma returns_ofor_map {A B C : Type} (enc : A -> B) (body : B -> outcome (list C))
      (l : list A) :
  Forall (fun a => returns (body (enc a))) l -> returns (ofor (map enc l) body).
Proof. intros H. apply returns_ofor. now apply Forall_map. Qed.

Lemma join_of_strings sep (l : list string) : returns (Py.join sep (map JStr l)).
Proof. rewrite join_strings. apply returns_ok. Qed.

Lemma format_declaration_typed (d : Declaration) :
  format_declaration (enc_declaration d) = Ok (declaration_text d).
Proof.
  unfold format_declaration, enc_declaration. lookup_fields.
  rewrite or_default_jlist. cbn [Py.iter obind].
  rewrite (ofor_map enc_token _ (fun t => [JStr (opt_string (token_text t))])).
  - cbn [obind]. rewrite concat_singletons, <- map_map. apply join_strings.
  - apply Forall_forall. intros t _. unfold enc_token. lookup_fields.
    now rewrite or_default_opt_string.
Qed.

Lemma platform_entry_typed (p : Platform) : returns (platform_entry (enc_platform p)).
Proof.
  unfold platform_entry, enc_platform. lookup_fields.
  match goal with |- returns (if ?b then _ else _) => destruct b end; apply returns_ok.
Qed.

Lemma availability_lines_typed (o : option (list Platform)) :
  returns (availability_lines (or_default (jlist enc_platform o) (JArr []))).
Proof.
  rewrite or_default_jlist. unfold availability_lines.
  destruct (Py.truthy _); [|apply returns_ok]. cbn [Py.iter obind].
  apply returns_bind.
  - apply returns_ofor_map, Forall_forall. intros p _. apply platform_entry_typed.
  - intros avail _. destruct avail; apply returns_ok.
Qed.

Lemma declaration_lines_typed (d : Declaration) :
  empty_languages d = false ->
  declaration_lines (enc_declaration d)
  = Ok ["```" ++ declaration_language d; declaration_text d; "```"; ""].
Proof.
  intros H. unfold declaration_lines. rewrite format_declaration_typed. cbn [obind].
  unfold enc_declaration, empty_languages, declaration_language in *. lookup_fields.
  destruct (decl_languages d) as [[|lang rest]|]; [discriminate| |]; reflexivity.
Qed.

Lemma declaration_lines_empty_languages (d : Declaration) :
  empty_languages d = true -> declaration_lines (enc_declaration d) = Raise IndexError.
Proof.
  intros H. unfold declaration_lines. rewrite format_declaration_typed. cbn [obind].
  unfold enc_declaration, empty_languages in *. lookup_fields.
  destruct (decl_languages d) as [[|lang rest]|]; try discriminate. reflexivity.
Qed.

(** Normalises the field accesses on the value of a record. *)
Ltac typed_fields :=
  lookup_fields;
  rewrite ?or_default_opt_string, ?or_default_jlist;
  repeat (fold (enc_inlines (opt_list (A := Inline) None)));
  repeat match goal with
         | |- context [JArr (map enc_inline ?l)] => fold (enc_inlines l)
         end;
  rewrite ?extract_inlines;
  cbn [obind Py.eq_str Py.iter].

Lemma eq_str_jstr (o : option string) (default : value) (lit : string) :
  Py.eq_str (or_default (jstr o) default) lit
  = match o with Some s => String.eqb s lit | None => Py.eq_str default lit end.
Proof. now destruct o. Qed.

Lemma first_paragraph_typed (l : list Block) :
  returns (first_paragraph (map enc_block l)).
Proof.
  induction l as [|b l IH]; cbn [map first_paragraph]; [apply returns_ok|].
  unfold enc_block at 1. typed_fields.
  destruct (Py.eq_str _ "paragraph"); [|exact IH].
  unfold enc_block at 1. typed_fields. apply returns_ok.
Qed.

Lemma list_item_lines_typed (i : ListItem) : returns (list_item_lines (enc_list_item i)).
Proof.
  unfold list_item_lines, enc_list_item. typed_fields. cbn [Py.iter obind].
  apply returns_ofor_map, Forall_forall. intros b _.
  unfold enc_block. typed_fields.
  destruct (Py.eq_str _ "paragraph"); [|apply returns_ok].
  typed_fields. apply returns_ok.
Qed.

Lemma content_item_lines_overflow (c : ContentBlock) :
  heading_overflows c = true ->
  content_item_lines (enc_content_block c) = Raise OverflowError.
Proof.
  unfold heading_overflows, content_item_lines, enc_content_block. typed_fields.
  destruct (String.eqb (opt_string (cb_type c)) "heading"); [|discriminate].
  cbn [andb]. destruct (cb_level c) as [z|]; [|discriminate]. intros H.
  apply negb_true_iff in H. cbn [or_default option_map Py.times obind]. now rewrite H.
Qed.

Lemma content_item_lines_typed (c : ContentBlock) :
  heading_overflows c = false -> returns (content_item_lines (enc_content_block c)).
Proof.
  unfold heading_overflows, content_item_lines, enc_content_block. typed_fields.
  destruct (String.eqb (opt_string (cb_type c)) "heading").
  { cbn [andb]. intros H.
    destruct (cb_level c) as [z|]; cbn [or_default option_map Py.times obind].
    - apply negb_false_iff in H. rewrite H. apply returns_ok.
    - change (Py.index_sized 2) with true. apply returns_ok. }
  intros _.
  destruct (String.eqb (opt_string (cb_type c)) "paragraph").
  { apply returns_ok. }
  destruct (String.eqb (opt_string (cb_type c)) "codeListing").
  { rewrite join_strings. apply returns_ok. }
  destruct (String.eqb (opt_string (cb_type c)) "unorderedList"); [|apply returns_ok].
  apply returns_bind; [|intros; apply returns_ok].
  apply returns_ofor_map, Forall_forall. intros i _. apply list_item_lines_typed.
Qed.

Lemma parameter_lines_typed (p : Param) : returns (parameter_lines (enc_param p)).
Proof.
  unfold parameter_lines, enc_param. typed_fields. cbn [Py.iter obind].
  apply returns_bind; [apply first_paragraph_typed|]. intros; apply returns_ok.
Qed.

Lemma section_lines_typed (s : Section) :
  section_failure s = None -> returns (section_lines (enc_section s)).
Proof.
  unfold section_failure, section_has_empty_languages, section_has_overflowing_heading,
    section_lines, enc_section. typed_fields.
  destruct (String.eqb (opt_string (sec_kind s)) "declarations").
  { cbn [andb]. intros H. typed_fields. cbn [Py.iter obind].
    apply returns_bind; [|intros; apply returns_ok].
    apply returns_ofor_map, Forall_forall. intros d Hd.
    rewrite declaration_lines_typed; [apply returns_ok|].
    destruct (empty_languages d) eqn:E; [|reflexivity].
    assert (Hex : existsb empty_languages (opt_list (sec_declarations s)) = true)
      by (apply existsb_exists; eauto).
    rewrite Hex in H. discriminate. }
  cbn [andb].
  destruct (String.eqb (opt_string (sec_kind s)) "content").
  { cbn [andb]. intros H. typed_fields. cbn [Py.iter obind].
    apply returns_ofor_map, Forall_forall. intros c Hc. apply content_item_lines_typed.
    destruct (heading_overflows c) eqn:E; [|reflexivity].
    assert (Hex : existsb heading_overflows (opt_list (sec_content s)) = true)
      by (apply existsb_exists; eauto).
    rewrite Hex in H. discriminate. }
  intros _.
  destruct (String.eqb (opt_string (sec_kind s)) "parameters"); [|apply returns_ok].
  typed_fields. cbn [Py.iter obind]. apply returns_bind; [|intros; apply returns_ok].
  apply returns_ofor_map, Forall_forall. intros p _. apply parameter_lines_typed.
Qed.

(** A loop raises the exception of its first failing item. *)
Lemma ofor_raises {A B : Type} (l : list A) (body : A -> outcome (list B)) (e : exn) :
  Forall (fun a => returns (body a) \/ body a = Raise e) l ->
  Exists (fun a => body a = Raise e) l ->
  ofor l body = Raise e.
Proof.
  induction 1 as [|a l Ha Hl IH]; intros Hex; [inversion Hex|]. cbn [ofor].
  destruct Ha as [(xs & Ha)|Ha]; rewrite Ha; cbn [obind]; [|reflexivity].
  inversion Hex as [? ? Hbad|? ? Hrest]; subst; [congruence|].
  now rewrite (IH Hrest).
Qed.

Lemma section_lines_empty_languages (s : Section) :
  section_has_empty_languages s = true ->
  section_lines (enc_section s) = Raise IndexError.
Proof.
  unfold section_has_empty_languages, section_lines, enc_section. typed_fields.
  destruct (String.eqb (opt_string (sec_kind s)) "declarations"); [|discriminate].
  cbn [andb]. intros H. typed_fields. cbn [Py.iter obind].
  rewrite (ofor_raises _ _ IndexError); [reflexivity| |].
  - apply Forall_map, Forall_forall. intros d _.
    destruct (empty_languages d) eqn:E.
    + right. now apply declaration_lines_empty_languages.
    + left. rewrite declaration_lines_typed by assumption. apply returns_ok.
  - apply existsb_exists in H as (d & Hd & E). apply Exists_exists.
    exists (enc_declaration d). split; [now apply in_map|].
    now apply declaration_lines_empty_languages.
Qed.

Lemma section_lines_overflow (s : Section) :
  section_has_empty_languages s = false ->
  section_has_overflowing_heading s = true ->
  section_lines (enc_section s) = Raise OverflowError.
Proof.
  unfold section_has_empty_languages, section_has_overflowing_heading,
    section_lines, enc_section. typed_fields.
  destruct (String.eqb (opt_string (sec_kind s)) "declarations") eqn:Ed.
  { apply String.eqb_eq in Ed. rewrite Ed. intros _ H. discriminate. }
  intros _.
  destruct (String.eqb (opt_string (sec_kind s)) "content"); [|discriminate].
  cbn [andb]. intros H. typed_fields. cbn [Py.iter obind].
  apply ofor_raises.
  - apply Forall_map, Forall_forall. intros c _.
    destruct (heading_overflows c) eqn:E.
    + right. now apply content_item_lines_overflow.
    + left. now apply content_item_lines_typed.
  - apply existsb_exists in H as (c & Hc & E). apply Exists_exists.
    exists (enc_content_block c). split; [now apply in_map|].
    now apply content_item_lines_overflow.
Qed.

(** The outcome of one primary section. *)
Lemma section_lines_outcome (s : Section) :
  match section_failure s with
  | Some e => section_lines (enc_section s) = Raise e
  | None => returns (section_lines (enc_section s))
  end.
Proof.
  destruct (section_failure s) as [e|] eqn:E; [|now apply section_lines_typed].
  unfold section_failure in E.
  destruct (section_has_empty_languages s) eqn:El.
  - injection E as <-. now apply section_lines_empty_languages.
  - destruct (section_has_overflowing_heading s) eqn:Eo; [|discriminate].
    injection E as <-. now apply section_lines_overflow.
Qed.

(** *** [format_child_doc] *)

Lemma first_nonempty_paragraph_typed (l : list ContentBlock) :
  first_nonempty_paragraph (map enc_content_block l) = Ok (first_nonempty_text l).
Proof.
  induction l as [|c l IH]; [reflexivity|].
  cbn [map first_nonempty_paragraph first_nonempty_text].
  unfold enc_content_block at 1. typed_fields. rewrite eq_str_jstr.
  destruct (cb_type c) as [t|]; cbn [opt_string Py.eq_str String.eqb]; [|exact IH].
  destruct (String.eqb t "paragraph"); [|exact IH].
  unfold enc_content_block at 1. typed_fields. cbn [Py.truthy].
  destruct (String.eqb (reduce (opt_list (cb_inline c))) ""); cbn [negb]; [exact IH|].
  reflexivity.
Qed.

Lemma child_section_typed (st : string * string) (s : Section) :
  child_section st (enc_section s)
  = Ok (match section_declaration s with Some x => x | None => fst st end,
        match section_description s with Some x => x | None => snd st end).
Proof.
  unfold child_section, section_declaration, section_description, is_kind, enc_section.
  typed_fields.
  destruct (String.eqb (opt_string (sec_kind s)) "declarations") eqn:Ed.
  - apply String.eqb_eq in Ed. rewrite Ed. cbn [String.eqb Ascii.eqb Bool.eqb].
    destruct (opt_list (sec_declarations s)) as [|d ds]; cbn [map].
    + now destruct st.
    + rewrite format_declaration_typed. reflexivity.
  - destruct (String.eqb (opt_string (sec_kind s)) "content").
    + rewrite first_nonempty_paragraph_typed. cbn [obind].
      destruct (first_nonempty_text _); [reflexivity|now destruct st].
    + now destruct st.
Qed.

Lemma child_sections_typed (l : list Section) (st : string * string) :
  ofold (map enc_section l) st child_section
  = Ok (last_yield section_declaration l (fst st),
        last_yield section_description l (snd st)).
Proof.
  revert st. induction l as [|s l IH]; intros st; cbn [map ofold last_yield].
  - now destruct st.
  - rewrite child_section_typed. cbn [obind]. now rewrite IH.
Qed.

Lemma truthy_jstr (s : string) : Py.truthy (JStr s) = nonempty s.
Proof. reflexivity. Qed.

Lemma format_child_doc_typed (d : DocumentNode) :
  format_child_doc (enc_doc d) = Ok (child_doc_text d).
Proof.
  unfold format_child_doc, child_doc_text, child_declaration, child_description.
  destruct (Py.truthy (enc_doc d)) eqn:Et; cbn [negb].
  - unfold enc_doc. typed_fields.
    assert (Hm : returns (Py.get (or_default (option_map enc_metadata (doc_metadata d))
                                             (JObj [])) "title" (JStr ""))).
    { destruct (doc_metadata d); cbn [or_default option_map]; unfold enc_metadata;
        rewrite get_obj; apply returns_ok. }
    destruct Hm as (title & ->). cbn [obind].
    rewrite child_sections_typed. reflexivity.
  - assert (Hp : doc_primary d = None).
    { unfold enc_doc in Et. destruct (doc_metadata d); [discriminate|].
      destruct (doc_primary d); [discriminate|reflexivity]. }
    rewrite Hp. reflexivity.
Qed.

(** *** Members of a topic *)

Lemma lookup_references (refs : list (string * ReferenceSummary)) (identifier : string) :
  Py.lookup (map (fun kr => (fst kr, enc_reference (snd kr))) refs) identifier
  = option_map enc_reference (find_reference refs identifier).
Proof.
  induction refs as [|[k r] refs IH]; [reflexivity|].
  cbn [map fst snd Py.lookup find_reference].
  destruct (String.eqb k identifier); [reflexivity|exact IH].
Qed.

Lemma reference_summary_typed (d : DocumentNode) (identifier : string) :
  reference_summary (enc_doc d) (JStr identifier)
  = Ok (JStr (summary_title d identifier),
        enc_inlines (match doc_reference d identifier with
                     | Some r => opt_list (ref_abstract r)
                     | None => []
                     end)).
Proof.
  unfold reference_summary, summary_title, doc_reference, enc_doc. lookup_fields.
  assert (Hr : get_key (or_default (option_map enc_references (doc_references d)) (JObj []))
                       (JStr identifier) (JObj [])
               = Ok (or_default (option_map enc_reference
                                   (find_reference (opt_list (doc_references d)) identifier))
                                (JObj []))).
  { destruct (doc_references d) as [refs|]; cbn [or_default option_map opt_list];
      [|reflexivity].
    unfold enc_references, get_key. cbn [Py.hashable]. rewrite get_obj.
    now rewrite lookup_references. }
  rewrite Hr. cbn [obind].
  destruct (find_reference _ identifier) as [r|]; cbn [or_default option_map].
  - unfold enc_reference. cbn [Py.last_segment obind]. typed_fields.
    rewrite or_default_jstr. reflexivity.
  - reflexivity.
Qed.

Lemma truthy_enc_inlines (l : list Inline) :
  Py.truthy (enc_inlines l) = match l with [] => false | _ => true end.
Proof. now destruct l. Qed.

Lemma member_summary_lines_typed (d : DocumentNode) (identifier : string) :
  member_summary_lines (enc_doc d) (JStr identifier) = Ok (summary_lines d identifier).
Proof.
  unfold member_summary_lines, summary_lines, summary_abstract.
  rewrite reference_summary_typed. cbn [obind fst snd].
  rewrite truthy_enc_inlines.
  destruct (doc_reference d identifier) as [r|]; [|reflexivity].
  destruct (opt_list (ref_abstract r)) as [|i l] eqn:E; [reflexivity|].
  rewrite extract_inlines. reflexivity.
Qed.

(** *** Running programs *)

Lemma result_bind {A B : Type} net (m : prog A) (f : A -> prog B) :
  result net (pbind m f)
  = match result net m with
    | Ok a => result net (f a)
    | Raise e => Raise e
    end.
Proof.
  unfold result. induction m as [a|e|url k IH]; cbn [pbind run fst]; try reflexivity.
  apply IH.
Qed.

Lemma result_lift {A : Type} net (o : outcome A) : result net (lift o) = o.
Proof. now destruct o. Qed.

Lemma result_ret {A : Type} net (a : A) : result net (Ret a) = Ok a.
Proof. reflexivity. Qed.

Lemma result_fetch_json net url : result net (fetch_json url) = Ok (net url).
Proof. reflexivity. Qed.

Lemma result_pfor {A B : Type} net (l : list A) (body : A -> prog (list B))
      (out : A -> list B) :
  Forall (fun a => result net (body a) = Ok (out a)) l ->
  result net (pfor l body) = Ok (concat (map out l)).
Proof.
  induction 1 as [|a l Ha _ IH]; [reflexivity|].
  cbn [pfor map concat]. rewrite result_bind, Ha, result_bind, IH. reflexivity.
Qed.

Lemma result_pfor_map {A B C : Type} net (enc : A -> B) (l : list A)
      (body : B -> prog (list C)) (out : A -> list C) :
  Forall (fun a => result net (body (enc a)) = Ok (out a)) l ->
  result net (pfor (map enc l) body) = Ok (concat (map out l)).
Proof.
  induction 1 as [|a l Ha _ IH]; [reflexivity|].
  cbn [pfor map concat]. rewrite result_bind, Ha, result_bind, IH. reflexivity.
Qed.

Lemma result_catch {A : Type} net (m : prog A) (handler : exn -> prog A) (a : A) :
  result net m = Ok a -> result net (catch m handler) = Ok a.
Proof.
  unfold result. induction m as [x|e|url k IH]; cbn [catch run fst]; intros H.
  - exact H.
  - discriminate.
  - now apply IH.
Qed.

(** [fetch_child_doc]: the document at the address of the identifier;
    [None] without a request when the identifier has no address. *)
Lemma result_fetch_child_doc net identifier :
  result net (fetch_child_doc identifier)
  = Ok (match child_url identifier with
        | Some url => net url
        | None => JNull
        end).
Proof.
  unfold fetch_child_doc, child_url.
  destruct (identifier_to_path identifier) as [path|]; [|reflexivity].
  rewrite truthy_jstr. destruct (nonempty path); reflexivity.
Qed.

Lemma falsy_doc_text (d : DocumentNode) :
  Py.truthy (enc_doc d) = false -> child_doc_text d = "".
Proof.
  intros Et. assert (Hp : doc_primary d = None).
  { unfold enc_doc in Et. destruct (doc_metadata d); [discriminate|].
    destruct (doc_primary d); [discriminate|reflexivity]. }
  unfold child_doc_text, child_declaration, child_description. now rewrite Hp.
Qed.

Lemma member_child_lines_typed net identifier :
  result (enc_net net) (member_child_lines identifier)
  = Ok (match child_url identifier with
        | Some url =>
            match net url with
            | Some child =>
                if nonempty (child_doc_text child) then [child_doc_text child; ""] else []
            | None => []
            end
        | None => []
        end).
Proof.
  unfold member_child_lines. rewrite result_bind, result_fetch_child_doc.
  destruct (child_url identifier) as [url|]; [|reflexivity].
  unfold enc_net. destruct (net url) as [child|]; [|reflexivity].
  destruct (Py.truthy (enc_doc child)) eqn:Et.
  - rewrite result_bind, result_lift, format_child_doc_typed, truthy_jstr.
    now destruct (nonempty (child_doc_text child)).
  - now rewrite (falsy_doc_text child Et).
Qed.

Lemma member_lines_typed net (d : DocumentNode) (include_children : bool) identifier :
  result (enc_net net) (member_lines (enc_doc d) include_children (JStr identifier))
  = Ok (member_block d include_children net identifier).
Proof.
  unfold member_lines, member_block, expansion_lines.
  rewrite result_bind, result_lift, member_summary_lines_typed, result_bind.
  destruct include_children.
  - rewrite result_lift. cbn [Py.startswith].
    destruct (Str.startswith own_namespace identifier).
    + rewrite result_bind, member_child_lines_typed. reflexivity.
    + reflexivity.
  - reflexivity.
Qed.

Lemma topic_lines_typed net (d : DocumentNode) (include_children : bool) (t : TopicGroup) :
  result (enc_net net) (topic_lines (enc_doc d) include_children (enc_topic t))
  = Ok (topic_group_lines d include_children net t).
Proof.
  unfold topic_lines, topic_group_lines, enc_topic.
  rewrite result_bind, result_lift. typed_fields.
  rewrite result_bind, result_lift. typed_fields.
  rewrite result_bind, result_lift. cbn [Py.iter].
  rewrite result_bind.
  rewrite (result_pfor_map _ JStr _ _ (member_block d include_children net)).
  - reflexivity.
  - apply Forall_forall. intros identifier _. apply member_lines_typed.
Qed.

Lemma see_also_section_lines_typed (d : DocumentNode) (t : TopicGroup) :
  see_also_section_lines (enc_doc d) (enc_topic t)
  = Ok (map (fun identifier => "- " ++ summary_title d identifier)
            (opt_list (topic_identifiers t))).
Proof.
  unfold see_also_section_lines, enc_topic. typed_fields.
  rewrite (ofor_map JStr _ (fun identifier => ["- " ++ summary_title d identifier])).
  - now rewrite concat_singletons.
  - apply Forall_forall. intros identifier _. unfold see_also_entry.
    now rewrite reference_summary_typed.
Qed.

(** *** The whole document *)

Lemma metadata_fields_typed (o : option Metadata) :
  exists fields,
    or_default (option_map enc_metadata o) (JObj []) = JObj fields
    /\ Py.lookup fields "title" = jstr (match o with Some m => meta_title m | None => None end)
    /\ Py.lookup fields "role" = jstr (match o with Some m => meta_role m | None => None end)
    /\ Py.lookup fields "symbolKind"
       = jstr (match o with Some m => meta_symbolKind m | None => None end)
    /\ Py.lookup fields "platforms"
       = jlist enc_platform (match o with Some m => meta_platforms m | None => None end).
Proof.
  destruct o as [m|]; cbn [or_default option_map].
  - eexists. split; [reflexivity|]. repeat split; lookup_key; reflexivity.
  - exists []. repeat split.
Qed.

(** The outcome of the loop over the primary sections: the exception of
    the first section that fails. *)
Lemma sections_outcome (l : list Section) :
  match sections_failure l with
  | Some e => ofor (map enc_section l) section_lines = Raise e
  | None => returns (ofor (map enc_section l) section_lines)
  end.
Proof.
  induction l as [|s l IH]; cbn [sections_failure map ofor]; [apply returns_ok|].
  pose proof (section_lines_outcome s) as Hs.
  destruct (section_failure s) as [e|].
  - now rewrite Hs.
  - destruct Hs as (xs & ->). cbn [obind].
    destruct (sections_failure l) as [e|].
    + now rewrite IH.
    + destruct IH as (ys & ->). apply returns_ok.
Qed.

Lemma sections_typed (l : list Section) :
  sections_failure l = None -> returns (ofor (map enc_section l) section_lines).
Proof. intros H. pose proof (sections_outcome l) as Ho. now rewrite H in Ho. Qed.

Lemma sections_fail (l : list Section) (e : exn) :
  sections_failure l = Some e -> ofor (map enc_section l) section_lines = Raise e.
Proof. intros H. pose proof (sections_outcome l) as Ho. now rewrite H in Ho. Qed.

(** *** The two failures of the data model *)

Lemma sections_failure_kinds (l : list Section) (e : exn) :
  sections_failure l = Some e -> e = IndexError \/ e = OverflowError.
Proof.
  induction l as [|s l IH]; cbn [sections_failure]; [discriminate|].
  unfold section_failure.
  destruct (section_has_empty_languages s); [intros [= <-]; now left|].
  destruct (section_has_overflowing_heading s); [intros [= <-]; now right|exact IH].
Qed.

Lemma sections_failure_none (l : list Section) :
  sections_failure l = None
  <-> existsb section_has_empty_languages l = false
      /\ existsb section_has_overflowing_heading l = false.
Proof.
  induction l as [|s l IH]; cbn [sections_failure existsb]; [now split|].
  unfold section_failure.
  destruct (section_has_empty_languages s); cbn [orb]; [split; [discriminate|now intros []]|].
  destruct (section_has_overflowing_heading s); cbn [orb];
    [split; [discriminate|now intros []]|exact IH].
Qed.

Lemma sections_failure_index (l : list Section) :
  sections_failure l = Some IndexError -> existsb section_has_empty_languages l = true.
Proof.
  induction l as [|s l IH]; cbn [sections_failure existsb]; [discriminate|].
  unfold section_failure.
  destruct (section_has_empty_languages s); [reflexivity|]. cbn [orb].
  destruct (section_has_overflowing_heading s); [discriminate|exact IH].
Qed.

Lemma sections_failure_overflow (l : list Section) :
  sections_failure l = Some OverflowError ->
  existsb section_has_overflowing_heading l = true.
Proof.
  induction l as [|s l IH]; cbn [sections_failure existsb]; [discriminate|].
  unfold section_failure.
  destruct (section_has_empty_languages s); [discriminate|].
  destruct (section_has_overflowing_heading s); [reflexivity|exact IH].
Qed.

Lemma sections_failure_in_range (l : list Section) :
  existsb section_has_overflowing_heading l = false ->
  sections_failure l
  = if existsb section_has_empty_languages l then Some IndexError else None.
Proof.
  induction l as [|s l IH]; cbn [sections_failure existsb]; [reflexivity|].
  intros H. apply orb_false_iff in H as (Hs & Hl). unfold section_failure. rewrite Hs.
  destruct (section_has_empty_languages s); [reflexivity|]. cbn [orb]. now apply IH.
Qed.

Lemma truthy_jarr_map {A : Type} (enc : A -> value) (l : list A) :
  Py.truthy (JArr (map enc l)) = match l with [] => false | _ => true end.
Proof. now destruct l. Qed.

(** The rendering up to the primary sections: it does not depend on the
    network. *)
Lemma json_to_markdown_typed (d : DocumentNode) (path : string) :
  doc_failure d = None ->
  exists front : list string,
    forall (include_children : bool) (net : string -> option DocumentNode),
      result (enc_net net) (json_to_markdown (enc_doc d) path include_children)
      = Ok (Str.join Str.nl
              (("# " ++ doc_heading d path) :: "" :: front
               +++ topics_lines d include_children net +++ see_also_lines d)).
Proof.
  intros Hl. unfold doc_failure in Hl.
  destruct (metadata_fields_typed (doc_metadata d)) as (mf & Hm & Ht & Hr & _ & Hp).
  destruct (availability_lines_typed
              (match doc_metadata d with Some m => meta_platforms m | None => None end))
    as (availability & Ha).
  destruct (sections_typed _ Hl) as (body & Hb).
  exists ((if Py.truthy (or_default (jstr (match doc_metadata d with
                                           | Some m => meta_role m | None => None end))
                                    (JStr ""))
           then ["**Type:** " ++ Py.format (or_default (jstr (match doc_metadata d with
                                           | Some m => meta_role m | None => None end))
                                    (JStr "")); ""] else [])
          +++ availability +++ body).
  intros include_children net.
  unfold json_to_markdown, enc_doc.
  rewrite result_bind, result_lift. lookup_fields. rewrite Hm.
  rewrite result_bind, result_lift, get_obj, Ht.
  rewrite result_bind, result_lift, get_obj, Hr.
  rewrite result_bind, result_lift, get_obj, Hp.
  rewrite result_bind, result_lift, Ha.
  rewrite result_bind, result_lift. lookup_fields.
  rewrite result_bind, result_lift, or_default_jlist. cbn [Py.iter].
  rewrite result_bind, result_lift, Hb.
  rewrite result_bind, result_lift. lookup_fields.
  rewrite result_bind, or_default_jlist, truthy_jarr_map.
  assert (Htopics :
    result (enc_net net)
      (if match opt_list (doc_topics d) with [] => false | _ => true end
       then (items <- lift (Py.iter (JArr (map enc_topic (opt_list (doc_topics d))))) ;;
             groups <- pfor items (topic_lines
                 (JObj (field "metadata" (option_map enc_metadata (doc_metadata d))
                        +++ field "primaryContentSections" (jlist enc_section (doc_primary d))
                        +++ field "topicSections" (jlist enc_topic (doc_topics d))
                        +++ field "seeAlsoSections" (jlist enc_topic (doc_seeAlso d))
                        +++ field "references"
                              (option_map enc_references (doc_references d))))
                 include_children) ;;
             Ret (["## Topics"; ""] +++ groups))%P
       else Ret [])
    = Ok (topics_lines d include_children net)).
  { unfold topics_lines. destruct (opt_list (doc_topics d)) as [|t ts] eqn:E; [reflexivity|].
    rewrite result_bind, result_lift. cbn [Py.iter]. rewrite result_bind.
    fold (enc_doc d).
    rewrite (result_pfor_map _ enc_topic _ _ (topic_group_lines d include_children net)).
    - reflexivity.
    - apply Forall_forall. intros t' _. apply topic_lines_typed. }
  rewrite Htopics.
  rewrite result_bind, result_lift. lookup_fields.
  rewrite result_bind, or_default_jlist, truthy_jarr_map.
  assert (Hsee :
    result (enc_net net)
      (if match opt_list (doc_seeAlso d) with [] => false | _ => true end
       then (items <- lift (Py.iter (JArr (map enc_topic (opt_list (doc_seeAlso d))))) ;;
             bullets <- lift (ofor items (see_also_section_lines (enc_doc d))) ;;
             Ret (["## See Also"; ""] +++ bullets +++ [""]))%P
       else Ret [])
    = Ok (see_also_lines d)).
  { unfold see_also_lines. destruct (opt_list (doc_seeAlso d)) as [|t ts] eqn:E; [reflexivity|].
    rewrite result_bind, result_lift. cbn [Py.iter]. rewrite result_bind, result_lift.
    rewrite (ofor_map enc_topic _
               (fun t => map (fun identifier => "- " ++ summary_title d identifier)
                             (opt_list (topic_identifiers t)))).
    - reflexivity.
    - apply Forall_forall. intros t' _. apply see_also_section_lines_typed. }
  fold (enc_doc d). rewrite Hsee. rewrite result_ret.
  unfold doc_heading. rewrite or_default_jstr. cbn [Py.format].
  do 2 f_equal.
  destruct (doc_metadata d) as [m|]; [destruct (meta_title m)|]; cbn [app];
    rewrite <- ?app_assoc; reflexivity.
Qed.

Lemma json_to_markdown_fails (d : DocumentNode) (path : string)
      (include_children : bool) (net : string -> option DocumentNode) (e : exn) :
  doc_failure d = Some e ->
  result (enc_net net) (json_to_markdown (enc_doc d) path include_children)
  = Raise e.
Proof.
  intros Hl. unfold doc_failure in Hl.
  destruct (metadata_fields_typed (doc_metadata d)) as (mf & Hm & Ht & Hr & _ & Hp).
  destruct (availability_lines_typed
              (match doc_metadata d with Some m => meta_platforms m | None => None end))
    as (availability & Ha).
  unfold json_to_markdown, enc_doc.
  rewrite result_bind, result_lift. lookup_fields. rewrite Hm.
  rewrite result_bind, result_lift, get_obj, Ht.
  rewrite result_bind, result_lift, get_obj, Hr.
  rewrite result_bind, result_lift, get_obj, Hp.
  rewrite result_bind, result_lift, Ha.
  rewrite result_bind, result_lift. lookup_fields.
  rewrite result_bind, result_lift, or_default_jlist. cbn [Py.iter].
  rewrite result_bind, result_lift, (sections_fail _ _ Hl). reflexivity.
Qed.

(** The outcome of rendering a document of the data model. *)
Lemma json_to_markdown_outcome (d : DocumentNode) (path : string) :
  exists front : list string,
    forall (include_children : bool) (net : string -> option DocumentNode),
      result (enc_net net) (json_to_markdown (enc_doc d) path include_children)
      = match doc_failure d with
        | Some e => Raise e
        | None =>
            Ok (Str.join Str.nl
                  (("# " ++ doc_heading d path) :: "" :: front
                   +++ topics_lines d include_children net +++ see_also_lines d))
        end.
Proof.
  destruct (doc_failure d) as [e|] eqn:E.
  - exists []. intros include_children net. now apply json_to_markdown_fails.
  - exact (json_to_markdown_typed d path E).
Qed.

(** *** The aggregator on the documents of the data model *)

Lemma eq_str_kind (o : option string) (lit : string) :
  Py.eq_str JNull lit = false ->
  String.eqb "" lit = false ->
  Py.eq_str (or_default (jstr o) JNull) lit = String.eqb (opt_string o) lit.
Proof. intros _ H. destruct o; cbn [jstr option_map or_default opt_string Py.eq_str]; congruence. Qed.

Lemma member_section_typed (title kind topic : string) (s : Section) :
  member_section (JStr title) (JStr kind) (JStr topic) (enc_section s)
  = Ok (section_member title kind topic s).
Proof.
  unfold member_section, section_member, section_declaration, is_kind, enc_section.
  typed_fields. rewrite eq_str_kind by reflexivity.
  destruct (String.eqb (opt_string (sec_kind s)) "declarations"); [|reflexivity].
  destruct (opt_list (sec_declarations s)) as [|d ds]; cbn [map]; [reflexivity|].
  rewrite format_declaration_typed. cbn [obind]. rewrite truthy_jstr.
  now destruct (nonempty (declaration_text d)).
Qed.

Lemma child_members_typed (topic : string) (child : DocumentNode) :
  child_members (JStr topic) (enc_doc child) = Ok (members_of_child topic child).
Proof.
  unfold child_members, members_of_child, enc_doc. lookup_fields.
  destruct (metadata_fields_typed (doc_metadata child)) as (mf & Hm & Ht & Hr & Hk & _).
  rewrite Hm, get_obj, Ht. cbn [obind]. rewrite get_obj, Hr. cbn [obind].
  rewrite get_obj, Hk. cbn [obind]. lookup_fields. rewrite or_default_jlist.
  cbn [Py.iter obind]. rewrite or_default_opt_string.
  assert (Hkind : or_default (jstr (match doc_metadata child with
                                    | Some m => meta_symbolKind m | None => None end))
                    (or_default (jstr (match doc_metadata child with
                                       | Some m => meta_role m | None => None end))
                                (JStr ""))
                  = JStr (doc_kind child)).
  { unfold doc_kind. destruct (doc_metadata child) as [m|]; [|reflexivity].
    destruct (meta_symbolKind m); [reflexivity|]. apply or_default_opt_string. }
  rewrite Hkind. apply ofor_map, Forall_forall. intros s _. apply member_section_typed.
Qed.

Lemma falsy_doc_members (topic : string) (child : DocumentNode) :
  Py.truthy (enc_doc child) = false -> members_of_child topic child = [].
Proof.
  intros Et. assert (Hp : doc_primary child = None).
  { unfold enc_doc in Et. destruct (doc_metadata child); [discriminate|].
    destruct (doc_primary child); [discriminate|reflexivity]. }
  unfold members_of_child. now rewrite Hp.
Qed.

Lemma identifier_members_typed net (topic identifier : string) :
  result (enc_net net) (identifier_members (JStr topic) (JStr identifier))
  = Ok (identifier_member_list net topic identifier).
Proof.
  unfold identifier_members, identifier_member_list.
  rewrite result_bind, result_lift. cbn [Py.startswith].
  destruct (Str.startswith own_namespace identifier); cbn [negb]; [|reflexivity].
  rewrite result_bind, result_fetch_child_doc.
  destruct (child_url identifier) as [url|]; [|reflexivity].
  unfold enc_net. destruct (net url) as [child|]; [|reflexivity].
  destruct (Py.truthy (enc_doc child)) eqn:Et; cbn [negb].
  - now rewrite result_lift, child_members_typed.
  - now rewrite (falsy_doc_members topic child Et).
Qed.

Lemma topic_members_typed net (t : TopicGroup) :
  result (enc_net net) (topic_members (enc_topic t)) = Ok (topic_member_list net t).
Proof.
  unfold topic_members, topic_member_list, enc_topic.
  rewrite result_bind, result_lift. typed_fields.
  rewrite result_bind, result_lift. typed_fields.
  rewrite result_bind, result_lift.
  apply result_pfor_map, Forall_forall. intros identifier _.
  apply identifier_members_typed.
Qed.

Lemma class_decl_section_typed (class_decl : option string) (s : Section) :
  class_decl_section class_decl (enc_section s)
  = Ok (match section_declaration s with Some code => Some code | None => class_decl end).
Proof.
  unfold class_decl_section, section_declaration, is_kind, enc_section.
  typed_fields. rewrite eq_str_kind by reflexivity.
  destruct (String.eqb (opt_string (sec_kind s)) "declarations"); [|reflexivity].
  destruct (opt_list (sec_declarations s)) as [|d ds]; cbn [map]; [reflexivity|].
  now rewrite format_declaration_typed.
Qed.

Lemma class_decl_sections_typed (l : list Section) (class_decl : option string) :
  ofold (map enc_section l) class_decl class_decl_section
  = Ok (last_yield (fun s => option_map Some (section_declaration s)) l class_decl).
Proof.
  revert class_decl. induction l as [|s l IH]; intros class_decl; [reflexivity|].
  cbn [map ofold last_yield]. rewrite class_decl_section_typed. cbn [obind].
  rewrite IH. now destruct (section_declaration s).
Qed.

Lemma file_entry_typed net (stem : string) (d : DocumentNode) :
  result (enc_net net) (file_entry stem (enc_doc d)) = Ok (doc_entry net stem d).
Proof.
  unfold file_entry, doc_entry, role_accepted, doc_role, entry_title, doc_title, enc_doc.
  destruct (metadata_fields_typed (doc_metadata d)) as (mf & Hm & Ht & Hr & _).
  rewrite result_bind, result_lift. lookup_fields. rewrite Hm.
  rewrite result_bind, result_lift, get_obj, Ht.
  rewrite result_bind, result_lift, get_obj, Hr.
  rewrite or_default_opt_string, or_default_jstr. unfold accepted_role. cbn [Py.eq_str].
  assert (Hrole : opt_string (match doc_metadata d with
                              | Some m => meta_role m | None => None end)
                  = match doc_metadata d with
                    | Some m => opt_string (meta_role m) | None => "" end)
    by (now destruct (doc_metadata d)).
  rewrite Hrole.
  destruct (_ || _); cbn [negb andb]; [|reflexivity].
  rewrite result_bind, result_lift. lookup_fields.
  rewrite result_bind, result_lift, or_default_jlist. cbn [Py.iter].
  rewrite result_bind, result_lift, class_decl_sections_typed.
  rewrite result_bind, result_lift. lookup_fields.
  rewrite result_bind, result_lift, or_default_jlist. cbn [Py.iter].
  rewrite result_bind.
  rewrite (result_pfor_map _ enc_topic _ _ (topic_member_list net))
    by (apply Forall_forall; intros t _; apply topic_members_typed).
  fold (recorded_members net d). fold (class_declaration d).
  destruct (has_content _ _); [|reflexivity].
  now destruct (doc_metadata d) as [m|]; [destruct (meta_title m)|].
Qed.

Lemma process_file_typed net (api : dict class_info) (file : string * DocumentNode) :
  result (enc_net net) (process_file api (enc_file file))
  = Ok (match doc_entry net (fst file) (snd file) with
        | Some (title, info) => dict_put api title info
        | None => api
        end).
Proof.
  unfold process_file. apply result_catch.
  unfold enc_file. cbn [fst snd]. rewrite result_bind, file_entry_typed.
  unfold doc_entry. destruct (_ && _); [|reflexivity].
  reflexivity.
Qed.

Lemma aggregate_typed net (corpus : list (string * DocumentNode)) (api : dict class_info) :
  result (enc_net net) (aggregate api (map enc_file corpus))
  = Ok (aggregated net api corpus).
Proof.
  revert api. induction corpus as [|[stem d] rest IH]; intros api; [reflexivity|].
  cbn [map aggregate aggregated]. rewrite result_bind, process_file_typed. cbn [fst snd].
  apply IH.
Qed.

(** *** Rendering the aggregated entries *)

Lemma by_topic_grouped (members : list member) (groups : dict (list member)) :
  Forall string_topic members -> by_topic groups members = Ok (grouped groups members).
Proof.
  intros H. revert groups. induction H as [|m rest (s & Hm) _ IH]; intros groups;
    [reflexivity|].
  cbn [by_topic grouped]. unfold dict_set. rewrite Hm. cbn [Py.hashable obind]. apply IH.
Qed.

Lemma well_keyed_names (api : dict class_info) :
  well_keyed api -> dict_keys api = map JStr (key_names api).
Proof.
  induction 1 as [|[k info] api ((s & Hk) & _) _ IH]; [reflexivity|].
  cbn [fst] in Hk. subst k. cbn [dict_keys map fst key_names]. f_equal. exact IH.
Qed.

Lemma strings_map_jstr (l : list string) : Py.strings (map JStr l) = Some l.
Proof. induction l as [|x l IH]; cbn [map Py.strings]; [reflexivity|]. now rewrite IH. Qed.

Lemma sorted_names (api : dict class_info) :
  well_keyed api ->
  sorted (dict_keys api) = Ok (map JStr (sort String.leb (key_names api))).
Proof.
  intros H. unfold sorted. now rewrite (well_keyed_names api H), strings_map_jstr.
Qed.

Lemma insert_in {A : Type} (leb : A -> A -> bool) (x y : A) (l : list A) :
  In y (insert leb x l) <-> y = x \/ In y l.
Proof.
  induction l as [|z l IH]; cbn [insert In]; [intuition congruence|].
  destruct (leb x z); cbn [In]; [intuition congruence|]. rewrite IH. intuition congruence.
Qed.

Lemma sort_in {A : Type} (leb : A -> A -> bool) (y : A) (l : list A) :
  In y (sort leb l) <-> In y l.
Proof.
  induction l as [|x l IH]; cbn [sort In]; [tauto|].
  rewrite insert_in, IH. intuition congruence.
Qed.

Lemma find_key_name (api : dict class_info) (name : string) :
  In name (key_names api) -> exists info, dict_find api (JStr name) = Some info /\ In (JStr name, info) api.
Proof.
  induction api as [|[k info] api IH]; cbn [key_names]; [intros []|].
  intros H. cbn [dict_find].
  destruct (Py.key_eqb k (JStr name)) eqn:E.
  - exists info. split; [reflexivity|]. left. f_equal.
    destruct k; try discriminate. cbn in E. apply String.eqb_eq in E. now subst.
  - assert (Hin : In name (key_names api)).
    { destruct k; try exact H. destruct H as [->|H]; [|exact H].
      cbn in E. now rewrite String.eqb_refl in E. }
    destruct (IH Hin) as (info' & Hf & Hi). exists info'. split; [exact Hf|now right].
Qed.

Lemma class_section_typed (api : dict class_info) (name : string) :
  well_keyed api -> In name (key_names api) ->
  class_section api (JStr name) = Ok (class_lines api name).
Proof.
  intros Hw Hin. unfold class_section, class_lines.
  destruct (find_key_name api name Hin) as (info & -> & Hi).
  assert (Ht : Forall string_topic (info_members info)).
  { unfold well_keyed in Hw. rewrite Forall_forall in Hw. now apply (Hw _ Hi). }
  rewrite (by_topic_grouped _ [] Ht). reflexivity.
Qed.

Lemma render_api_typed (api : dict class_info) :
  well_keyed api ->
  render_api api = Ok (api_text api (sort String.leb (key_names api))).
Proof.
  intros Hw. unfold render_api, api_text. rewrite (sorted_names api Hw). cbn [obind].
  rewrite (ofor_map JStr toc_entry (fun name => [toc_line name]))
    by (apply Forall_forall; intros name _; reflexivity).
  cbn [obind].
  rewrite (ofor_map JStr (class_section api) (class_lines api)).
  - cbn [obind]. now rewrite concat_singletons.
  - apply Forall_forall. intros name Hin. apply class_section_typed; [exact Hw|].
    now apply sort_in in Hin.
Qed.

(** *** The entries the aggregation leaves *)

Lemma Forall_concat {A : Type} (P : A -> Prop) (ls : list (list A)) :
  Forall (Forall P) ls -> Forall P (concat ls).
Proof.
  induction 1 as [|l ls Hl _ IH]; cbn [concat]; [constructor|].
  apply Forall_app. now split.
Qed.

Lemma section_member_topic (title kind topic : string) (s : Section) :
  Forall string_topic (section_member title kind topic s).
Proof.
  unfold section_member. destruct (section_declaration s) as [code|]; [|constructor].
  destruct (nonempty code); constructor; [|constructor]. now exists topic.
Qed.

Lemma recorded_members_topic net (d : DocumentNode) :
  Forall string_topic (recorded_members net d).
Proof.
  unfold recorded_members. apply Forall_concat, Forall_map, Forall_forall. intros t _.
  unfold topic_member_list. apply Forall_concat, Forall_map, Forall_forall.
  intros identifier _. unfold identifier_member_list.
  destruct (Str.startswith _ _); [|constructor].
  destruct (child_url identifier) as [url|]; [|constructor].
  destruct (net url) as [child|]; [|constructor].
  unfold members_of_child. apply Forall_concat, Forall_map, Forall_forall.
  intros s _. apply section_member_topic.
Qed.

Lemma doc_entry_contributes net stem d :
  doc_entry net stem d
  = if contributes net stem d
    then Some (JStr (entry_title stem d),
               ClassInfo (class_declaration d) (recorded_members net d))
    else None.
Proof. reflexivity. Qed.

Lemma well_keyed_put (api : dict class_info) (name : string) (info : class_info) :
  well_keyed api -> Forall string_topic (info_members info) ->
  well_keyed (dict_put api (JStr name) info).
Proof.
  intros Hw Hi. induction Hw as [|[k v] api Hk Hrest IH]; cbn [dict_put].
  - constructor; [|constructor]. split; [now exists name|exact Hi].
  - destruct (Py.key_eqb k (JStr name)).
    + constructor; [|exact Hrest]. split; [apply Hk|exact Hi].
    + constructor; assumption.
Qed.

Lemma well_keyed_aggregated net (corpus : list (string * DocumentNode))
      (api : dict class_info) :
  well_keyed api -> well_keyed (aggregated net api corpus).
Proof.
  revert api. induction corpus as [|[stem d] rest IH]; intros api Hw; [exact Hw|].
  cbn [aggregated]. apply IH. rewrite doc_entry_contributes.
  destruct (contributes net stem d); [|exact Hw].
  apply well_keyed_put; [exact Hw|]. apply recorded_members_topic.
Qed.

Lemma key_eqb_jstr (k : value) (name : string) :
  Py.key_eqb k (JStr name) = true <-> k = JStr name.
Proof.
  destruct k; cbn; try (split; [discriminate|congruence]).
  rewrite String.eqb_eq. split; congruence.
Qed.

Lemma key_names_put {V : Type} (api : dict V) (name : string) (v : V) (x : string) :
  In x (key_names (dict_put api (JStr name) v)) <-> x = name \/ In x (key_names api).
Proof.
  induction api as [|[k v'] api IH]; cbn [dict_put key_names In]; [intuition congruence|].
  destruct (Py.key_eqb k (JStr name)) eqn:E.
  - apply key_eqb_jstr in E. subst k. cbn [key_names In]. intuition congruence.
  - destruct k; cbn [key_names In]; rewrite ?IH; intuition congruence.
Qed.

Lemma key_names_put_nodup {V : Type} (api : dict V) (name : string) (v : V) :
  NoDup (key_names api) -> NoDup (key_names (dict_put api (JStr name) v)).
Proof.
  induction api as [|[k v'] api IH]; cbn [dict_put key_names]; intros H.
  - constructor; [intros []|constructor].
  - destruct (Py.key_eqb k (JStr name)) eqn:E.
    + apply key_eqb_jstr in E. subst k. exact H.
    + destruct k; cbn [key_names] in *; try (now apply IH).
      inversion H as [|? ? Hn Hd]; subst. constructor; [|now apply IH].
      rewrite key_names_put. intros [->|Hin]; [|contradiction].
      cbn in E. now rewrite String.eqb_refl in E.
Qed.

Lemma key_names_aggregated net (corpus : list (string * DocumentNode))
      (api : dict class_info) (name : string) :
  In name (key_names (aggregated net api corpus))
  <-> In name (key_names api)
      \/ exists stem d, In (stem, d) corpus /\ contributes net stem d = true
                        /\ entry_title stem d = name.
Proof.
  revert api. induction corpus as [|[stem d] rest IH]; intros api; cbn [aggregated].
  - split; [now left|]. intros [H|(? & ? & [] & _)]. exact H.
  - rewrite IH, doc_entry_contributes. destruct (contributes net stem d) eqn:Ec.
    + rewrite key_names_put. split.
      * intros [[->|H]|(s & d' & Hin & Hc & Ht)].
        -- right. exists stem, d. split; [now left|]. now split.
        -- now left.
        -- right. exists s, d'. split; [now right|]. now split.
      * intros [H|(s & d' & [[= -> ->]|Hin] & Hc & Ht)].
        -- left. now right.
        -- left. left. now symmetry.
        -- right. exists s, d'. now repeat split.
    + split.
      * intros [H|(s & d' & Hin & Hc & Ht)]; [now left|].
        right. exists s, d'. split; [now right|]. now split.
      * intros [H|(s & d' & [[= -> ->]|Hin] & Hc & Ht)]; [now left|congruence|].
        right. exists s, d'. now repeat split.
Qed.

Lemma key_names_aggregated_nodup net (corpus : list (string * DocumentNode))
      (api : dict class_info) :
  NoDup (key_names api) -> NoDup (key_names (aggregated net api corpus)).
Proof.
  revert api. induction corpus as [|[stem d] rest IH]; intros api H; [exact H|].
  cbn [aggregated]. apply IH. rewrite doc_entry_contributes.
  destruct (contributes net stem d); [|exact H]. now apply key_names_put_nodup.
Qed.

(** *** The order of [sorted] *)

Lemma str_le_trans (a b c : string) : str_le a b -> str_le b c -> str_le a c.
Proof.
  unfold str_le, String.leb. intros Hab Hbc.
  destruct (String.compare a b) eqn:Eab; try discriminate.
  - apply String.compare_eq_iff in Eab. subst b. exact Hbc.
  - destruct (String.compare b c) eqn:Ebc; try discriminate.
    + apply String.compare_eq_iff in Ebc. subst c. now rewrite Eab.
    + change String.compare with OrderedTypeEx.String_as_OT.cmp in *.
      apply OrderedTypeEx.String_as_OT.cmp_lt in Eab, Ebc.
      pose proof (OrderedTypeEx.String_as_OT.lt_trans _ _ _ Eab Ebc) as H.
      apply OrderedTypeEx.String_as_OT.cmp_lt in H. now rewrite H.
Qed.

Lemma insert_sorted (x : string) (l : list string) :
  StronglySorted str_le l -> StronglySorted str_le (insert String.leb x l).
Proof.
  induction 1 as [|y l Hs IH Hy]; cbn [insert].
  - constructor; constructor.
  - destruct (String.leb x y) eqn:E.
    + constructor; [now constructor|]. constructor; [exact E|].
      rewrite Forall_forall in *. intros z Hz. apply (str_le_trans x y z E). now apply Hy.
    + constructor; [exact IH|]. apply Forall_forall. intros z Hz.
      apply insert_in in Hz as [->|Hz].
      * destruct (String.leb_total x y) as [H|H]; [congruence|exact H].
      * rewrite Forall_forall in Hy. now apply Hy.
Qed.

Lemma sort_sorted (l : list string) : StronglySorted str_le (sort String.leb l).
Proof.
  induction l as [|x l IH]; cbn [sort]; [constructor|]. now apply insert_sorted.
Qed.

Lemma insert_perm {A : Type} (leb : A -> A -> bool) (x : A) (l : list A) :
  Permutation (x :: l) (insert leb x l).
Proof.
  induction l as [|y l IH]; cbn [insert]; [reflexivity|].
  destruct (leb x y); [reflexivity|].
  rewrite perm_swap. now constructor.
Qed.

Lemma sort_perm {A : Type} (leb : A -> A -> bool) (l : list A) :
  Permutation l (sort leb l).
Proof.
  induction l as [|x l IH]; cbn [sort]; [constructor|].
  rewrite <- insert_perm. now constructor.
Qed.

(** Two sorted lists without repetition that have the same elements are
    equal. *)
Lemma sorted_unique (l l' : list string) :
  StronglySorted str_le l -> StronglySorted str_le l' ->
  NoDup l -> NoDup l' -> (forall x, In x l <-> In x l') -> l = l'.
Proof.
  intros Hs. revert l'. induction Hs as [|x l Hs IH Hx]; intros l' Hs' Hn Hn' Hin.
  - destruct l' as [|y l']; [reflexivity|]. exfalso. apply (Hin y). now left.
  - destruct Hs' as [|y l' Hs' Hy].
    + exfalso. apply (Hin x). now left.
    + rewrite Forall_forall in Hx, Hy.
      inversion Hn as [|? ? Hnx Hnl]; inversion Hn' as [|? ? Hny Hnl']; subst.
      assert (Exy : x = y).
      { assert (H1 : In x (y :: l')) by (apply Hin; now left).
        assert (H2 : In y (x :: l)) by (apply Hin; now left).
        destruct H1 as [H1|H1]; [now symmetry|].
        destruct H2 as [H2|H2]; [exact H2|].
        apply String.leb_antisym; [now apply Hx|now apply Hy]. }
      subst y. f_equal. apply IH; try assumption.
      intros z. split; intros Hz.
      * assert (H : In z (x :: l')) by (apply Hin; now right).
        destruct H as [->|H]; [contradiction|exact H].
      * assert (H : In z (x :: l)) by (apply Hin; now right).
        destruct H as [->|H]; [contradiction|exact H].
Qed.

(** *** Loops that keep the last value *)

Lemma last_yield_none {A : Type} (f : Section -> option A) (l : list Section) (init : A) :
  Forall (fun s => f s = None) l -> last_yield f l init = init.
Proof.
  intros H. revert init. induction H as [|s l Hs _ IH]; intros init; [reflexivity|].
  cbn [last_yield]. now rewrite Hs, IH.
Qed.

Lemma last_yield_last {A : Type} (f : Section -> option A) (pre post : list Section)
      (s : Section) (x init : A) :
  f s = Some x -> Forall (fun s' => f s' = None) post ->
  last_yield f (pre +++ s :: post) init = x.
Proof.
  intros Hs Hpost. revert init. induction pre as [|p pre IH]; intros init.
  - cbn [app last_yield]. rewrite Hs. now apply last_yield_none.
  - cbn [app last_yield]. apply IH.
Qed.

(** *** Members always carry a declaration *)

Lemma ofor_forall {A B : Type} (P : B -> Prop) (l : list A)
      (body : A -> outcome (list B)) (out : list B) :
  (forall a xs, body a = Ok xs -> Forall P xs) ->
  ofor l body = Ok out -> Forall P out.
Proof.
  intros Hb. revert out. induction l as [|a l IH]; cbn [ofor]; intros out H.
  - injection H as <-. constructor.
  - destruct (body a) as [xs|] eqn:Ea; [|discriminate]. cbn [obind] in H.
    destruct (ofor l body) as [ys|]; [|discriminate]. cbn [obind] in H.
    injection H as <-. apply Forall_app. split; [now apply (Hb a)|now apply IH].
Qed.

Lemma member_section_declared (title role topic section : value) (out : list member) :
  member_section title role topic section = Ok out -> Forall has_declaration out.
Proof.
  unfold member_section.
  destruct (Py.get section "kind" JNull) as [kind|]; [|discriminate]. cbn [obind].
  destruct (Py.eq_str kind "declarations"); [|intros [= <-]; constructor].
  destruct (Py.get section "declarations" (JArr [])) as [ds|]; [|discriminate].
  cbn [obind]. destruct (Py.iter ds) as [[|decl items]|]; try discriminate;
    cbn [obind]; [intros [= <-]; constructor|].
  destruct (format_declaration decl) as [code|]; [|discriminate]. cbn [obind].
  rewrite truthy_jstr. destruct (nonempty code) eqn:E; intros [= <-]; constructor.
  - exact E.
  - constructor.
Qed.

Lemma child_members_declared (topic child_data : value) (out : list member) :
  child_members topic child_data = Ok out -> Forall has_declaration out.
Proof.
  unfold child_members.
  repeat match goal with
         | |- obind ?m _ = Ok _ -> _ =>
             destruct m; [cbn [obind]|discriminate]
         end.
  apply ofor_forall. intros s xs. apply member_section_declared.
Qed.

Lemma section_member_empty (title kind topic : string) (s : Section) :
  section_member title kind topic s = []
  <-> section_declaration s = None \/ section_declaration s = Some "".
Proof.
  unfold section_member. destruct (section_declaration s) as [code|].
  - unfold nonempty. destruct (String.eqb code "") eqn:E; cbn [negb].
    + apply String.eqb_eq in E. subst. intuition.
    + split; [discriminate|]. intros [H|[= ->]]; discriminate.
  - intuition.
Qed.

Lemma concat_nil {A : Type} (ls : list (list A)) :
  concat ls = [] <-> Forall (fun l => l = []) ls.
Proof.
  induction ls as [|l ls IH]; cbn [concat].
  - split; constructor.
  - split.
    + intros H. apply app_eq_nil in H as (-> & H). constructor; [reflexivity|now apply IH].
    + intros H. inversion H as [|? ? -> Hl]; subst. now apply IH.
Qed.

Lemma members_of_child_empty (topic : string) (child : DocumentNode) :
  members_of_child topic child = []
  <-> Forall (fun s => section_declaration s = None \/ section_declaration s = Some "")
             (opt_list (doc_primary child)).
Proof.
  unfold members_of_child. rewrite concat_nil, Forall_map.
  split; apply Forall_impl; intros s; apply section_member_empty.
Qed.

Lemma recorded_members_declared net (d : DocumentNode) :
  Forall has_declaration (recorded_members net d).
Proof.
  unfold recorded_members. apply Forall_concat, Forall_map, Forall_forall. intros t _.
  unfold topic_member_list. apply Forall_concat, Forall_map, Forall_forall.
  intros identifier _. unfold identifier_member_list.
  destruct (Str.startswith _ _); [|constructor].
  destruct (child_url identifier) as [url|]; [|constructor].
  destruct (net url) as [child|]; [|constructor].
  apply (child_members_declared (JStr (opt_string (topic_title t))) (enc_doc child)).
  apply child_members_typed.
Qed.

(** ** Further properties of the script *)

Lemma ofor_app {A B : Type} (a b : list A) (body : A -> outcome (list B)) :
  ofor (a +++ b) body
  = (xs <- ofor a body ;; ys <- ofor b body ;; Ok (xs +++ ys))%O.
Proof.
  induction a as [|x a IH]; cbn [app ofor].
  - destruct (ofor b body); reflexivity.
  - destruct (body x) as [xs|]; [|reflexivity]. cbn [obind]. rewrite IH.
    destruct (ofor a body) as [ys|]; [|reflexivity]. cbn [obind].
    destruct (ofor b body) as [zs|]; [|reflexivity]. cbn [obind].
    now rewrite app_assoc.
Qed.

Lemma strings_app (a b : list value) :
  Py.strings (a +++ b)
  = match Py.strings a, Py.strings b with
    | Some x, Some y => Some (x +++ y)
    | _, _ => None
    end.
Proof.
  induction a as [|v a IH]; cbn [app Py.strings].
  - now destruct (Py.strings b).
  - destruct v; try reflexivity. rewrite IH.
    destruct (Py.strings a), (Py.strings b); reflexivity.
Qed.

Lemma extract_list (l : list value) :
  extract_text_from_content (JArr l)
  = (result <- ofor l (extract_item extract_text_from_content) ;; Py.join "" result)%O.
Proof. now rewrite extract_unfold. Qed.

Lemma join_ok (sep : string) (items : list value) (x : string) :
  Py.join sep items = Ok x -> exists l, Py.strings items = Some l /\ x = Str.join sep l.
Proof.
  unfold Py.join. destruct (Py.strings items) as [l|]; [|discriminate].
  intros [= <-]. now exists l.
Qed.

Lemma extract_list_ok (l : list value) (x : string) :
  extract_text_from_content (JArr l) = Ok x ->
  exists pieces strs,
    ofor l (extract_item extract_text_from_content) = Ok pieces
    /\ Py.strings pieces = Some strs /\ x = Str.join "" strs.
Proof.
  rewrite extract_list.
  destruct (ofor l _) as [pieces|]; [|discriminate]. cbn [obind]. intros H.
  apply join_ok in H as (strs & Hs & ->). now exists pieces, strs.
Qed.

Lemma join_chars (s : string) : Str.join "" (Str.chars s) = s.
Proof.
  induction s as [|a r IH]; [reflexivity|].
  cbn [Str.chars]. rewrite join_empty_cons, IH. reflexivity.
Qed.

Lemma ofor_strings (l : list string) (f : value -> outcome string) :
  ofor (map JStr l) (extract_item f) = Ok (map JStr l).
Proof.
  induction l as [|x l IH]; [reflexivity|]. cbn [map ofor extract_item obind].
  now rewrite IH.
Qed.

Lemma passed_over_item (f : value -> outcome string) (item : value) :
  passed_over item = true -> extract_item f item = Ok [].
Proof.
  destruct item as [| | | |items|fields]; try reflexivity; [discriminate|].
  cbn [passed_over]. rewrite !andb_true_iff, !negb_true_iff.
  intros ((Ht & Hi) & Hc). unfold extract_item. rewrite get_obj. cbn [obind].
  unfold recognised_tag in Ht. rewrite !orb_false_iff in Ht.
  destruct Ht as (((((H1 & H2) & H3) & H4) & H5) & H6).
  now rewrite H1, H2, H3, H4, H5, H6, Hi, Hc.
Qed.

(** *** Strings *)

Lemma prefix_app (p s : string) : String.prefix p (p ++ s) = true.
Proof.
  induction p as [|a p IH]; cbn [append String.prefix]; [now destruct s|].
  destruct (ascii_dec a a); [exact IH|contradiction].
Qed.

Lemma prefix_trans (q p s : string) :
  String.prefix q p = true -> String.prefix p s = true -> String.prefix q s = true.
Proof.
  revert p s. induction q as [|a q IH]; intros p s Hq Hp; [now destruct s|].
  destruct p as [|b p]; [discriminate|]. destruct s as [|c s]; [discriminate|].
  cbn [String.prefix] in *.
  destruct (ascii_dec a b); [|discriminate]. destruct (ascii_dec b c); [|discriminate].
  subst. destruct (ascii_dec c c); [|contradiction]. now apply (IH p s).
Qed.

Lemma replace_skip (old new k rest : string) :
  Str.replace_from old new (String.length k) (k ++ rest)
  = Str.replace_from old new 0 rest.
Proof.
  induction k as [|a k IH]; [reflexivity|].
  cbn [String.length append Str.replace_from]. exact IH.
Qed.

(** An occurrence at the start is replaced and the rest is searched
    further. *)
Lemma replace_prefix (a : ascii) (tl new rest : string) :
  Str.replace (String a tl) new (String a tl ++ rest)
  = new ++ Str.replace (String a tl) new rest.
Proof.
  unfold Str.replace. cbn [append Str.replace_from].
  change (String a (tl ++ rest)) with (String a tl ++ rest).
  rewrite prefix_app.
  replace (String.length (String a tl) - 1)%nat with (String.length tl)
    by (cbn [String.length]; lia).
  now rewrite replace_skip.
Qed.

Lemma lower_char_idempotent (a : ascii) :
  Str.lower_char (Str.lower_char a) = Str.lower_char a.
Proof.
  destruct a as [[] [] [] [] [] [] [] []]; reflexivity.
Qed.

Lemma lower_idempotent (s : string) : Str.lower (Str.lower s) = Str.lower s.
Proof.
  induction s as [|a s IH]; [reflexivity|].
  cbn [Str.lower]. now rewrite lower_char_idempotent, IH.
Qed.

Lemma replace_char (a b : ascii) (s : string) :
  Str.replace (String a "") (String b "") s
  = map_chars (fun c => if Ascii.eqb c a then b else c) s.
Proof.
  unfold Str.replace. induction s as [|c s IH]; [reflexivity|].
  cbn [Str.replace_from String.prefix map_chars String.length Nat.sub].
  destruct (ascii_dec a c) as [->|Hn].
  - rewrite Ascii.eqb_refl. destruct s; cbn [append]; now rewrite IH.
  - assert (E : Ascii.eqb c a = false) by (apply Ascii.eqb_neq; congruence).
    now rewrite E, IH.
Qed.

Lemma map_chars_length f s : String.length (map_chars f s) = String.length s.
Proof. induction s; cbn [map_chars String.length]; congruence. Qed.

Lemma lower_length s : String.length (Str.lower s) = String.length s.
Proof. induction s; cbn [Str.lower String.length]; congruence. Qed.

Lemma replace_char_absent (a b : ascii) (s : string) :
  Ascii.eqb b a = false ->
  Str.contains a (Str.replace (String a "") (String b "") s) = false.
Proof.
  intros Hb. rewrite replace_char. induction s as [|c s IH]; [reflexivity|].
  cbn [map_chars Str.contains]. rewrite IH, orb_false_r.
  destruct (Ascii.eqb c a) eqn:E; [exact Hb|exact E].
Qed.

Lemma replace_absent (old new s : string) :
  Text.has_substring old s = false -> Str.replace old new s = s.
Proof.
  unfold Str.replace. induction s as [|a r IH]; [reflexivity|].
  cbn [Text.has_substring Str.replace_from]. intros H.
  apply orb_false_iff in H as (Hp & Hr). rewrite Hp. now rewrite (IH Hr).
Qed.

Lemma declaration_text_app (a b : list Token) (la lb lab : option (list string)) :
  declaration_text {| decl_tokens := Some (a +++ b); decl_languages := lab |}
  = declaration_text {| decl_tokens := Some a; decl_languages := la |}
    ++ declaration_text {| decl_tokens := Some b; decl_languages := lb |}.
Proof.
  unfold declaration_text. cbn [decl_tokens opt_list]. now rewrite map_app, join_empty_app.
Qed.

(** *** Requests *)

Lemma run_bind_lift {A B : Type} net (o : outcome A) (f : A -> prog B) :
  run net (pbind (lift o) f)
  = match o with
    | Ok a => run net (f a)
    | Raise e => (Raise e, [])
    end.
Proof. now destruct o. Qed.

Lemma run_bind {A B : Type} net (m : prog A) (f : A -> prog B) :
  run net (pbind m f)
  = match fst (run net m) with
    | Ok a => (fst (run net (f a)), snd (run net m) +++ snd (run net (f a)))
    | Raise e => (Raise e, snd (run net m))
    end.
Proof.
  induction m as [a|e|url k IH]; cbn [pbind run fst snd app].
  - now destruct (run net (f a)).
  - reflexivity.
  - rewrite IH. now destruct (fst (run net (k (Ok (net url))))).
Qed.

Lemma requests_bind {A B : Type} net (m : prog A) (f : A -> prog B) :
  requests net (pbind m f)
  = requests net m
    +++ match result net m with
        | Ok a => requests net (f a)
        | Raise _ => []
        end.
Proof.
  unfold requests, result. rewrite run_bind.
  destruct (fst (run net m)); cbn [snd]; [reflexivity|now rewrite app_nil_r].
Qed.

Lemma requests_lift {A : Type} net (o : outcome A) : requests net (lift o) = [].
Proof. now destruct o. Qed.

Lemma requests_pfor_map {A B C : Type} net (enc : A -> B) (l : list A)
      (body : B -> prog (list C)) (out : A -> list C) (req : A -> list string) :
  Forall (fun a => result net (body (enc a)) = Ok (out a)
                   /\ requests net (body (enc a)) = req a) l ->
  requests net (pfor (map enc l) body) = concat (map req l).
Proof.
  induction 1 as [|a l (Ha & Hr) Hl IH]; [reflexivity|].
  cbn [pfor map concat]. rewrite requests_bind, Ha, Hr. f_equal.
  rewrite requests_bind, IH.
  assert (Hres : result net (pfor (map enc l) body) = Ok (concat (map out l))).
  { apply result_pfor_map. revert Hl. apply Forall_impl. now intros ? (? & _). }
  rewrite Hres. cbn [requests run snd]. apply app_nil_r.
Qed.

Lemma requests_fetch_child_doc net identifier :
  requests net (fetch_child_doc identifier)
  = match child_url identifier with
    | Some url => [url]
    | None => []
    end.
Proof.
  unfold fetch_child_doc, child_url.
  destruct (identifier_to_path identifier) as [path|]; [|reflexivity].
  rewrite truthy_jstr. destruct (nonempty path); reflexivity.
Qed.





Lemma doc_get_metadata (d : DocumentNode) :
  Py.get (enc_doc d) "metadata" (JObj [])
  = Ok (or_default (option_map enc_metadata (doc_metadata d)) (JObj [])).
Proof. unfold enc_doc. now lookup_fields. Qed.

Lemma doc_get_primary (d : DocumentNode) :
  Py.get (enc_doc d) "primaryContentSections" (JArr [])
  = Ok (JArr (map enc_section (opt_list (doc_primary d)))).
Proof. unfold enc_doc. lookup_fields. now rewrite or_default_jlist. Qed.

Lemma doc_get_topics (d : DocumentNode) :
  Py.get (enc_doc d) "topicSections" (JArr [])
  = Ok (JArr (map enc_topic (opt_list (doc_topics d)))).
Proof. unfold enc_doc. lookup_fields. now rewrite or_default_jlist. Qed.



Lemma prefix_split (p s : string) :
  String.prefix p s = true -> exists rest, s = p ++ rest.
Proof.
  revert s. induction p as [|a p IH]; intros s H; [now exists s|].
  destruct s as [|b s]; [discriminate|]. cbn [String.prefix] in H.
  destruct (ascii_dec a b) as [->|]; [|discriminate].
  destruct (IH s H) as (rest & ->). now exists rest.
Qed.

Lemma replace_doc_prefix (rest : string) :
  Str.replace doc_prefix "" (doc_prefix ++ rest) = Str.replace doc_prefix "" rest.
Proof.
  exact (replace_prefix "d"%char "oc://com.apple.screencapturekit/documentation/" "" rest).
Qed.


Lemma child_url_own_namespace (identifier url : string) :
  child_url identifier = Some url -> Str.startswith own_namespace identifier = true.
Proof.
  unfold child_url, identifier_to_path, Str.startswith.
  destruct (String.prefix doc_prefix identifier) eqn:Hp; cbn [negb]; [|discriminate].
  intros _. apply (prefix_trans own_namespace doc_prefix identifier); [reflexivity|exact Hp].
Qed.

(** *** The [try] blocks *)

Lemma run_catch {A : Type} net (m : prog A) (handler : exn -> prog A) :
  run net (catch m handler)
  = match fst (run net m) with
    | Ok a => (Ok a, snd (run net m))
    | Raise e => (fst (run net (handler e)), snd (run net m) +++ snd (run net (handler e)))
    end.
Proof.
  induction m as [a|e|url k IH]; cbn [catch run fst snd app].
  - reflexivity.
  - now destruct (run net (handler e)).
  - rewrite IH. now destruct (fst (run net (k (Ok (net url))))).
Qed.

Lemma result_catch_any {A : Type} net (m : prog A) (handler : exn -> prog A) :
  result net (catch m handler)
  = match result net m with
    | Ok a => Ok a
    | Raise e => result net (handler e)
    end.
Proof. unfold result. rewrite run_catch. now destruct (fst (run net m)). Qed.

Lemma requests_catch_ret {A : Type} net (m : prog A) (a : A) :
  requests net (catch m (fun _ => Ret a)) = requests net m.
Proof.
  unfold requests. rewrite run_catch.
  destruct (fst (run net m)); cbn [snd run]; [reflexivity|apply app_nil_r].
Qed.

Lemma process_file_result net (api : dict class_info) (file : string * value) :
  result net (process_file api file)
  = Ok (match result net (file_entry (fst file) (snd file)) with
        | Ok (Some (title, info)) =>
            if Py.hashable title then dict_put api title info else api
        | _ => api
        end).
Proof.
  unfold process_file. rewrite result_catch_any, result_bind.
  destruct (result net (file_entry (fst file) (snd file))) as [[[title info]|]|e];
    try reflexivity.
  rewrite result_lift. unfold dict_set. now destruct (Py.hashable title).
Qed.

(** *** [sorted] on keys that are not all strings *)

Lemma strings_not_all (l : list value) :
  existsb (fun k => negb (is_string k)) l = true -> Py.strings l = None.
Proof.
  induction l as [|k l IH]; cbn [existsb Py.strings]; [discriminate|].
  destruct k; cbn [is_string negb orb]; try reflexivity.
  intros H. now rewrite (IH H).
Qed.

Lemma insert_not_nil {A : Type} (leb : A -> A -> bool) (x : A) (l : list A) :
  insert leb x l <> [].
Proof. destruct l as [|y l]; cbn [insert]; [discriminate|]. now destruct (leb x y). Qed.

Lemma render_api_non_string_key (api : dict class_info) :
  existsb (fun k => negb (is_string k)) (dict_keys api) = true ->
  render_api api = Raise AttributeError \/ render_api api = Raise TypeError.
Proof.
  intros H. unfold render_api, sorted. rewrite (strings_not_all _ H).
  destruct (all_ints (dict_keys api)) eqn:Ei.
  - left. destruct (sort int_leb (dict_keys api)) as [|k0 rest] eqn:Es.
    + exfalso. destruct (dict_keys api) as [|k l]; [discriminate|].
      cbn [sort] in Es. now apply insert_not_nil in Es.
    + assert (Hk : In k0 (dict_keys api)) by (apply (sort_in int_leb); rewrite Es; now left).
      unfold all_ints in Ei. rewrite forallb_forall in Ei. specialize (Ei k0 Hk).
      cbn [obind ofor]. destruct k0; try discriminate; reflexivity.
  - destruct (dict_keys api) as [|k [|k' l]] eqn:Ek.
    + discriminate.
    + left. cbn [existsb orb] in H. rewrite orb_false_r in H.
      cbn [obind ofor]. destruct k; try discriminate; reflexivity.
    + now right.
Qed.

(** *** The requests of the aggregator *)

Lemma requests_identifier_members net (topic identifier : string) :
  requests (enc_net net) (identifier_members (JStr topic) (JStr identifier))
  = expansion_requests identifier.
Proof.
  unfold identifier_members, expansion_requests.
  rewrite requests_bind, requests_lift, result_lift. rewrite app_nil_l.
  cbn [Py.startswith].
  destruct (Str.startswith own_namespace identifier); cbn [negb]; [|reflexivity].
  rewrite requests_bind, requests_fetch_child_doc, result_fetch_child_doc.
  assert (H : forall v, requests (enc_net net)
                (if negb (Py.truthy v) then Ret []
                 else lift (child_members (JStr topic) v)) = []).
  { intros v. destruct (Py.truthy v); cbn [negb]; [apply requests_lift|reflexivity]. }
  rewrite H. apply app_nil_r.
Qed.

Lemma requests_topic_members net (t : TopicGroup) :
  requests (enc_net net) (topic_members (enc_topic t))
  = concat (map expansion_requests (opt_list (topic_identifiers t))).
Proof.
  unfold topic_members, enc_topic.
  rewrite requests_bind, requests_lift, result_lift. typed_fields. rewrite app_nil_l.
  rewrite requests_bind, requests_lift, result_lift. typed_fields. rewrite app_nil_l.
  rewrite requests_bind, requests_lift, result_lift. rewrite app_nil_l.
  apply (requests_pfor_map _ JStr _ _
           (identifier_member_list net (opt_string (topic_title t)))).
  apply Forall_forall. intros identifier _. split.
  - apply identifier_members_typed.
  - apply requests_identifier_members.
Qed.

Lemma requests_file_entry net (stem : string) (d : DocumentNode) :
  requests (enc_net net) (file_entry stem (enc_doc d))
  = if role_accepted d then doc_expansion_requests d else [].
Proof.
  unfold file_entry, role_accepted, doc_role.
  destruct (metadata_fields_typed (doc_metadata d)) as (mf & Hm & Ht & Hr & _).
  rewrite requests_bind, requests_lift, result_lift, doc_get_metadata, Hm, app_nil_l.
  rewrite requests_bind, requests_lift, result_lift, get_obj, Ht, app_nil_l.
  rewrite requests_bind, requests_lift, result_lift, get_obj, Hr, app_nil_l.
  rewrite or_default_opt_string. unfold accepted_role. cbn [Py.eq_str].
  assert (Hrole : opt_string (match doc_metadata d with
                              | Some m => meta_role m | None => None end)
                  = match doc_metadata d with
                    | Some m => opt_string (meta_role m) | None => "" end)
    by (now destruct (doc_metadata d)).
  rewrite Hrole.
  destruct (_ || _); cbn [negb]; [|reflexivity].
  rewrite requests_bind, requests_lift, result_lift, doc_get_primary, app_nil_l.
  rewrite requests_bind, requests_lift, result_lift. cbn [Py.iter]. rewrite app_nil_l.
  rewrite requests_bind, requests_lift, result_lift, class_decl_sections_typed, app_nil_l.
  rewrite requests_bind, requests_lift, result_lift, doc_get_topics, app_nil_l.
  rewrite requests_bind, requests_lift, result_lift. cbn [Py.iter]. rewrite app_nil_l.
  rewrite requests_bind.
  rewrite (requests_pfor_map _ enc_topic _ _ (topic_member_list net)
             (fun t => concat (map expansion_requests (opt_list (topic_identifiers t))))).
  - rewrite (result_pfor_map _ enc_topic _ _ (topic_member_list net))
      by (apply Forall_forall; intros t _; apply topic_members_typed).
    unfold doc_expansion_requests.
    match goal with
    | |- _ +++ requests _ (if ?b then _ else _) = _ => destruct b
    end; cbn [requests run snd]; apply app_nil_r.
  - apply Forall_forall. intros t _. split.
    + apply topic_members_typed.
    + apply requests_topic_members.
Qed.

Lemma requests_process_file net (api : dict class_info) (file : string * DocumentNode) :
  requests (enc_net net) (process_file api (enc_file file))
  = if role_accepted (snd file) then doc_expansion_requests (snd file) else [].
Proof.
  unfold process_file. rewrite requests_catch_ret.
  unfold enc_file. cbn [fst snd].
  rewrite requests_bind, requests_file_entry, file_entry_typed.
  destruct (doc_entry net (fst file) (snd file)) as [[title info]|].
  - rewrite requests_lift. apply app_nil_r.
  - apply app_nil_r.
Qed.

Lemma requests_aggregate net (corpus : list (string * DocumentNode))
      (api : dict class_info) :
  requests (enc_net net) (aggregate api (map enc_file corpus))
  = concat (map (fun file => if role_accepted (snd file)
                             then doc_expansion_requests (snd file) else [])
                corpus).
Proof.
  revert api. induction corpus as [|file rest IH]; intros api; [reflexivity|].
  cbn [map aggregate concat].
  rewrite requests_bind, requests_process_file, process_file_typed. f_equal. apply IH.
Qed.

(** *** Dictionaries with string keys *)

Lemma dict_find_put {V : Type} (d : dict V) (a b : string) (v : V) :
  dict_find (dict_put d (JStr a) v) (JStr b)
  = if String.eqb a b then Some v else dict_find d (JStr b).
Proof.
  induction d as [|[k v'] d IH]; cbn [dict_put dict_find].
  - cbn [Py.key_eqb]. reflexivity.
  - destruct (Py.key_eqb k (JStr a)) eqn:E.
    + apply key_eqb_jstr in E. subst k. cbn [dict_find Py.key_eqb].
      destruct (String.eqb a b); reflexivity.
    + cbn [dict_find]. rewrite IH.
      destruct (Py.key_eqb k (JStr b)) eqn:E'; [|reflexivity].
      apply key_eqb_jstr in E'. subst k.
      destruct (String.eqb a b) eqn:Eab; [|reflexivity].
      apply String.eqb_eq in Eab. subst b. cbn in E. now rewrite String.eqb_refl in E.
Qed.

Lemma key_names_put_order {V : Type} (d : dict V) (name : string) (v : V) :
  key_names (dict_put d (JStr name) v)
  = if existsb (String.eqb name) (key_names d) then key_names d
    else key_names d +++ [name].
Proof.
  induction d as [|[k v'] d IH]; cbn [dict_put key_names existsb]; [reflexivity|].
  destruct (Py.key_eqb k (JStr name)) eqn:E.
  - apply key_eqb_jstr in E. subst k. cbn [key_names existsb].
    now rewrite String.eqb_refl.
  - destruct k; cbn [key_names existsb]; try exact IH.
    cbn in E. rewrite String.eqb_sym, E. cbn [orb]. rewrite IH.
    now destruct (existsb _ _).
Qed.

Lemma aggregated_app net (a b : list (string * DocumentNode)) (api : dict class_info) :
  aggregated net api (a +++ b) = aggregated net (aggregated net api a) b.
Proof.
  revert api. induction a as [|[stem d] a IH]; intros api; [reflexivity|].
  cbn [app aggregated]. apply IH.
Qed.

Lemma aggregated_find_other net (corpus : list (string * DocumentNode))
      (api : dict class_info) (name : string) :
  Forall (fun file => contributes net (fst file) (snd file) = true ->
                      entry_title (fst file) (snd file) <> name) corpus ->
  dict_find (aggregated net api corpus) (JStr name) = dict_find api (JStr name).
Proof.
  intros H. revert api. induction H as [|[stem d] rest Hd _ IH]; intros api; [reflexivity|].
  cbn [aggregated]. rewrite IH, doc_entry_contributes. cbn [fst snd] in Hd.
  destruct (contributes net stem d); [|reflexivity].
  rewrite dict_find_put.
  destruct (String.eqb (entry_title stem d) name) eqn:E; [|reflexivity].
  apply String.eqb_eq in E. now destruct (Hd eq_refl).
Qed.

(** *** Grouping by topic *)

Lemma grouped_find (members : list member) (groups : dict (list member)) (topic : string) :
  Forall string_topic members ->
  dict_find (grouped groups members) (JStr topic)
  = joined (dict_find groups (JStr topic)) (filter (has_topic topic) members).
Proof.
  intros H. revert groups. induction H as [|m rest (s & Hm) _ IH]; intros groups.
  - cbn [grouped filter]. destruct (dict_find groups (JStr topic)); cbn [joined];
      [|reflexivity].
    now rewrite app_nil_r.
  - cbn [grouped filter]. rewrite IH. unfold has_topic at 2. rewrite Hm.
    rewrite dict_find_put. cbn [Py.key_eqb].
    destruct (String.eqb s topic) eqn:E.
    + apply String.eqb_eq in E. subst s.
      destruct (dict_find groups (JStr topic)) as [old|]; cbn [joined].
      * now rewrite <- app_assoc.
      * reflexivity.
    + reflexivity.
Qed.

Lemma grouped_keys (members : list member) (groups : dict (list member)) :
  Forall string_topic members ->
  key_names (grouped groups members)
  = key_names groups +++ first_occurrences (key_names groups) (map topic_name members).
Proof.
  intros H. revert groups. induction H as [|m rest (s & Hm) _ IH]; intros groups.
  - cbn [grouped map first_occurrences]. now rewrite app_nil_r.
  - assert (Hn : topic_name m = s) by (unfold topic_name; now rewrite Hm).
    cbn [grouped map first_occurrences]. rewrite IH, Hn, Hm.
    rewrite key_names_put_order.
    destruct (existsb (String.eqb s) (key_names groups)); [reflexivity|].
    now rewrite <- app_assoc.
Qed.

Lemma put_string_keys {V : Type} (d : dict V) (name : string) (v : V) :
  Forall (fun kv => is_string (fst kv) = true) d ->
  Forall (fun kv => is_string (fst kv) = true) (dict_put d (JStr name) v).
Proof.
  induction 1 as [|[k v'] d Hk Hd IH]; cbn [dict_put].
  - repeat constructor.
  - destruct (Py.key_eqb k (JStr name)); constructor;
      first [exact Hk | exact Hd | exact IH].
Qed.

Lemma grouped_well_keyed (members : list member) (groups : dict (list member)) :
  Forall string_topic members ->
  Forall (fun kv => is_string (fst kv) = true) groups ->
  Forall (fun kv => is_string (fst kv) = true) (grouped groups members).
Proof.
  intros H. revert groups. induction H as [|m rest (s & Hm) _ IH]; intros groups Hg;
    [exact Hg|].
  cbn [grouped]. apply IH. rewrite Hm. now apply put_string_keys.
Qed.

(** *** [extract_declarations_from_json] *)

Lemma concat_concat_map {A B : Type} (f : A -> list B) (ls : list (list A)) :
  concat (map f (concat ls)) = concat (map (fun l => concat (map f l)) ls).
Proof.
  induction ls as [|l ls IH]; [reflexivity|].
  cbn [concat map]. now rewrite map_app, concat_app, IH.
Qed.

Lemma extract_declarations_typed (d : DocumentNode) :
  extract_declarations_from_json (enc_doc d) = Ok (declaration_entries_of d).
Proof.
  unfold extract_declarations_from_json, declaration_entries_of, all_declarations.
  destruct (metadata_fields_typed (doc_metadata d)) as (mf & Hm & Ht & Hr & _).
  rewrite doc_get_metadata, Hm. cbn [obind]. rewrite get_obj, Ht. cbn [obind].
  rewrite doc_get_primary. cbn [obind Py.iter]. rewrite concat_concat_map, map_map.
  apply ofor_map, Forall_forall. intros s _.
  unfold section_entries, is_kind, enc_section. typed_fields.
  rewrite eq_str_kind by reflexivity.
  destruct (String.eqb (opt_string (sec_kind s)) "declarations"); [|reflexivity].
  apply ofor_map, Forall_forall. intros decl _.
  unfold declaration_entries, entry_of. rewrite format_declaration_typed. cbn [obind].
  rewrite truthy_jstr. destruct (nonempty (declaration_text decl)); [|reflexivity].
  rewrite get_obj, Hr. cbn [obind]. rewrite or_default_jstr.
  unfold declared_kind, doc_title, opt_string.
  now destruct (doc_metadata d) as [m|]; [destruct (meta_role m), (meta_title m)|].
Qed.

Lemma last_yield_some {A : Type} (f : Section -> option A) (l : list Section)
      (init : option A) (x : A) :
  last_yield (fun s => option_map Some (f s)) l init = Some x ->
  init = Some x \/ exists s, In s l /\ f s = Some x.
Proof.
  revert init. induction l as [|s l IH]; intros init; cbn [last_yield]; [now left|].
  intros H. apply IH in H as [H|(s' & Hin & Hs)].
  - destruct (f s) as [y|] eqn:E; cbn [option_map] in H.
    + injection H as <-. right. exists s. split; [now left|exact E].
    + now left.
  - right. exists s'. split; [now right|exact Hs].
Qed.

Lemma class_declaration_in_all (d : DocumentNode) (code : string) :
  class_declaration d = Some code ->
  exists decl, In decl (all_declarations d) /\ declaration_text decl = code.
Proof.
  unfold class_declaration. intros H.
  apply last_yield_some in H as [H|(s & Hin & Hs)]; [discriminate|].
  unfold section_declaration in Hs.
  destruct (is_kind "declarations" s) eqn:Ek; [|discriminate].
  destruct (opt_list (sec_declarations s)) as [|decl ds] eqn:Ed; [discriminate|].
  injection Hs as <-. exists decl. split; [|reflexivity].
  unfold all_declarations. apply in_concat.
  exists (opt_list (sec_declarations s)). split.
  - apply in_map_iff. exists s. rewrite Ek. now split.
  - rewrite Ed. now left.
Qed.

(** *** [convert_to_markdown] and [download_docs] *)

Lemma run_web_returning {A : Type} (net : string -> value) (m : prog A) :
  run_web (fun url => Ok (net url)) m = run net m.
Proof.
  induction m as [a|e|url k IH]; cbn [run_web run]; try reflexivity. now rewrite IH.
Qed.

Lemma run_web_bind {A B : Type} web (m : prog A) (f : A -> prog B) :
  run_web web (pbind m f)
  = match fst (run_web web m) with
    | Ok a => (fst (run_web web (f a)), snd (run_web web m) +++ snd (run_web web (f a)))
    | Raise e => (Raise e, snd (run_web web m))
    end.
Proof.
  induction m as [a|e|url k IH]; cbn [pbind run_web fst snd app].
  - now destruct (run_web web (f a)).
  - reflexivity.
  - rewrite IH. now destruct (fst (run_web web (k (web url)))).
Qed.

Lemma run_web_lift {A : Type} web (o : outcome A) : run_web web (lift o) = (o, []).
Proof. now destruct o. Qed.

Lemma run_web_fetch_json web (url : string) :
  run_web web (fetch_json url) = (web url, [url]).
Proof. unfold fetch_json. cbn [run_web]. now rewrite run_web_lift. Qed.

Lemma run_web_catch {A : Type} web (m : prog A) (handler : exn -> prog A) :
  run_web web (catch m handler)
  = match fst (run_web web m) with
    | Ok a => (Ok a, snd (run_web web m))
    | Raise e => (fst (run_web web (handler e)),
                  snd (run_web web m) +++ snd (run_web web (handler e)))
    end.
Proof.
  induction m as [a|e|url k IH]; cbn [catch run_web fst snd app].
  - reflexivity.
  - now destruct (run_web web (handler e)).
  - rewrite IH. now destruct (fst (run_web web (k (web url)))).
Qed.

Lemma run_web_convert_file web (fs : disk) (include_children : bool)
      (file : string * value) (st : list (string * string) * nat) :
  run_web web (convert_file fs include_children st file)
  = (Ok (fst st +++ converted web fs include_children [file],
         (snd st + List.length (converted web fs include_children [file]))%nat),
     snd (run_web web (json_to_markdown (snd file) (fst file)
                         (should_expand include_children (fst file))))).
Proof.
  unfold convert_file, converted, result_web. cbn [map concat].
  rewrite run_web_catch, run_web_bind.
  destruct (run_web web (json_to_markdown (snd file) (fst file)
                           (should_expand include_children (fst file))))
    as [[md|e] reqs]; cbn [fst snd run_web].
  - rewrite run_web_bind, run_web_lift.
    destruct (write_text fs (fst file ++ ".md") md) as [[]|e];
      cbn [fst snd run_web app List.length].
    + rewrite !app_nil_r. do 3 f_equal. lia.
    + rewrite !app_nil_r, Nat.add_0_r. now destruct st.
  - rewrite !app_nil_r, Nat.add_0_r. now destruct st.
Qed.

Lemma converted_cons web (fs : disk) (include_children : bool) (file : string * value)
      (rest : list (string * value)) :
  converted web fs include_children (file :: rest)
  = converted web fs include_children [file] +++ converted web fs include_children rest.
Proof. unfold converted. cbn [map concat]. now rewrite app_nil_r. Qed.

Lemma run_web_convert_files web (fs : disk) (include_children : bool)
      (files : list (string * value)) (st : list (string * string) * nat) :
  run_web web (pfold files st (convert_file fs include_children))
  = (Ok (fst st +++ converted web fs include_children files,
         (snd st + List.length (converted web fs include_children files))%nat),
     concat (map (fun file =>
                    snd (run_web web (json_to_markdown (snd file) (fst file)
                                        (should_expand include_children (fst file)))))
                 files)).
Proof.
  revert st. induction files as [|file rest IH]; intros st.
  - cbn [pfold run_web fst snd]. unfold converted. cbn [map concat List.length].
    rewrite app_nil_r, Nat.add_0_r. now destruct st.
  - cbn [pfold]. rewrite run_web_bind, run_web_convert_file. cbn [fst snd]. rewrite IH.
    cbn [fst snd map concat]. rewrite (converted_cons web fs include_children file rest).
    rewrite length_app, <- app_assoc. do 3 f_equal. lia.
Qed.

Lemma run_web_convert_to_markdown web (fs : disk) (include_children : bool)
      (files : list (string * value)) :
  run_web web (convert_to_markdown fs include_children files)
  = match make_dir fs with
    | Ok _ =>
        (Ok (converted web fs include_children files,
             List.length (converted web fs include_children files)),
         concat (map (fun file =>
                        snd (run_web web (json_to_markdown (snd file) (fst file)
                                            (should_expand include_children (fst file)))))
                     files))
    | Raise e => (Raise e, [])
    end.
Proof.
  unfold convert_to_markdown. rewrite run_web_bind, run_web_lift.
  destruct (make_dir fs) as [[]|e]; cbn [fst snd app]; [|reflexivity].
  now rewrite run_web_convert_files.
Qed.

Lemma requests_convert_to_markdown net (fs : disk) (include_children : bool)
      (files : list (string * value)) :
  requests net (convert_to_markdown fs include_children files)
  = match make_dir fs with
    | Ok _ =>
        concat (map (fun file =>
                       requests net (json_to_markdown (snd file) (fst file)
                                       (should_expand include_children (fst file))))
                    files)
    | Raise _ => []
    end.
Proof.
  unfold requests. rewrite <- run_web_returning, run_web_convert_to_markdown.
  destruct (make_dir fs); [|reflexivity]. cbn [snd]. f_equal.
  apply map_ext. intros file. now rewrite run_web_returning.
Qed.

(** One path that goes well. *)
Lemma run_web_download_doc web (fs : disk) net (st : list (string * value) * nat)
      (doc_path : string) :
  goes_well web fs net doc_path ->
  run_web web (download_doc fs st doc_path)
  = (Ok (fst st +++ saved net [doc_path],
         (snd st + List.length (saved net [doc_path]))%nat),
     [doc_url doc_path]).
Proof.
  intros (Hw & Hs). unfold download_doc. fold (doc_url doc_path).
  rewrite run_web_bind, run_web_fetch_json, Hw. cbn [fst snd]. unfold saved.
  cbn [map concat]. destruct (Py.truthy (net (doc_url doc_path))).
  - rewrite run_web_bind, run_web_lift, (Hs eq_refl). cbn [fst snd run_web app List.length].
    do 3 f_equal. lia.
  - cbn [run_web app List.length fst snd]. rewrite app_nil_r, Nat.add_0_r. now destruct st.
Qed.

Lemma saved_app net (a b : list string) : saved net (a +++ b) = saved net a +++ saved net b.
Proof. unfold saved. now rewrite map_app, concat_app. Qed.

Lemma run_web_download_loop web (fs : disk) net (paths : list string)
      (st : list (string * value) * nat) :
  Forall (goes_well web fs net) paths ->
  run_web web (pfold paths st (download_doc fs))
  = (Ok (fst st +++ saved net paths, (snd st + List.length (saved net paths))%nat),
     map doc_url paths).
Proof.
  intros H. revert st. induction H as [|p rest Hp _ IH]; intros st.
  - cbn [pfold run_web map]. unfold saved. cbn [map concat List.length].
    rewrite app_nil_r, Nat.add_0_r. now destruct st.
  - cbn [pfold]. rewrite run_web_bind, (run_web_download_doc _ _ _ _ _ Hp).
    cbn [fst snd]. rewrite IH. cbn [fst snd map app].
    change (p :: rest) with ([p] +++ rest). rewrite saved_app, length_app, <- app_assoc.
    do 3 f_equal. lia.
Qed.

(** The loop stops at the first path on which an exception is raised. *)
Lemma run_web_download_abort web (fs : disk) net (before after : list string)
      (p : string) (e : exn) (st : list (string * value) * nat) :
  Forall (goes_well web fs net) before ->
  (forall st', run_web web (download_doc fs st' p) = (Raise e, [doc_url p])) ->
  run_web web (pfold (before +++ p :: after) st (download_doc fs))
  = (Raise e, map doc_url (before +++ [p])).
Proof.
  intros H Hp. revert st. induction H as [|q rest Hq _ IH]; intros st.
  - cbn [app pfold map]. rewrite run_web_bind, Hp. reflexivity.
  - cbn [app pfold map]. rewrite run_web_bind, (run_web_download_doc _ _ _ _ _ Hq).
    cbn [fst snd]. rewrite IH. reflexivity.
Qed.

Lemma contains_has_substring (a : ascii) (s : string) :
  Text.has_substring (String a "") s = Str.contains a s.
Proof.
  induction s as [|c s IH]; [reflexivity|].
  cbn [Text.has_substring Str.contains String.prefix]. rewrite IH.
  destruct (ascii_dec a c) as [->|Hn].
  - rewrite Ascii.eqb_refl. now destruct s.
  - assert (E : Ascii.eqb c a = false) by (apply Ascii.eqb_neq; congruence).
    now rewrite E.
Qed.

Lemma has_substring_char (a : ascii) (tl s : string) :
  Str.contains a s = false -> Text.has_substring (String a tl) s = false.
Proof.
  induction s as [|c s IH]; [reflexivity|].
  cbn [Text.has_substring Str.contains String.prefix]. intros H.
  apply orb_false_iff in H as (Hc & Hs). rewrite (IH Hs), orb_false_r.
  destruct (ascii_dec a c) as [->|Hn]; [|reflexivity].
  now rewrite Ascii.eqb_refl in Hc.
Qed.

Lemma map_chars_id (f : ascii -> ascii) (s : string) :
  (forall c, Str.contains c s = true -> f c = c) -> map_chars f s = s.
Proof.
  induction s as [|a s IH]; [reflexivity|]. intros H. cbn [map_chars]. f_equal.
  - apply H. cbn [Str.contains]. now rewrite Ascii.eqb_refl.
  - apply IH. intros c Hc. apply H. cbn [Str.contains]. rewrite Hc. apply orb_true_r.
Qed.

Lemma map_chars_app (f : ascii -> ascii) (a b : string) :
  map_chars f (a ++ b) = map_chars f a ++ map_chars f b.
Proof. induction a as [|c a IH]; [reflexivity|]. cbn [append map_chars]. now rewrite IH. Qed.

Lemma json_stem_no_slash (doc_path : string) :
  Str.contains "/" doc_path = false -> json_stem doc_path = doc_path.
Proof.
  intros H. unfold json_stem.
  rewrite (replace_char "/"%char "_"%char). apply map_chars_id. intros c Hc.
  destruct (Ascii.eqb c "/") eqn:E; [|reflexivity].
  apply Ascii.eqb_eq in E. subst c. congruence.
Qed.

Lemma json_stem_app (a b : string) : json_stem (a ++ b) = json_stem a ++ json_stem b.
Proof.
  unfold json_stem. rewrite !(replace_char "/"%char "_"%char). apply map_chars_app.
Qed.

Lemma contains_app (c : ascii) (a b : string) :
  Str.contains c (a ++ b) = Str.contains c a || Str.contains c b.
Proof.
  induction a as [|x a IH]; [reflexivity|].
  cbn [append Str.contains]. now rewrite IH, orb_assoc.
Qed.

Lemma has_substring_contains (needle s : string) (c : ascii) :
  Text.has_substring needle s = true -> Str.contains c needle = true ->
  Str.contains c s = true.
Proof.
  intros H Hc.
  assert (Hp : forall t, String.prefix needle t = true -> Str.contains c t = true).
  { intros t Ht. destruct (prefix_split needle t Ht) as (rest & ->).
    now rewrite contains_app, Hc. }
  induction s as [|a s IH].
  - cbn [Text.has_substring] in H. rewrite orb_false_r in H. now apply Hp.
  - cbn [Text.has_substring] in H. apply orb_true_iff in H as [H|H]; [now apply Hp|].
    cbn [Str.contains]. rewrite (IH H). apply orb_true_r.
Qed.



Lemma length_saved net (paths : list string) :
  (List.length (saved net paths) <= List.length paths)%nat.
Proof.
  unfold saved. induction paths as [|p rest IH]; [apply Nat.le_refl|].
  cbn [map concat]. rewrite length_app.
  destruct (Py.truthy (net (doc_url p))); cbn [List.length]; lia.
Qed.

Lemma should_expand_plain (include_children : bool) (name : string) :
  plain_name name = true ->
  should_expand include_children ("screencapturekit_" ++ name) = include_children.
Proof.
  unfold plain_name. intros H. apply andb_true_iff in H as (_ & Hu).
  apply negb_true_iff in Hu. unfold should_expand.
  rewrite (replace_prefix "s"%char "creencapturekit_" "" name).
  assert (Ha : Text.has_substring "screencapturekit_" name = false).
  { destruct (Text.has_substring "screencapturekit_" name) eqn:E; [|reflexivity].
    rewrite (has_substring_contains _ _ "_"%char E) in Hu by reflexivity. discriminate. }
  rewrite (replace_absent _ _ _ Ha). cbn [append].
  rewrite (contains_has_substring "_"%char), Hu. apply andb_true_r.
Qed.

(** *** Transcripts *)

Lemma Forall_removelast {A : Type} (P : A -> Prop) (l : list A) :
  Forall P l -> Forall P (removelast l).
Proof.
  induction 1 as [|x l Hx Hl IH]; [constructor|].
  cbn [removelast]. destruct l; [constructor|]. now constructor.
Qed.

Lemma paragraph_lines_paragraphs (sentences paragraph : list string) :
  paragraph_lines sentences paragraph = paragraphs_text (paragraphs sentences paragraph).
Proof.
  revert paragraph. induction sentences as [|s rest IH]; intros paragraph.
  - now destruct paragraph.
  - cbn [paragraph_lines paragraphs]. unfold closes_paragraph. fold (has_keyword s).
    destruct ((4 <=? List.length (paragraph +++ [s]))%nat || has_keyword s).
    + unfold paragraphs_text. cbn [map concat]. f_equal. f_equal. apply IH.
    + apply IH.
Qed.

Lemma paragraphs_cut (sentences paragraph : list string) :
  (List.length paragraph < 4)%nat ->
  Forall (fun s => has_keyword s = false) paragraph ->
  concat (paragraphs sentences paragraph) = paragraph +++ sentences
  /\ Forall well_cut (paragraphs sentences paragraph)
  /\ Forall closed (removelast (paragraphs sentences paragraph)).
Proof.
  revert paragraph. induction sentences as [|s rest IH]; intros paragraph Hlen Hkw.
  - destruct paragraph as [|x p].
    + repeat split; constructor.
    + cbn [paragraphs concat removelast]. rewrite !app_nil_r. repeat split.
      * constructor; [|constructor]. split; [cbn [List.length] in *; lia|].
        now apply Forall_removelast.
      * constructor.
  - cbn [paragraphs].
    destruct ((4 <=? List.length (paragraph +++ [s]))%nat || has_keyword s) eqn:E.
    + destruct (IH [] ltac:(cbn; lia) ltac:(constructor)) as (Hc & Hw & Hcl).
      cbn [concat]. rewrite Hc. cbn [app]. rewrite <- app_assoc. repeat split.
      * constructor; [|exact Hw]. split.
        -- rewrite length_app. cbn [List.length]. lia.
        -- now rewrite removelast_last.
      * change (removelast ((paragraph +++ [s]) :: paragraphs rest []))
          with (match paragraphs rest [] with
                | [] => []
                | _ => (paragraph +++ [s]) :: removelast (paragraphs rest [])
                end).
        destruct (paragraphs rest []) as [|q qs]; [constructor|].
        constructor; [|exact Hcl]. unfold closed. rewrite last_last.
        apply orb_true_iff in E as [E|E]; [left|now right].
        apply Nat.leb_le in E. rewrite length_app in *. cbn [List.length] in *. lia.
    + apply orb_false_iff in E as (El & Ek). apply Nat.leb_gt in El.
      destruct (IH (paragraph +++ [s]) El) as (Hc & Hw & Hcl).
      { apply Forall_app. split; [exact Hkw|]. now constructor. }
      rewrite Hc, <- app_assoc. now repeat split.
Qed.

Lemma split_from_nonempty (after_stop skipping : bool) (s : string) :
  Text.split_from after_stop skipping s <> [].
Proof.
  revert after_stop skipping. induction s as [|a r IH]; intros after_stop skipping;
    cbn [Text.split_from]; [discriminate|].
  destruct (Text.is_space a && skipping); [apply IH|].
  destruct (Text.is_space a && after_stop); [discriminate|].
  unfold Text.cons_first. destruct (Text.split_from (Text.is_stop a) false r); discriminate.
Qed.

Lemma split_from_skip (after_stop : bool) (s : string) :
  starts_with_space s = false ->
  Text.split_from after_stop true s = Text.split_from after_stop false s.
Proof.
  destruct s as [|a r]; [reflexivity|]. cbn [starts_with_space Text.split_from].
  intros ->. reflexivity.
Qed.

Lemma join_cons_first (sep : string) (a : ascii) (l : list string) :
  l <> [] -> Str.join sep (Text.cons_first a l) = String a (Str.join sep l).
Proof.
  destruct l as [|h t]; [congruence|]. intros _.
  cbn [Text.cons_first Str.join]. now destruct t.
Qed.

Lemma join_cons (sep x : string) (l : list string) :
  l <> [] -> Str.join sep (x :: l) = x ++ sep ++ Str.join sep l.
Proof. destruct l; [congruence|reflexivity]. Qed.

Lemma split_join_single_spaced (after_stop : bool) (s : string) :
  single_spaced s = true ->
  Str.join " " (Text.split_from after_stop false s) = s.
Proof.
  revert after_stop. induction s as [|a r IH]; intros after_stop H; [reflexivity|].
  cbn [single_spaced] in H. apply andb_true_iff in H as (Ha & Hr).
  cbn [Text.split_from]. rewrite andb_false_r.
  destruct (Text.is_space a && after_stop) eqn:E.
  - apply andb_true_iff in E as (Es & _). rewrite Es in Ha.
    apply andb_true_iff in Ha as (Ea & Hn). apply Ascii.eqb_eq in Ea. subst a.
    apply negb_true_iff in Hn. rewrite (split_from_skip false r Hn).
    rewrite join_cons by apply split_from_nonempty.
    cbn [append]. now rewrite (IH false Hr).
  - rewrite join_cons_first by apply split_from_nonempty. now rewrite (IH _ Hr).
Qed.

Lemma join_app_nonempty (sep : string) (a b : list string) :
  a <> [] -> b <> [] ->
  Str.join sep (a +++ b) = Str.join sep a ++ sep ++ Str.join sep b.
Proof.
  intros Ha Hb. induction a as [|x a IH]; [congruence|].
  destruct a as [|y a].
  - cbn [app]. now rewrite join_cons.
  - change ((x :: y :: a) +++ b) with (x :: ((y :: a) +++ b)).
    rewrite join_cons by discriminate.
    rewrite IH by discriminate. rewrite (join_cons sep x (y :: a)) by discriminate.
    now rewrite !append_assoc.
Qed.

Lemma join_concat (sep : string) (ps : list (list string)) :
  Forall (fun p => p <> []) ps ->
  Str.join sep (map (Str.join sep) ps) = Str.join sep (concat ps).
Proof.
  induction 1 as [|p ps Hp Hps IH]; [reflexivity|].
  cbn [map concat]. destruct ps as [|q qs].
  - cbn [map concat Str.join]. now rewrite app_nil_r.
  - rewrite join_cons by discriminate. rewrite IH.
    rewrite join_app_nonempty; [reflexivity|exact Hp|].
    cbn [concat]. inversion Hps as [|? ? Hq _]. destruct q; [congruence|discriminate].
Qed.

(** ** The claims *)

(** C6. For every reference inline node, reduction yields the final
    [/]-delimited segment of its identifier (the full identifier when it has
    no [/]) wrapped in backticks: the name between the backticks has no
    [/], and the identifier is that name or ends with [/] followed by it.
    In particular a reference to [doc://ns/documentation/Foo/bar] and a
    reference to [bar] both reduce to [`bar`]. *)
Theorem reference_reduces_to_last_segment :
  (forall (fields : list (string * value)) (identifier : string),
      Py.lookup fields "type" = Some (JStr "reference") ->
      Py.lookup fields "identifier" = Some (JStr identifier) ->
      exists name,
        extract_text_from_content (JArr [JObj fields]) = Ok ("`" ++ name ++ "`")
        /\ Str.contains Str.slash name = false
        /\ ((Str.contains Str.slash identifier = false /\ name = identifier)
            \/ exists p, identifier = p ++ "/" ++ name))
  /\ extract_text_from_content
       (JArr [JObj [("type", JStr "reference");
                    ("identifier", JStr "doc://ns/documentation/Foo/bar")]])
     = Ok "`bar`"
  /\ extract_text_from_content
       (JArr [JObj [("type", JStr "reference"); ("identifier", JStr "bar")]])
     = Ok "`bar`".
Proof.
  split; [|split; reflexivity].
  intros fields identifier Ht Hi.
  exists (Str.last_segment identifier).
  destruct (last_segment_spec identifier) as (Hn & Hs).
  split; [|split; assumption].
  rewrite extract_unfold. cbn [Py.iter obind ofor].
  unfold extract_item. rewrite !get_obj, Ht, Hi.
  cbn [or_default obind Py.eq_str String.eqb Ascii.eqb Bool.eqb Py.has_slash].
  destruct (Str.contains Str.slash identifier) eqn:Hc;
    cbn [Py.last_segment obind Py.format app Py.join Py.strings]; [reflexivity|].
  rewrite last_segment_no_slash by assumption. reflexivity.
Qed.

Lemma reference_reduces_to_last_segment_witness :
  exists name,
    extract_text_from_content
      (JArr [JObj [("type", JStr "reference"); ("isActive", JBool true);
                   ("identifier", JStr "doc://com.apple.screencapturekit/documentation/ScreenCaptureKit/SCStream")]])
    = Ok ("`" ++ name ++ "`")
    /\ Str.contains Str.slash name = false
    /\ ((Str.contains Str.slash
           "doc://com.apple.screencapturekit/documentation/ScreenCaptureKit/SCStream" = false
         /\ name = "doc://com.apple.screencapturekit/documentation/ScreenCaptureKit/SCStream")
        \/ exists p,
            "doc://com.apple.screencapturekit/documentation/ScreenCaptureKit/SCStream"
            = p ++ "/" ++ name).
Proof.
  apply (proj1 reference_reduces_to_last_segment); reflexivity.
Defined.

(** C8. Reduction is pure and deterministic, and the empty sequence
    reduces to the empty string.  The reducer is a function of the content
    alone: its outcome is the same whatever recursion budget beyond the
    nesting depth a run is given, the budget it starts with is never
    exhausted, and on every sequence of inline content of the data model it
    returns the one string [reduce s]. *)
Theorem reduce_deterministic :
  extract_text_from_content (JArr []) = Ok ""
  /\ (forall (s : value) (k1 k2 : nat),
         extract_fuel (S (depth s) + k1) s = extract_fuel (S (depth s) + k2) s)
  /\ (forall s : value, exhausted (extract_text_from_content s) = false)
  /\ (forall s : list Inline, extract_text_from_content (enc_inlines s) = Ok (reduce s)).
Proof.
  split; [reflexivity|]. split; [|split].
  - intros s k1 k2. apply extract_fuel_stable; lia.
  - intros s. apply extract_fuel_budget. lia.
  - apply extract_inlines.
Qed.

(** C5. Rendering with [include_children = False] never invokes the
    retrieval collaborator: for every document and path the program is a
    computation [o] without requests, so that against every network the run
    makes no request and its outcome is [o], a function of the document and
    the path alone. *)
Theorem render_without_children_never_fetches :
  forall (data : value) (path : string),
  exists o : outcome string,
    json_to_markdown data path false = lift o
    /\ forall net, run net (json_to_markdown data path false) = (o, []).
Proof.
  intros data path. destruct (json_to_markdown_silent data path) as (o & Ho).
  exists o. split; [exact Ho|]. intros net. rewrite Ho. apply run_lift.
Qed.

(** C2 (the script raises).  Rendering a document of the data model
    raises exactly when one of its primary sections fails, with the
    exception of the first section that does, and returns the document
    otherwise.  A section fails in two ways: a declaration of a
    declarations-kind section carries a present but empty [languages] list
    ([IndexError]), or a heading of a content-kind section has a level that
    does not fit the index type ([OverflowError]).  A document with an
    empty [languages] list is never rendered, and [IndexError] is raised
    only for such a document; in particular rendering raises on
    [empty_languages_doc], where the claim says no exception is raised. *)
Theorem render_raises_on_empty_languages :
  (forall (d : DocumentNode) (path : string),
    exists front : list string,
      forall (include_children : bool) (net : string -> option DocumentNode),
        result (enc_net net) (json_to_markdown (enc_doc d) path include_children)
        = match doc_failure d with
          | Some e => Raise e
          | None =>
              Ok (Str.join Str.nl
                    (("# " ++ doc_heading d path) :: "" :: front
                     +++ topics_lines d include_children net +++ see_also_lines d))
          end)
  /\ (forall d : DocumentNode,
         doc_failure d = None
         <-> doc_has_empty_languages d = false /\ doc_has_overflowing_heading d = false)
  /\ (forall (d : DocumentNode) (e : exn),
         doc_failure d = Some e ->
         (e = IndexError /\ doc_has_empty_languages d = true)
         \/ (e = OverflowError /\ doc_has_overflowing_heading d = true))
  /\ (forall d : DocumentNode,
         doc_has_overflowing_heading d = false ->
         doc_failure d = if doc_has_empty_languages d then Some IndexError else None)
  /\ result (enc_net no_network)
       (json_to_markdown (enc_doc empty_languages_doc) "screencapturekit_scstream" false)
     = Raise IndexError
  /\ json_to_markdown
       (JObj [("primaryContentSections",
               JArr [JObj [("kind", JStr "declarations");
                           ("declarations",
                            JArr [JObj [("tokens", JArr [JObj [("text", JStr "class SCStream")]]);
                                        ("languages", JArr [])]])]])])
       "screencapturekit_scstream" false
     = Throw IndexError.
Proof.
  split; [exact json_to_markdown_outcome|].
  split; [intros d; apply sections_failure_none|].
  split; [|split; [|split; reflexivity]].
  - intros d e H. unfold doc_failure in H.
    destruct (sections_failure_kinds _ _ H) as [-> | ->]; [left|right];
      (split; [reflexivity|]).
    + now apply sections_failure_index.
    + now apply sections_failure_overflow.
  - intros d. apply sections_failure_in_range.
Qed.

Lemma render_raises_on_empty_languages_witness :
  doc_failure empty_languages_doc = Some IndexError
  /\ doc_failure overflowing_heading_doc = Some OverflowError.
Proof.
  destruct render_raises_on_empty_languages as (_ & _ & _ & Hrange & _).
  split.
  - apply (Hrange empty_languages_doc). reflexivity.
  - vm_compute. reflexivity.
Defined.



(** C3 (the claim as stated fails).  On [two_sections_child] the design
    renders the document's first declaration and the first paragraph of the
    first content section; the script renders the declaration of the second
    declarations section and the second paragraph of the second content
    section. *)
Lemma child_doc_counterexample :
  format_child_doc (enc_doc two_sections_child)
  = Ok (Str.join Str.nl ["```swift"; "var b: Int"; "```"; "second"])
  /\ claimed_child_doc two_sections_child
     = Str.join Str.nl ["```swift"; "var a: Int"; "```"; "first"]
  /\ format_child_doc (enc_doc two_sections_child)
     <> Ok (claimed_child_doc two_sections_child).
Proof. split; [reflexivity|]. split; [reflexivity|]. discriminate. Qed.

(** C3 (amended).  The child rendering is the empty string for an
    unavailable child and, for every child document, [child_doc_text]: a
    [swift] fenced block for [child_declaration] when it is not empty,
    followed by [child_description] when it is not empty, joined by
    newlines; hence the empty string when both are empty.
    [child_declaration] is the text of the first declaration of the last
    declarations-kind primary section that has a declaration, and
    [child_description] the reduced text of the first paragraph with a
    non-empty reduced text in the last content-kind primary section that
    has such a paragraph; both are empty when no section yields one. *)
Theorem child_doc_rendering :
  format_child_doc JNull = Ok ""
  /\ (forall d : DocumentNode, format_child_doc (enc_doc d) = Ok (child_doc_text d))
  /\ (forall d : DocumentNode,
         child_declaration d = "" -> child_description d = "" ->
         format_child_doc (enc_doc d) = Ok "")
  /\ (forall (d : DocumentNode) (pre post : list Section) (s : Section) (code : string),
         opt_list (doc_primary d) = pre +++ s :: post ->
         section_declaration s = Some code ->
         Forall (fun s' => section_declaration s' = None) post ->
         child_declaration d = code)
  /\ (forall (d : DocumentNode) (pre post : list Section) (s : Section) (text : string),
         opt_list (doc_primary d) = pre +++ s :: post ->
         section_description s = Some text ->
         Forall (fun s' => section_description s' = None) post ->
         child_description d = text)
  /\ (forall d : DocumentNode,
         Forall (fun s => section_declaration s = None) (opt_list (doc_primary d)) ->
         child_declaration d = "")
  /\ (forall d : DocumentNode,
         Forall (fun s => section_description s = None) (opt_list (doc_primary d)) ->
         child_description d = "").
Proof.
  split; [reflexivity|]. split; [apply format_child_doc_typed|].
  split; [|split; [|split; [|split]]].
  - intros d Hd Hp. rewrite format_child_doc_typed. unfold child_doc_text.
    now rewrite Hd, Hp.
  - intros d pre post s code Hl Hs Hpost. unfold child_declaration. rewrite Hl.
    now apply last_yield_last.
  - intros d pre post s text Hl Hs Hpost. unfold child_description. rewrite Hl.
    now apply last_yield_last.
  - intros d H. now apply last_yield_none.
  - intros d H. now apply last_yield_none.
Qed.

Lemma child_doc_rendering_witness :
  format_child_doc (enc_doc (document (Some "width") (Some "symbol") [] [])) = Ok ""
  /\ child_declaration two_sections_child = "var b: Int"
  /\ child_description two_sections_child = "second"
  /\ child_declaration (document (Some "width") (Some "symbol")
                          [content_section [paragraph "first"]] []) = ""
  /\ child_description (document (Some "width") (Some "symbol")
                          [declarations_section [declaration "var a: Int" None]] []) = "".
Proof.
  destruct child_doc_rendering as (_ & _ & Hnone & Hdecl & Hdesc & Hnodecl & Hnodesc).
  split; [apply Hnone; reflexivity|].
  split.
  { apply (Hdecl two_sections_child
             [declarations_section [declaration "var a: Int" None];
              content_section [paragraph "first"]]
             [content_section [paragraph ""; paragraph "second"]]
             (declarations_section [declaration "var b: Int" None]));
      [reflexivity|reflexivity|]. repeat constructor. }
  split.
  { apply (Hdesc two_sections_child
             [declarations_section [declaration "var a: Int" None];
              content_section [paragraph "first"];
              declarations_section [declaration "var b: Int" None]]
             []
             (content_section [paragraph ""; paragraph "second"]));
      [reflexivity|reflexivity|constructor]. }
  split.
  { apply Hnodecl. repeat constructor. }
  apply Hnodesc. repeat constructor.
Defined.

(** C10 (the claim as stated fails).  The first declaration of
    [empty_first_declaration_child] formats to the empty string, and the
    child still contributes a member entry: the declaration of its second
    declarations section. *)
Lemma member_entries_counterexample :
  option_map declaration_text (first_declaration empty_first_declaration_child) = Some ""
  /\ result (enc_net (one_child_network empty_first_declaration_child))
       (identifier_members (JStr "Properties") (JStr member_identifier))
     = Ok [Member (JStr "width") "var width: Int" (JStr "symbol") (JStr "Properties")].
Proof. split; reflexivity. Qed.

(** C10 (amended).  Every member entry the aggregation records carries a
    non-empty declaration string: on whatever value a fetch returns, and so
    for the members recorded for every document.  A fetched child
    contributes no member entry exactly when each of its primary sections
    yields no declaration (it is not of kind [declarations], or has none) or
    a first declaration whose text is empty; a child without a
    declarations-kind section is such a child, and the outcome is that of a
    failed fetch, no entry. *)
Theorem member_entries_have_declarations :
  (forall (topic child_data : value) (members : list member),
      child_members topic child_data = Ok members -> Forall has_declaration members)
  /\ (forall (net : string -> option DocumentNode) (d : DocumentNode),
         Forall has_declaration (recorded_members net d))
  /\ (forall (net : string -> option DocumentNode) (topic identifier : string),
         result (enc_net net) (identifier_members (JStr topic) (JStr identifier))
         = Ok (identifier_member_list net topic identifier))
  /\ (forall (topic : string) (child : DocumentNode),
         members_of_child topic child = []
         <-> Forall (fun s => section_declaration s = None
                              \/ section_declaration s = Some "")
                    (opt_list (doc_primary child)))
  /\ (forall (topic : string) (child : DocumentNode),
         Forall (fun s => is_kind "declarations" s = false) (opt_list (doc_primary child)) ->
         members_of_child topic child = [])
  /\ (forall (net : string -> option DocumentNode) (topic identifier url : string),
         child_url identifier = Some url -> net url = None ->
         identifier_member_list net topic identifier = []).
Proof.
  split; [exact child_members_declared|]. split; [exact recorded_members_declared|].
  split; [exact identifier_members_typed|]. split; [exact members_of_child_empty|].
  split.
  - intros topic child H. apply members_of_child_empty.
    revert H. apply Forall_impl. intros s Hs. left.
    unfold section_declaration. now rewrite Hs.
  - intros net topic identifier url Hu Hn. unfold identifier_member_list.
    rewrite Hu, Hn. now destruct (Str.startswith _ _).
Qed.

Lemma member_entries_have_declarations_witness :
  Forall has_declaration
    [Member (JStr "width") "var width: Int" (JStr "symbol") (JStr "Properties")]
  /\ members_of_child "Properties"
       (document (Some "width") (Some "symbol") [content_section [paragraph "first"]] [])
     = []
  /\ identifier_member_list no_network "Properties" member_identifier = [].
Proof.
  destruct member_entries_have_declarations as (Hany & _ & _ & _ & Hnone & Hfail).
  split.
  - apply (Hany (JStr "Properties") (enc_doc empty_first_declaration_child)). reflexivity.
  - split.
    + apply Hnone. repeat constructor.
    + apply (Hfail no_network "Properties" member_identifier member_url); reflexivity.
Defined.






(** C1 (the claim as stated fails).  For the corpus whose included titles
    are met in the order [Zeta, alpha, Beta], the table of contents and the
    sections are in the order [Beta, Zeta, alpha], not in the
    case-insensitive order [alpha, Beta, Zeta]. *)
Lemma toc_order_counterexample :
  result (enc_net no_network) (generate_api_complete (map enc_file corpus_zab))
  = Ok (Str.join Str.nl
          ["# ScreenCaptureKit API Reference"; "";
           "Complete API signatures for all ScreenCaptureKit types."; "";
           "---"; "";
           "## Table of Contents"; "";
           "- [Beta](#beta)"; "- [Zeta](#zeta)"; "- [alpha](#alpha)";
           ""; "---"; "";
           "## Beta"; ""; "```swift"; "class Beta"; "```"; ""; "---"; "";
           "## Zeta"; ""; "```swift"; "class Zeta"; "```"; ""; "---"; "";
           "## alpha"; ""; "```swift"; "class alpha"; "```"; ""; "---"; ""])
  /\ toc_names no_network corpus_zab = ["Beta"; "Zeta"; "alpha"]
  /\ claimed_toc_names no_network corpus_zab = ["alpha"; "Beta"; "Zeta"]
  /\ toc_names no_network corpus_zab <> claimed_toc_names no_network corpus_zab.
Proof. repeat split; try reflexivity. discriminate. Qed.

(** C1 (amended).  For every corpus the consolidated reference is
    [api_text]: the preamble, the table of contents with one entry per
    name of [toc_names], and the sections of the same names in the same
    order.  [toc_names] lists, without repetition, the titles of the
    contributing documents in the lexical order of their code points
    ([String.leb]: upper-case letters before lower-case ones), so it does
    not depend on the order in which the corpus is visited.  The entry of a
    name links to the name lowercased with spaces replaced by hyphens, and
    the section of a name starts with its heading. *)
Theorem toc_sorted_by_code_point :
  forall (net : string -> option DocumentNode) (corpus : list (string * DocumentNode)),
    result (enc_net net) (generate_api_complete (map enc_file corpus))
    = Ok (api_text (aggregated net [] corpus) (toc_names net corpus))
    /\ StronglySorted str_le (toc_names net corpus)
    /\ NoDup (toc_names net corpus)
    /\ (forall name,
           In name (toc_names net corpus)
           <-> exists stem d, In (stem, d) corpus /\ contributes net stem d = true
                              /\ entry_title stem d = name)
    /\ (forall corpus', Permutation corpus corpus' ->
                        toc_names net corpus' = toc_names net corpus)
    /\ (forall name, toc_line name
                     = "- [" ++ name ++ "](#" ++ Str.replace " " "-" (Str.lower name) ++ ")")
    /\ (forall name, In name (toc_names net corpus) ->
                     exists rest,
                       class_lines (aggregated net [] corpus) name
                       = ("## " ++ name) :: "" :: rest).
Proof.
  intros net corpus.
  assert (Hin : forall c name,
             In name (toc_names net c)
             <-> exists stem d, In (stem, d) c /\ contributes net stem d = true
                                /\ entry_title stem d = name).
  { intros c name. unfold toc_names. rewrite sort_in, key_names_aggregated.
    cbn [key_names In]. tauto. }
  assert (Hnd : forall c, NoDup (toc_names net c)).
  { intros c. unfold toc_names.
    apply (Permutation_NoDup (sort_perm String.leb _)).
    apply key_names_aggregated_nodup. constructor. }
  split; [|split; [|split; [|split; [|split; [|split]]]]].
  - unfold generate_api_complete, toc_names.
    rewrite result_bind, aggregate_typed, result_lift.
    apply render_api_typed, well_keyed_aggregated. constructor.
  - apply sort_sorted.
  - apply Hnd.
  - apply Hin.
  - intros corpus' Hp. apply sorted_unique; try apply sort_sorted; try apply Hnd.
    intros name. rewrite !Hin. split; intros (stem & d & Hi & H); exists stem, d;
      (split; [|exact H]).
    + now apply (Permutation_in _ (Permutation_sym Hp)).
    + now apply (Permutation_in _ Hp).
  - reflexivity.
  - intros name Hn. unfold toc_names in Hn. apply sort_in in Hn.
    destruct (find_key_name _ _ Hn) as (info & Hf & _).
    unfold class_lines. rewrite Hf. eexists. reflexivity.
Qed.

Lemma toc_sorted_by_code_point_witness :
  toc_names no_network
    [("screencapturekit_beta", class_doc "Beta");
     ("screencapturekit_zeta", class_doc "Zeta");
     ("screencapturekit_alpha", class_doc "alpha")]
  = toc_names no_network corpus_zab
  /\ exists rest,
      class_lines (aggregated no_network [] corpus_zab) "Beta" = ("## " ++ "Beta") :: "" :: rest.
Proof.
  destruct (toc_sorted_by_code_point no_network corpus_zab)
    as (_ & _ & _ & _ & Hperm & _ & Hsec).
  split.
  - apply Hperm. unfold corpus_zab.
    apply Permutation_sym, (Permutation_cons_app [_; _] []). reflexivity.
  - apply Hsec. unfold toc_names. vm_compute. now left.
Defined.

(** ** Further properties *)

(** X1. The reduction of a sequence is the concatenation of the
    reductions of its parts, with no separator: when two sequences reduce
    to [x] and [y], their concatenation reduces to [x ++ y]. *)
Theorem reduce_concatenates :
  forall (a b : list value) (x y : string),
    extract_text_from_content (JArr a) = Ok x ->
    extract_text_from_content (JArr b) = Ok y ->
    extract_text_from_content (JArr (a +++ b)) = Ok (x ++ y).
Proof.
  intros a b x y Ha Hb.
  apply extract_list_ok in Ha as (pa & sa & Hpa & Hsa & ->).
  apply extract_list_ok in Hb as (pb & sb & Hpb & Hsb & ->).
  rewrite extract_list, ofor_app, Hpa, Hpb. cbn [obind].
  unfold Py.join. rewrite strings_app, Hsa, Hsb. now rewrite join_empty_app.
Qed.

Lemma reduce_concatenates_witness :
  extract_text_from_content
    (JArr ([JObj [("type", JStr "text"); ("text", JStr "Use ")]]
           +++ [JObj [("type", JStr "codeVoice"); ("code", JStr "width")]]))
  = Ok ("Use " ++ "`width`").
Proof. apply reduce_concatenates; reflexivity. Defined.

(** X2. An item that is neither a string nor a dictionary (a number,
    [None], a boolean, a list), or a dictionary without a recognised tag and
    without [inlineContent] and [content], is passed over: removing it
    changes neither the text nor the exception of the reduction. *)
Theorem reduce_passes_over_unknown_items :
  forall (a b : list value) (item : value),
    passed_over item = true ->
    extract_text_from_content (JArr (a +++ item :: b))
    = extract_text_from_content (JArr (a +++ b)).
Proof.
  intros a b item H. rewrite !extract_list, !ofor_app. cbn [ofor].
  rewrite (passed_over_item _ item H). cbn [obind].
  destruct (ofor a _) as [xs|]; [|reflexivity]. cbn [obind].
  destruct (ofor b _) as [ys|]; reflexivity.
Qed.

Lemma reduce_passes_over_unknown_items_witness :
  extract_text_from_content
    (JArr ([JStr "a"] +++ JObj [("type", JStr "image"); ("identifier", JStr "x.png")]
                      :: [JStr "b"]))
  = extract_text_from_content (JArr ([JStr "a"] +++ [JStr "b"])).
Proof. apply reduce_passes_over_unknown_items. reflexivity. Defined.

(** X3. Content that is not a list: a string is returned as it is (it is
    traversed character by character), a dictionary reduces to the
    concatenation of its keys, and [None], a boolean or a number raises
    [TypeError]. *)
Theorem reduce_of_non_list_content :
  (forall s : string, extract_text_from_content (JStr s) = Ok s)
  /\ (forall fields : list (string * value),
         extract_text_from_content (JObj fields) = Ok (Str.join "" (map fst fields)))
  /\ extract_text_from_content JNull = Raise TypeError
  /\ (forall b : bool, extract_text_from_content (JBool b) = Raise TypeError)
  /\ (forall z : Z, extract_text_from_content (JInt z) = Raise TypeError).
Proof.
  split; [|split; [|split; [|split]]]; try reflexivity.
  - intros s. rewrite extract_unfold. cbn [Py.iter obind].
    rewrite ofor_strings. cbn [obind]. now rewrite join_strings, join_chars.
  - intros fields. rewrite extract_unfold. cbn [Py.iter obind].
    rewrite <- (map_map fst JStr), ofor_strings. cbn [obind]. apply join_strings.
Qed.

(** X4. A [text] node whose [text] is present but not a string (for
    instance [null]) makes the whole reduction raise [TypeError], even when
    every other item reduces. *)
Theorem text_node_with_non_string_text_raises :
  forall (pre post : list value) (fields : list (string * value)) (v : value)
         (x y : string),
    Py.lookup fields "type" = Some (JStr "text") ->
    Py.lookup fields "text" = Some v ->
    is_string v = false ->
    extract_text_from_content (JArr pre) = Ok x ->
    extract_text_from_content (JArr post) = Ok y ->
    extract_text_from_content (JArr (pre +++ JObj fields :: post)) = Raise TypeError.
Proof.
  intros pre post fields v x y Ht Hv Hs Hpre Hpost.
  apply extract_list_ok in Hpre as (pa & sa & Hpa & Hsa & _).
  apply extract_list_ok in Hpost as (pb & sb & Hpb & Hsb & _).
  rewrite extract_list, ofor_app, Hpa. cbn [obind ofor].
  unfold extract_item at 1. rewrite !get_obj, Ht, Hv.
  cbn [or_default obind Py.eq_str String.eqb Ascii.eqb Bool.eqb].
  rewrite Hpb. cbn [obind app]. unfold Py.join.
  rewrite strings_app, Hsa. cbn [Py.strings]. now destruct v.
Qed.

Lemma text_node_with_non_string_text_raises_witness :
  extract_text_from_content
    (JArr ([JStr "a"] +++ JObj [("type", JStr "text"); ("text", JNull)] :: [JStr "b"]))
  = Raise TypeError.
Proof.
  apply (text_node_with_non_string_text_raises
           [JStr "a"] [JStr "b"] [("type", JStr "text"); ("text", JNull)] JNull "a" "b");
    reflexivity.
Defined.

(** X5. The declaration formatter concatenates the texts of the tokens in
    order, with no separator: on a declaration of the data model it
    returns [declaration_text], which is empty without a token list, counts
    a token without text as empty, and distributes over the concatenation
    of token lists.  A declaration that is not a dictionary raises
    [AttributeError]. *)
Theorem format_declaration_concatenates :
  (forall d : Declaration, format_declaration (enc_declaration d) = Ok (declaration_text d))
  /\ (forall languages,
         format_declaration
           (enc_declaration {| decl_tokens := None; decl_languages := languages |})
         = Ok "")
  /\ (forall (a b : list Token) languages,
         format_declaration
           (enc_declaration {| decl_tokens := Some (a +++ b); decl_languages := languages |})
         = Ok (declaration_text {| decl_tokens := Some a; decl_languages := languages |}
               ++ declaration_text {| decl_tokens := Some b; decl_languages := languages |}))
  /\ (forall (a b : list Token) languages,
         format_declaration
           (enc_declaration
              {| decl_tokens := Some (a +++ {| token_text := None |} :: b);
                 decl_languages := languages |})
         = format_declaration
             (enc_declaration {| decl_tokens := Some (a +++ b);
                                 decl_languages := languages |}))
  /\ (forall decl : value, is_dict decl = false ->
                           format_declaration decl = Raise AttributeError).
Proof.
  split; [exact format_declaration_typed|]. split; [|split; [|split]].
  - intros languages. now rewrite format_declaration_typed.
  - intros a b languages. rewrite format_declaration_typed. f_equal.
    apply declaration_text_app.
  - intros a b languages. rewrite !format_declaration_typed. f_equal.
    rewrite (declaration_text_app a (_ :: b) languages languages),
            (declaration_text_app a b languages languages).
    f_equal. unfold declaration_text. cbn [decl_tokens opt_list map token_text opt_string].
    now rewrite join_empty_cons.
  - intros decl H. destruct decl; try reflexivity. discriminate.
Qed.

Lemma format_declaration_concatenates_witness :
  format_declaration (JArr [JStr "class"]) = Raise AttributeError.
Proof.
  apply (proj2 (proj2 (proj2 (proj2 format_declaration_concatenates)))). reflexivity.
Defined.

(** X6. [identifier_to_path] returns [None] exactly for the identifiers
    that do not start with the documentation prefix of the framework.  For
    an identifier [prefix ++ rest] it returns the lower-cased [rest] with
    every further occurrence of the prefix removed ([rest] itself,
    lower-cased, when the prefix does not occur in it), and the path it
    returns is always in lower case. *)
Theorem identifier_to_path_spec :
  (forall identifier : string,
      identifier_to_path identifier = None
      <-> Str.startswith doc_prefix identifier = false)
  /\ (forall rest : string,
         identifier_to_path (doc_prefix ++ rest)
         = Some (Str.lower (Str.replace doc_prefix "" rest)))
  /\ (forall rest : string,
         Text.has_substring doc_prefix rest = false ->
         identifier_to_path (doc_prefix ++ rest) = Some (Str.lower rest))
  /\ (forall identifier path : string,
         identifier_to_path identifier = Some path -> Str.lower path = path).
Proof.
  assert (Hp : forall rest, identifier_to_path (doc_prefix ++ rest)
                            = Some (Str.lower (Str.replace doc_prefix "" rest))).
  { intros rest. unfold identifier_to_path, Str.startswith.
    rewrite prefix_app. cbn [negb]. now rewrite replace_doc_prefix. }
  split; [|split; [exact Hp|split]].
  - intros identifier. unfold identifier_to_path.
    destruct (Str.startswith doc_prefix identifier); cbn [negb].
    + split; discriminate.
    + split; reflexivity.
  - intros rest H. rewrite Hp. now rewrite (replace_absent _ _ _ H).
  - intros identifier path. unfold identifier_to_path.
    destruct (negb _); [discriminate|]. intros [= <-]. apply lower_idempotent.
Qed.

Lemma identifier_to_path_spec_witness :
  identifier_to_path (doc_prefix ++ "ScreenCaptureKit/SCStream")
  = Some (Str.lower "ScreenCaptureKit/SCStream")
  /\ identifier_to_path "doc://com.apple.documentation/documentation/Foundation/URL" = None
  /\ Str.lower "screencapturekit/scstream" = "screencapturekit/scstream".
Proof.
  destruct identifier_to_path_spec as (Hnone & _ & Hrest & Hlower).
  split; [apply Hrest; reflexivity|]. split.
  - apply Hnone. reflexivity.
  - apply (Hlower (doc_prefix ++ "ScreenCaptureKit/SCStream")). reflexivity.
Defined.

(** X7. The anchor of a table-of-contents entry has the length of the
    title, contains no space, and is in lower case: it is the title
    lower-cased character by character with each space turned into a
    hyphen. *)
Theorem anchor_is_a_slug :
  forall title : string,
    anchor title
    = map_chars (fun c => if Ascii.eqb c " "%char then "-"%char else c) (Str.lower title)
    /\ String.length (anchor title) = String.length title
    /\ Str.contains " "%char (anchor title) = false
    /\ Str.lower (anchor title) = anchor title.
Proof.
  intros title. unfold anchor.
  split; [apply replace_char|]. split; [|split].
  - now rewrite replace_char, map_chars_length, lower_length.
  - now apply replace_char_absent.
  - rewrite replace_char. induction title as [|a s IH]; [reflexivity|].
    cbn [Str.lower map_chars]. rewrite IH. f_equal.
    destruct (Ascii.eqb (Str.lower_char a) " ") eqn:E; [reflexivity|].
    apply lower_char_idempotent.
Qed.



(** X9. A member identifier without an entry in the [references] of the
    document (or in a document without [references]) is rendered under the
    last segment of the identifier and without abstract, in a topic and in
    See Also alike; an entry without title gets the same title.  An
    identifier that is not a string always raises: the fallback title is
    computed from it before the entry is consulted. *)
Theorem unresolved_reference_falls_back :
  (forall (fields refs : list (string * value)) (identifier : string),
      Py.lookup fields "references" = None
      \/ (Py.lookup fields "references" = Some (JObj refs)
          /\ Py.lookup refs identifier = None) ->
      member_summary_lines (JObj fields) (JStr identifier)
      = Ok ["#### " ++ Str.last_segment identifier; ""]
      /\ see_also_entry (JObj fields) (JStr identifier)
         = Ok ["- " ++ Str.last_segment identifier])
  /\ (forall (fields refs entry : list (string * value)) (identifier : string),
         Py.lookup fields "references" = Some (JObj refs) ->
         Py.lookup refs identifier = Some (JObj entry) ->
         Py.lookup entry "title" = None ->
         see_also_entry (JObj fields) (JStr identifier)
         = Ok ["- " ++ Str.last_segment identifier])
  /\ (forall data identifier : value,
         is_string identifier = false ->
         exists e, reference_summary data identifier = Raise e).
Proof.
  split; [|split].
  - intros fields refs identifier H.
    assert (Hs : reference_summary (JObj fields) (JStr identifier)
                 = Ok (JStr (Str.last_segment identifier), JArr [])).
    { unfold reference_summary. rewrite get_obj.
      destruct H as [->|(-> & Hr)]; cbn [or_default obind get_key Py.hashable].
      - reflexivity.
      - rewrite get_obj, Hr. reflexivity. }
    unfold member_summary_lines, see_also_entry. rewrite Hs. split; reflexivity.
  - intros fields refs entry identifier Hr He Ht.
    unfold see_also_entry, reference_summary.
    rewrite get_obj, Hr. cbn [or_default obind get_key Py.hashable].
    rewrite get_obj, He. cbn [or_default obind Py.last_segment].
    rewrite !get_obj, Ht. reflexivity.
  - intros data identifier H. unfold reference_summary.
    destruct (Py.get data "references" (JObj [])) as [refs|e]; [|now exists e].
    cbn [obind]. unfold get_key.
    destruct refs; try (now exists AttributeError).
    destruct (Py.hashable identifier); [|now exists TypeError].
    destruct identifier; try discriminate; now exists AttributeError.
Qed.

Lemma unresolved_reference_falls_back_witness :
  (member_summary_lines (JObj [("references", JObj [])])
     (JStr "doc://com.apple.documentation/documentation/Foundation/URL")
   = Ok ["#### " ++ Str.last_segment
                      "doc://com.apple.documentation/documentation/Foundation/URL"; ""]
   /\ see_also_entry (JObj [("references", JObj [])])
        (JStr "doc://com.apple.documentation/documentation/Foundation/URL")
      = Ok ["- " ++ Str.last_segment
                      "doc://com.apple.documentation/documentation/Foundation/URL"])
  /\ exists e, reference_summary (JObj []) (JInt 7) = Raise e.
Proof.
  destruct unresolved_reference_falls_back as (Hnone & _ & Hbad).
  split.
  - apply (Hnone [("references", JObj [])] []). right. split; reflexivity.
  - apply Hbad. reflexivity.
Defined.

(** X10. What a fetch may return: [format_child_doc] gives the empty
    string for every false value ([None], [{}], [[]], [""], [0], [False])
    and raises [AttributeError] on a true value that is not a dictionary.
    So a child response that is, say, a non-empty list makes the rendering
    of the member, and with it of the whole document, raise, and makes the
    member loop of the aggregator raise. *)
Theorem non_dictionary_child_response_raises :
  (forall data : value, Py.truthy data = false -> format_child_doc data = Ok "")
  /\ (forall data : value,
         Py.truthy data = true -> is_dict data = false ->
         format_child_doc data = Raise AttributeError)
  /\ (forall (net : string -> value) (data : value) (identifier url : string)
             (summary : list string),
         child_url identifier = Some url ->
         Py.truthy (net url) = true -> is_dict (net url) = false ->
         member_summary_lines data (JStr identifier) = Ok summary ->
         result net (member_lines data true (JStr identifier)) = Raise AttributeError)
  /\ (forall (net : string -> value) (topic : value) (identifier url : string),
         child_url identifier = Some url ->
         Py.truthy (net url) = true -> is_dict (net url) = false ->
         result net (identifier_members topic (JStr identifier)) = Raise AttributeError).
Proof.
  assert (Hf : forall data, Py.truthy data = true -> is_dict data = false ->
                            format_child_doc data = Raise AttributeError).
  { intros data Ht Hd. unfold format_child_doc. rewrite Ht. cbn [negb].
    destruct data; try reflexivity. discriminate. }
  split; [|split; [exact Hf|split]].
  - intros data H. unfold format_child_doc. now rewrite H.
  - intros net data identifier url summary Hu Ht Hd Hs.
    unfold member_lines. rewrite result_bind, result_lift, Hs, result_bind, result_lift.
    cbn [Py.startswith]. rewrite (child_url_own_namespace _ _ Hu).
    rewrite result_bind. unfold member_child_lines.
    rewrite result_bind, result_fetch_child_doc, Hu, Ht.
    now rewrite result_bind, result_lift, (Hf _ Ht Hd).
  - intros net topic identifier url Hu Ht Hd.
    unfold identifier_members. rewrite result_bind, result_lift.
    cbn [Py.startswith]. rewrite (child_url_own_namespace _ _ Hu). cbn [negb].
    rewrite result_bind, result_fetch_child_doc, Hu, Ht. cbn [negb].
    rewrite result_lift. unfold child_members.
    destruct (net url); try reflexivity. discriminate.
Qed.

Lemma non_dictionary_child_response_raises_witness :
  format_child_doc (JObj []) = Ok ""
  /\ format_child_doc (JArr [JStr "error"]) = Raise AttributeError
  /\ result (fun _ => JArr [JStr "error"])
       (member_lines (JObj []) true (JStr member_identifier))
     = Raise AttributeError
  /\ result (fun _ => JArr [JStr "error"])
       (identifier_members (JStr "Properties") (JStr member_identifier))
     = Raise AttributeError.
Proof.
  destruct non_dictionary_child_response_raises as (Hfalse & Htrue & Hmember & Hagg).
  split; [apply Hfalse; reflexivity|]. split; [apply Htrue; reflexivity|]. split.
  - apply (Hmember (fun _ => JArr [JStr "error"]) (JObj []) member_identifier member_url
             ["#### width"; ""]); reflexivity.
  - apply (Hagg (fun _ => JArr [JStr "error"]) (JStr "Properties") member_identifier
             member_url); reflexivity.
Defined.

(** X11. The loop of the aggregator over the files never raises, whatever
    the files and the network are: each file leaves [api_by_class] as it was
    or assigns one entry under a hashable title.  A file whose processing
    raises, and a file whose title is a list or a dictionary, leave it
    untouched. *)
Theorem aggregation_never_raises :
  (forall (net : string -> value) (api : dict class_info) (file : string * value),
      exists api',
        result net (process_file api file) = Ok api'
        /\ (api' = api
            \/ exists title info, Py.hashable title = true
                                  /\ api' = dict_put api title info))
  /\ (forall (net : string -> value) (corpus : list (string * value))
             (api : dict class_info),
         exists api', result net (aggregate api corpus) = Ok api')
  /\ (forall (net : string -> value) (api : dict class_info) (file : string * value)
             (e : exn),
         result net (file_entry (fst file) (snd file)) = Raise e ->
         result net (process_file api file) = Ok api)
  /\ (forall (net : string -> value) (api : dict class_info) (file : string * value)
             (title : value) (info : class_info),
         result net (file_entry (fst file) (snd file)) = Ok (Some (title, info)) ->
         Py.hashable title = false ->
         result net (process_file api file) = Ok api).
Proof.
  split; [|split; [|split]].
  - intros net api file. eexists. split; [apply process_file_result|].
    destruct (result net (file_entry (fst file) (snd file))) as [[[title info]|]|e];
      try (now left).
    destruct (Py.hashable title) eqn:Hh; [|now left]. right. now exists title, info.
  - intros net corpus. induction corpus as [|file rest IH]; intros api.
    + now exists api.
    + cbn [aggregate]. rewrite result_bind, process_file_result. apply IH.
  - intros net api file e H. now rewrite process_file_result, H.
  - intros net api file title info H Hh. now rewrite process_file_result, H, Hh.
Qed.

Lemma aggregation_never_raises_witness :
  result (fun _ => JNull)
    (process_file [] ("screencapturekit_scstream", JArr [JInt 1])) = Ok []
  /\ result (fun _ => JNull)
       (process_file []
          ("screencapturekit_scstream",
           JObj [("metadata", JObj [("title", JArr [JStr "SCStream"]);
                                    ("role", JStr "symbol")]);
                 ("primaryContentSections",
                  JArr [JObj [("kind", JStr "declarations");
                              ("declarations",
                               JArr [JObj [("tokens",
                                            JArr [JObj [("text", JStr "class SCStream")]])]])]])]))
     = Ok [].
Proof.
  destruct aggregation_never_raises as (_ & _ & Hraise & Hlist).
  split.
  - apply (Hraise (fun _ => JNull) [] ("screencapturekit_scstream", JArr [JInt 1])
             AttributeError). reflexivity.
  - apply (Hlist (fun _ => JNull) [] _ (JArr [JStr "SCStream"])
             (ClassInfo (Some "class SCStream") [])); reflexivity.
Defined.

(** X12. A title that is not a string (a number, a boolean, [null]) is
    accepted as a key of [api_by_class] and then makes the reference fail as
    a whole: [render_api] raises [AttributeError] (at [.lower()]) or
    [TypeError] (in [sorted]) whenever some key is not a string, so
    [generate_api_complete] raises, outside its [try] block. *)
Theorem reference_raises_on_non_string_title :
  (forall api : dict class_info,
      existsb (fun k => negb (is_string k)) (dict_keys api) = true ->
      render_api api = Raise AttributeError \/ render_api api = Raise TypeError)
  /\ (forall (net : string -> value) (corpus : list (string * value))
             (api : dict class_info),
         result net (aggregate [] corpus) = Ok api ->
         existsb (fun k => negb (is_string k)) (dict_keys api) = true ->
         result net (generate_api_complete corpus) = Raise AttributeError
         \/ result net (generate_api_complete corpus) = Raise TypeError).
Proof.
  split; [exact render_api_non_string_key|].
  intros net corpus api Ha Hk. unfold generate_api_complete.
  rewrite result_bind, Ha, result_lift. now apply render_api_non_string_key.
Qed.

Lemma reference_raises_on_non_string_title_witness :
  result (fun _ => JNull)
    (generate_api_complete
       [("screencapturekit_scstream",
         JObj [("metadata", JObj [("title", JInt 42); ("role", JStr "symbol")]);
               ("primaryContentSections",
                JArr [JObj [("kind", JStr "declarations");
                            ("declarations",
                             JArr [JObj [("tokens",
                                          JArr [JObj [("text", JStr "class SCStream")]])]])]])])])
  = Raise AttributeError
  \/ result (fun _ => JNull)
       (generate_api_complete
          [("screencapturekit_scstream",
            JObj [("metadata", JObj [("title", JInt 42); ("role", JStr "symbol")]);
                  ("primaryContentSections",
                   JArr [JObj [("kind", JStr "declarations");
                               ("declarations",
                                JArr [JObj [("tokens",
                                             JArr [JObj [("text", JStr "class SCStream")]])]])]])])])
     = Raise TypeError.
Proof.
  apply (proj2 reference_raises_on_non_string_title (fun _ => JNull) _
           [(JInt 42, ClassInfo (Some "class SCStream") [])]); reflexivity.
Defined.

(** X13. The requests of the aggregation over a corpus of the data model
    do not depend on the answers: file by file, a document whose role is
    not accepted causes none, and an accepted document causes one request
    per occurrence of a member identifier with an address, in the order of
    its topics; the same identifier under two documents or two topics is
    requested again. *)
Theorem aggregation_requests :
  (forall (net : string -> option DocumentNode) (corpus : list (string * DocumentNode)),
      requests (enc_net net) (generate_api_complete (map enc_file corpus))
      = concat (map (fun file => if role_accepted (snd file)
                                 then doc_expansion_requests (snd file) else [])
                    corpus))
  /\ (forall (net : string -> option DocumentNode) (corpus : list (string * DocumentNode)),
         Forall (fun file => role_accepted (snd file) = false) corpus ->
         requests (enc_net net) (generate_api_complete (map enc_file corpus)) = [])
  /\ (forall (net : string -> option DocumentNode) (a b : list (string * DocumentNode)),
         requests (enc_net net) (generate_api_complete (map enc_file (a +++ b)))
         = requests (enc_net net) (generate_api_complete (map enc_file a))
           +++ requests (enc_net net) (generate_api_complete (map enc_file b))).
Proof.
  assert (H : forall net corpus,
             requests (enc_net net) (generate_api_complete (map enc_file corpus))
             = concat (map (fun file => if role_accepted (snd file)
                                        then doc_expansion_requests (snd file) else [])
                           corpus)).
  { intros net corpus. unfold generate_api_complete.
    rewrite requests_bind, requests_aggregate, aggregate_typed, requests_lift.
    apply app_nil_r. }
  split; [exact H|]. split.
  - intros net corpus Hr. rewrite H. apply concat_nil, Forall_map.
    revert Hr. apply Forall_impl. now intros file ->.
  - intros net a b. rewrite !H. now rewrite map_app, concat_app.
Qed.

Lemma aggregation_requests_witness :
  requests (enc_net no_network)
    (generate_api_complete
       (map enc_file
          [("screencapturekit_capturing-screen-content-in-macos",
            document (Some "Capturing screen content in macOS") (Some "article") []
              [{| topic_title := Some "Essentials";
                  topic_identifiers := Some [member_identifier] |}])]))
  = [].
Proof.
  apply (proj1 (proj2 aggregation_requests)). repeat constructor.
Defined.

(** X14. Two documents with the same title share one entry of
    [api_by_class], and the later one wins: after the loop the entry of a
    title is the one of the last contributing document that has it, the
    declaration and members of the earlier ones being lost.  Assigning a
    title makes it the value looked up under that title and leaves the other
    titles as they were. *)
Theorem later_document_overwrites :
  (forall (net : string -> option DocumentNode) (pre post : list (string * DocumentNode))
          (stem : string) (d : DocumentNode),
      contributes net stem d = true ->
      Forall (fun file => contributes net (fst file) (snd file) = true ->
                          entry_title (fst file) (snd file) <> entry_title stem d) post ->
      dict_find (aggregated net [] (pre +++ (stem, d) :: post)) (JStr (entry_title stem d))
      = Some (ClassInfo (class_declaration d) (recorded_members net d)))
  /\ (forall (api : dict class_info) (a b : string) (info : class_info),
         dict_find (dict_put api (JStr a) info) (JStr b)
         = if String.eqb a b then Some info else dict_find api (JStr b)).
Proof.
  split; [|intros; apply dict_find_put].
  intros net pre post stem d Hc Hpost.
  rewrite aggregated_app. cbn [aggregated]. rewrite (aggregated_find_other _ _ _ _ Hpost).
  rewrite doc_entry_contributes, Hc, dict_find_put. now rewrite String.eqb_refl.
Qed.

Lemma later_document_overwrites_witness :
  dict_find
    (aggregated no_network []
       ([("screencapturekit_scstream",
          document (Some "SCStream") (Some "symbol")
            [declarations_section [declaration "class SCStream" None]] [])]
        +++ ("screencapturekit_scstream-swift.class",
             document (Some "SCStream") (Some "symbol")
               [declarations_section [declaration "final class SCStream" None]] [])
            :: [("screencapturekit_scwindow", class_doc "SCWindow")]))
    (JStr "SCStream")
  = Some (ClassInfo (Some "final class SCStream") []).
Proof.
  apply (proj1 later_document_overwrites no_network
           [("screencapturekit_scstream",
             document (Some "SCStream") (Some "symbol")
               [declarations_section [declaration "class SCStream" None]] [])]
           [("screencapturekit_scwindow", class_doc "SCWindow")]
           "screencapturekit_scstream-swift.class"
           (document (Some "SCStream") (Some "symbol")
              [declarations_section [declaration "final class SCStream" None]] [])).
  - reflexivity.
  - repeat constructor. cbn. discriminate.
Defined.

(** X15. The members of a class are grouped by topic without loss and
    without reordering: the group of a topic holds exactly the members
    recorded under it, in the order they were found; the topics appear in
    the order of their first member; and every key of the grouping is a
    string, so the loop does not raise. *)
Theorem members_grouped_by_topic :
  forall members : list member,
    Forall string_topic members ->
    by_topic [] members = Ok (grouped [] members)
    /\ (forall topic : string,
           dict_find (grouped [] members) (JStr topic)
           = match filter (has_topic topic) members with
             | [] => None
             | group => Some group
             end)
    /\ key_names (grouped [] members) = first_occurrences [] (map topic_name members)
    /\ Forall (fun kv => is_string (fst kv) = true) (grouped [] members).
Proof.
  intros members H. split; [now apply by_topic_grouped|]. split; [|split].
  - intros topic. rewrite (grouped_find members [] topic H). cbn [dict_find joined].
    now destruct (filter (has_topic topic) members).
  - now rewrite (grouped_keys members [] H).
  - apply grouped_well_keyed; [exact H|constructor].
Qed.

Lemma members_grouped_by_topic_witness :
  key_names
    (grouped []
       [Member (JStr "width") "var width: Int" (JStr "property") (JStr "Properties");
        Member (JStr "init") "init()" (JStr "init") (JStr "Creating");
        Member (JStr "height") "var height: Int" (JStr "property") (JStr "Properties")])
  = first_occurrences [] ["Properties"; "Creating"; "Properties"]
  /\ dict_find
       (grouped []
          [Member (JStr "width") "var width: Int" (JStr "property") (JStr "Properties");
           Member (JStr "init") "init()" (JStr "init") (JStr "Creating");
           Member (JStr "height") "var height: Int" (JStr "property") (JStr "Properties")])
       (JStr "Properties")
     = Some [Member (JStr "width") "var width: Int" (JStr "property") (JStr "Properties");
             Member (JStr "height") "var height: Int" (JStr "property")
               (JStr "Properties")].
Proof.
  assert (H : Forall string_topic
                [Member (JStr "width") "var width: Int" (JStr "property") (JStr "Properties");
                 Member (JStr "init") "init()" (JStr "init") (JStr "Creating");
                 Member (JStr "height") "var height: Int" (JStr "property")
                   (JStr "Properties")]).
  { repeat constructor; eexists; reflexivity. }
  destruct (members_grouped_by_topic _ H) as (_ & Hfind & Hkeys & _).
  split; [exact Hkeys|]. exact (Hfind "Properties").
Defined.

(** X16. [extract_declarations_from_json] returns, for a document of the
    data model, one entry for every declaration of every declarations-kind
    primary section whose text is not empty (all of them, not only the
    first of each section), in document order, each under the title of the
    document and with its role as kind, [symbol] when there is none.  The
    class-level declaration the aggregator shows, when it is not empty, is
    the declaration of one of these entries. *)
Theorem all_declarations_extracted :
  forall d : DocumentNode,
    extract_declarations_from_json (enc_doc d) = Ok (declaration_entries_of d)
    /\ map entry_declaration (declaration_entries_of d)
       = filter nonempty (map declaration_text (all_declarations d))
    /\ Forall (fun e => entry_name e = JStr (opt_string (doc_title d))
                        /\ entry_kind e = JStr (declared_kind d)
                        /\ nonempty (entry_declaration e) = true)
              (declaration_entries_of d)
    /\ (forall code : string,
           class_declaration d = Some code -> nonempty code = true ->
           In code (map entry_declaration (declaration_entries_of d))).
Proof.
  intros d.
  assert (Hmap : map entry_declaration (declaration_entries_of d)
                 = filter nonempty (map declaration_text (all_declarations d))).
  { unfold declaration_entries_of. induction (all_declarations d) as [|decl l IH];
      [reflexivity|].
    cbn [map concat filter]. rewrite map_app, IH. unfold entry_of.
    now destruct (nonempty (declaration_text decl)). }
  split; [apply extract_declarations_typed|]. split; [exact Hmap|]. split.
  - unfold declaration_entries_of. apply Forall_concat, Forall_map, Forall_forall.
    intros decl _. unfold entry_of.
    destruct (nonempty (declaration_text decl)) eqn:E; repeat constructor. exact E.
  - intros code Hc Hn. rewrite Hmap. apply filter_In.
    destruct (class_declaration_in_all d code Hc) as (decl & Hin & <-).
    split; [now apply in_map|exact Hn].
Qed.

Lemma all_declarations_extracted_witness :
  In "class SCStream" (map entry_declaration (declaration_entries_of (class_doc "SCStream"))).
Proof.
  apply (proj2 (proj2 (proj2 (all_declarations_extracted (class_doc "SCStream")))));
    reflexivity.
Defined.




(** X19. When no file is to be expanded, [convert_to_markdown] makes no
    request at all, whatever the files contain and the file system does. *)
Theorem conversion_without_expansion_never_fetches :
  forall (net : string -> value) (fs : disk) (include_children : bool)
         (files : list (string * value)),
    Forall (fun file => should_expand include_children (fst file) = false) files ->
    requests net (convert_to_markdown fs include_children files) = [].
Proof.
  intros net fs include_children files H. rewrite requests_convert_to_markdown.
  destruct (make_dir fs); [|reflexivity].
  induction H as [|file rest Hfile _ IH]; [reflexivity|].
  cbn [map concat]. rewrite IH, Hfile.
  destruct (json_to_markdown_silent (snd file) (fst file)) as (o & ->).
  now rewrite requests_lift.
Qed.

Lemma conversion_without_expansion_never_fetches_witness :
  requests (fun _ => JObj [])
    (convert_to_markdown sound_disk true
       [("screencapturekit_scstream_addstreamoutput", enc_doc (class_doc "addStreamOutput"))])
  = [].
Proof.
  apply (conversion_without_expansion_never_fetches (fun _ => JObj []) sound_disk true).
  constructor; [vm_compute; reflexivity|constructor].
Defined.

(** X20. [download_docs] requests the paths of its list in order, at
    the address [<base>/<path>.json], and stops at the first exception:
    one that [fetch_json] lets through, or one raised while the file is
    written or the directory created; no later path is requested.  When
    no exception is raised, every path is requested whatever the answers
    are, one file is written for each truthy answer, in order, named after
    the path with every slash turned into an underscore, and the number
    returned is the number of files written, at most the number of
    paths. *)
Theorem download_stops_at_first_exception :
  forall (web : string -> outcome value) (fs : disk) (net : string -> value),
    (forall (paths : list string) (e : exn),
        make_dir fs = Raise e ->
        run_web web (download_docs_from fs paths) = (Raise e, []))
    /\ (forall paths : list string,
           make_dir fs = Ok tt ->
           Forall (goes_well web fs net) paths ->
           run_web web (download_docs_from fs paths)
           = (Ok (saved net paths, List.length (saved net paths)), map doc_url paths)
           /\ (List.length (saved net paths) <= List.length paths)%nat)
    /\ (forall (before after : list string) (doc_path : string) (e : exn),
           make_dir fs = Ok tt ->
           Forall (goes_well web fs net) before ->
           web (doc_url doc_path) = Raise e ->
           run_web web (download_docs_from fs (before +++ doc_path :: after))
           = (Raise e, map doc_url (before +++ [doc_path])))
    /\ (forall (before after : list string) (doc_path : string) (data : value) (e : exn),
           make_dir fs = Ok tt ->
           Forall (goes_well web fs net) before ->
           web (doc_url doc_path) = Ok data ->
           Py.truthy data = true ->
           write_file fs (json_stem doc_path ++ ".json") data = Raise e ->
           run_web web (download_docs_from fs (before +++ doc_path :: after))
           = (Raise e, map doc_url (before +++ [doc_path])))
    /\ (forall (paths : list string) (file : string * value),
           In file (saved net paths)
           <-> exists doc_path,
                 In doc_path paths
                 /\ file = (json_stem doc_path ++ ".json", net (doc_url doc_path))
                 /\ Py.truthy (net (doc_url doc_path)) = true).
Proof.
  intros web fs net. split; [|split; [|split; [|split]]].
  - intros paths e Hm. unfold download_docs_from.
    now rewrite run_web_bind, run_web_lift, Hm.
  - intros paths Hm H. split; [|apply length_saved]. unfold download_docs_from.
    rewrite run_web_bind, run_web_lift, Hm. cbn [fst snd app].
    now rewrite (run_web_download_loop _ _ _ _ _ H).
  - intros before after doc_path e Hm H He. unfold download_docs_from.
    rewrite run_web_bind, run_web_lift, Hm. cbn [fst snd app].
    rewrite (run_web_download_abort web fs net before after doc_path e); [reflexivity|exact H|].
    intros st. unfold download_doc. fold (doc_url doc_path).
    now rewrite run_web_bind, run_web_fetch_json, He.
  - intros before after doc_path data e Hm H Hd Ht He. unfold download_docs_from.
    rewrite run_web_bind, run_web_lift, Hm. cbn [fst snd app].
    rewrite (run_web_download_abort web fs net before after doc_path e); [reflexivity|exact H|].
    intros st. unfold download_doc. fold (doc_url doc_path).
    rewrite run_web_bind, run_web_fetch_json, Hd. cbn [fst snd]. rewrite Ht.
    now rewrite run_web_bind, run_web_lift, He.
  - intros paths file. unfold saved. rewrite in_concat. split.
    + intros (l & Hl & Hf). apply in_map_iff in Hl as (doc_path & <- & Hp).
      exists doc_path. destruct (Py.truthy (net (doc_url doc_path))) eqn:Ht; [|destruct Hf].
      destruct Hf as [<-|[]]. now repeat split.
    + intros (doc_path & Hp & -> & Ht).
      exists [(json_stem doc_path ++ ".json", net (doc_url doc_path))]. split; [|now left].
      apply in_map_iff. exists doc_path. now rewrite Ht.
Qed.

Lemma download_stops_at_first_exception_witness :
  run_web (fun url => if String.eqb url (doc_url "screencapturekit/scstream")
                      then Raise UnicodeDecodeError else Ok (JObj [("kind", JStr "symbol")]))
    (download_docs_from sound_disk
       ["screencapturekit"; "screencapturekit/scstream"; "screencapturekit/scwindow"])
  = (Raise UnicodeDecodeError,
     map doc_url (["screencapturekit"] +++ ["screencapturekit/scstream"])).
Proof.
  apply (proj1 (proj2 (proj2
           (download_stops_at_first_exception
              (fun url => if String.eqb url (doc_url "screencapturekit/scstream")
                          then Raise UnicodeDecodeError
                          else Ok (JObj [("kind", JStr "symbol")]))
              sound_disk
              (fun _ => JObj [("kind", JStr "symbol")]))))
         ["screencapturekit"] ["screencapturekit/scwindow"] "screencapturekit/scstream"
         UnicodeDecodeError).
  - reflexivity.
  - constructor; [|constructor]. split; [vm_compute; reflexivity|]. intros _. reflexivity.
  - vm_compute. reflexivity.
Defined.

(** X21. The file that [download_docs] saves for a path one level below
    the framework, [screencapturekit/<name>] with neither slash nor
    underscore in the name, is one that [convert_to_markdown] expands
    exactly when children are asked for.  A stem with an underscore left
    after the framework prefix is never expanded. *)
Theorem expansion_follows_the_stem :
  forall include_children : bool,
    (forall name : string,
        plain_name name = true ->
        should_expand include_children (json_stem ("screencapturekit/" ++ name))
        = include_children)
    /\ (forall rest : string,
           Text.has_substring "screencapturekit_" rest = false ->
           Str.contains "_" rest = true ->
           should_expand include_children ("screencapturekit_" ++ rest) = false).
Proof.
  intros include_children. split.
  - intros name H. rewrite json_stem_app.
    assert (Hs : Str.contains "/" name = false).
    { unfold plain_name in H. apply andb_true_iff in H as (H & _).
      now apply negb_true_iff in H. }
    rewrite (json_stem_no_slash name Hs).
    exact (should_expand_plain include_children name H).
  - intros rest Ha Hu. unfold should_expand.
    rewrite (replace_prefix "s"%char "creencapturekit_" "" rest).
    rewrite (replace_absent _ _ _ Ha). cbn [append].
    rewrite (contains_has_substring "_"%char), Hu. apply andb_false_r.
Qed.

Lemma expansion_follows_the_stem_witness :
  should_expand true (json_stem "screencapturekit/scstream") = true
  /\ should_expand true "screencapturekit_scstream_addstreamoutput" = false.
Proof.
  split.
  - apply (proj1 (expansion_follows_the_stem true) "scstream"). vm_compute. reflexivity.
  - apply (proj2 (expansion_follows_the_stem true) "scstream_addstreamoutput");
      vm_compute; reflexivity.
Defined.



(** X23. The transcript loop of [format_transcript_as_markdown] loses and
    reorders no sentence: it cuts the list of sentences into consecutive
    paragraphs of one to four sentences, writes each on one line with
    single spaces between the sentences and an empty line after it, closes
    a paragraph exactly at its fourth sentence or at the first sentence
    holding one of the keywords, and only the last paragraph may be left
    unclosed. *)
Theorem transcript_paragraphs :
  forall sentences : list string,
    paragraph_lines sentences [] = paragraphs_text (paragraphs sentences [])
    /\ concat (paragraphs sentences []) = sentences
    /\ Forall well_cut (paragraphs sentences [])
    /\ Forall closed (removelast (paragraphs sentences [])).
Proof.
  intros sentences. split; [apply paragraph_lines_paragraphs|].
  apply (paragraphs_cut sentences []); [cbn; lia|constructor].
Qed.

(** X24. On a transcript whose white space is single spaces only (what
    the normalisation of the extracted text leaves),
    [format_transcript_as_markdown] keeps the text: below the header it
    writes paragraphs that, joined by single spaces, give the transcript
    back. *)
Theorem transcript_round_trip :
  forall tv transcript title year session_id : string,
    single_spaced transcript = true ->
    Str.join " " (Text.split_sentences transcript) = transcript
    /\ exists ps : list (list string),
         format_transcript_as_markdown tv transcript title year session_id
         = Str.join Str.nl (transcript_header tv title year session_id
                            +++ paragraphs_text ps)
         /\ Str.join " " (map (Str.join " ") ps) = transcript.
Proof.
  intros tv transcript title year session_id H.
  assert (Hs : Str.join " " (Text.split_sentences transcript) = transcript)
    by now apply split_join_single_spaced.
  split; [exact Hs|].
  exists (paragraphs (Text.split_sentences transcript) []).
  destruct (paragraphs_cut (Text.split_sentences transcript) [])
    as (Hc & Hw & _); [cbn; lia|constructor|].
  split.
  - unfold format_transcript_as_markdown, transcript_header.
    now rewrite paragraph_lines_paragraphs.
  - rewrite join_concat.
    + cbn [app] in Hc. now rewrite Hc.
    + revert Hw. apply Forall_impl. intros p ((Hl & _) & _) ->. cbn in Hl. lia.
Qed.

Lemma transcript_round_trip_witness :
  Str.join " " (Text.split_sentences "Hello there. Now look! Bye.")
  = "Hello there. Now look! Bye.".
Proof.
  apply (transcript_round_trip "" "Hello there. Now look! Bye." "" "" "").
  vm_compute. reflexivity.
Defined.
